(** * arxiv2poster: a shallow embedding and its checked properties

    The development follows the Python sources module by module:

    - [Str]            Python [str] operations used by the program;
    - [Re]             the fragment of [re] needed by [pdf_processor];
    - [PdfProcessor]   [pdf_processor.py];
    - [Runtime]        the effects of the program: exceptions, the remote
                       services, the file system and the output streams,
                       as a state-and-error monad that records a trace;
    - [ArxivDownloader], [PosterGenerator], [Cli]  the remaining modules;
    - [Uploads], [Quiet], [Batch]  notions used to state properties;
    - [Scenario]       scripted outsides, for concrete runs.

    The properties follow the definitions, module by module.

    A Python [str] is modelled by a Rocq [string], read as the sequence of
    its characters; a character is a code point below 256.  The few
    characters of the source literals that lie beyond that range (arrows
    and pictograms in messages) are written as their UTF-8 bytes.  No
    property below depends on them. *)

From Stdlib Require Import Ascii String.
From stdpp Require Import gmap strings list fin_maps pretty.


(** ** Python [str] operations *)

Module Str.

Definition empty : string := EmptyString.

Definition chr (n : nat) : string := String (ascii_of_nat n) EmptyString.

(** The characters that cannot be written inside a literal here. *)
Definition nl : string := chr 10.
Definition dq : string := chr 34.

Definition to_list (s : string) : list ascii := list_ascii_of_string s.
Definition of_list (l : list ascii) : string := string_of_list_ascii l.

(** [len(s)] *)
Definition len (s : string) : nat := String.length s.

(** Truth value of a [str]: the empty string is false. *)
Definition truthy (s : string) : bool :=
  match s with EmptyString => false | String _ _ => true end.

(** Truth value of an [Optional[str]]: [None] and the empty string are false. *)
Definition truthy_opt (o : option string) : bool :=
  match o with None => false | Some s => truthy s end.

Definition eqb (a b : string) : bool := bool_decide (a = b).

(** [s.startswith(p)] *)
Fixpoint startswith (p s : string) : bool :=
  match p, s with
  | EmptyString, _ => true
  | String a p', String b s' => bool_decide (a = b) && startswith p' s'
  | String _ _, EmptyString => false
  end.

(** [p in s] *)
Fixpoint contains (p s : string) : bool :=
  startswith p s ||
  match s with
  | EmptyString => false
  | String _ s' => contains p s'
  end.

(** [s.endswith(p)] *)
Definition endswith (p s : string) : bool :=
  startswith (String.rev p) (String.rev s).

(** [s[n:]] *)
Fixpoint drop (n : nat) (s : string) : string :=
  match n, s with
  | 0, _ => s
  | S n', String _ s' => drop n' s'
  | S _, EmptyString => EmptyString
  end.

(** [s[:n]] *)
Fixpoint take (n : nat) (s : string) : string :=
  match n, s with
  | 0, _ => EmptyString
  | S n', String a s' => String a (take n' s')
  | S _, EmptyString => EmptyString
  end.

Definition in_range (lo hi : nat) (c : ascii) : bool :=
  let n := nat_of_ascii c in (lo <=? n) && (n <=? hi).

Definition is_upper_az (c : ascii) : bool := in_range 65 90 c.
Definition is_lower_az (c : ascii) : bool := in_range 97 122 c.
Definition is_digit (c : ascii) : bool := in_range 48 57 c.

(** [str.isspace] on one character. *)
Definition is_space (c : ascii) : bool :=
  in_range 9 13 c || in_range 28 32 c
  || bool_decide (nat_of_ascii c = 133) || bool_decide (nat_of_ascii c = 160).

(** Alphanumeric characters (letters, digits and other numerics). *)
Definition is_alnum (c : ascii) : bool :=
  is_upper_az c || is_lower_az c || is_digit c
  || bool_decide (nat_of_ascii c = 170)
  || in_range 178 179 c
  || bool_decide (nat_of_ascii c = 181)
  || in_range 185 186 c
  || in_range 188 190 c
  || in_range 192 214 c || in_range 216 246 c || in_range 248 255 c.

(** Characters with a lower-case partner 32 places further. *)
Definition has_lower (c : ascii) : bool :=
  is_upper_az c
  || (in_range 192 222 c && negb (bool_decide (nat_of_ascii c = 215))).

Definition lower_char (c : ascii) : ascii :=
  if has_lower c then ascii_of_nat (nat_of_ascii c + 32) else c.

(** [s.lower()].  On code points below 256 every character has one
    lower-case character; beyond them Python's [lower] may give two (for
    U+0130), so no property below relates the length of the result to the
    length of [s]. *)
Fixpoint lower (s : string) : string :=
  match s with
  | EmptyString => EmptyString
  | String c s' => String (lower_char c) (lower s')
  end.

Definition upper_char (c : ascii) : ascii :=
  if is_lower_az c then ascii_of_nat (nat_of_ascii c - 32) else c.

(** [s.upper()], on the letters a to z. *)
Fixpoint upper (s : string) : string :=
  match s with
  | EmptyString => EmptyString
  | String c s' => String (upper_char c) (upper s')
  end.

(** [s.replace(a, b)] for single characters [a] and [b]. *)
Fixpoint replace_char (a b : ascii) (s : string) : string :=
  match s with
  | EmptyString => EmptyString
  | String c s' =>
      String (if bool_decide (c = a) then b else c) (replace_char a b s')
  end.

(** [sep.join(l)] *)
Fixpoint join (sep : string) (l : list string) : string :=
  match l with
  | [] => EmptyString
  | [x] => x
  | x :: t => x +:+ sep +:+ join sep t
  end.

(** The lines of a text, joined by the newline character. *)
Definition lines (l : list string) : string := join nl l.

(** [s.lstrip()] *)
Fixpoint lstrip (s : string) : string :=
  match s with
  | EmptyString => EmptyString
  | String c s' => if is_space c then lstrip s' else s
  end.

(** [s.strip()] *)
Definition strip (s : string) : string :=
  String.rev (lstrip (String.rev (lstrip s))).

(** [s.split(sep)[-1]] for a single character [sep]: the text after the
    last separator ([acc] holds the segment read so far). *)
Fixpoint last_segment_from (sep : ascii) (acc : string) (s : string) : string :=
  match s with
  | EmptyString => acc
  | String c s' =>
      if bool_decide (c = sep) then last_segment_from sep EmptyString s'
      else last_segment_from sep (acc +:+ String c EmptyString) s'
  end.

Definition last_segment (sep : ascii) (s : string) : string :=
  last_segment_from sep EmptyString s.

(** [str(n)] for a natural number. *)
Definition of_nat (n : nat) : string := pretty n.

End Str.

(** ** Paths, as [pathlib] and [os.path] treat them on a POSIX system *)

Module Path.

(** [s.split('/')] ([acc] holds the segment read so far). *)
Fixpoint split_from (acc : string) (s : string) : list string :=
  match s with
  | EmptyString => [acc]
  | String c s' =>
      if bool_decide (c = "/"%char) then acc :: split_from EmptyString s'
      else split_from (acc +:+ String c EmptyString) s'
  end.

Definition split (s : string) : list string := split_from EmptyString s.

(** The root of a path: one slash, or two when exactly two lead. *)
Definition root (s : string) : string :=
  if Str.startswith "//" s && negb (Str.startswith "///" s) then "//"
  else if Str.startswith "/" s then "/"
  else EmptyString.

Definition keep_part (x : string) : bool :=
  negb (Str.eqb x EmptyString) && negb (Str.eqb x ".").

(** The components of a path: empty ones and [.] are dropped. *)
Definition parts (s : string) : list string :=
  filter (λ x, keep_part x = true) (split s).

Definition render (r : string) (ps : list string) : string :=
  match r, ps with
  | EmptyString, [] => "."
  | _, _ => r +:+ Str.join "/" ps
  end.

(** [str(Path(s))] *)
Definition normalize (s : string) : string := render (root s) (parts s).

(** [os.path.isabs(s)] *)
Definition isabs (s : string) : bool := Str.startswith "/" s.

(** [os.path.join(a, b)] *)
Definition os_path_join (a b : string) : string :=
  if Str.startswith "/" b then b
  else if negb (Str.truthy a) || Str.endswith "/" a then a +:+ b
  else a +:+ "/" +:+ b.

(** [str(Path(a) / b)] *)
Definition joinpath (a b : string) : string := normalize (os_path_join a b).

(** [str(Path(s).parent)] *)
Definition parent (s : string) : string :=
  render (root s) (removelast (parts s)).

End Path.

(** ** The fragment of [re] used by the program

    A backtracking matcher in continuation-passing style, with greedy
    repetition, as Python's [re] module matches.  The cursor keeps the
    character before the current position, which [\b] needs. *)

Module Re.

Inductive regex : Type :=
| Class (p : ascii → bool)        (* one character of a class *)
| Boundary                        (* \b *)
| Cat (r1 r2 : regex)             (* r1 r2 *)
| Star (r : regex).               (* r*, greedy *)

(** r+, greedy *)
Definition Plus (r : regex) : regex := Cat r (Star r).

Record cursor : Type := Cursor {
  before : option ascii;
  rest : list ascii
}.

(** [\w]: alphanumeric or underscore. *)
Definition is_word (c : ascii) : bool :=
  Str.is_alnum c || bool_decide (nat_of_ascii c = 95).

Definition word_at (o : option ascii) : bool :=
  match o with None => false | Some c => is_word c end.

Definition at_boundary (s : cursor) : bool :=
  xorb (word_at (before s)) (word_at (head (rest s))).

(** [rmatch r s k]: match [r] at [s], then continue with [k]; the first
    alternative that lets [k] succeed wins.  A repetition runs at most
    once per remaining character, since an iteration that consumes
    nothing is not repeated. *)
Fixpoint rmatch (r : regex) (s : cursor) (k : cursor → option cursor)
  {struct r} : option cursor :=
  match r with
  | Class p =>
      match rest s with
      | c :: t => if p c then k (Cursor (Some c) t) else None
      | [] => None
      end
  | Boundary => if at_boundary s then k s else None
  | Cat r1 r2 => rmatch r1 s (λ s', rmatch r2 s' k)
  | Star r1 =>
      (fix loop (n : nat) (s : cursor) (k : cursor → option cursor)
         : option cursor :=
         match n with
         | 0 => k s
         | S n' =>
             match rmatch r1 s
                     (λ s', if (length (rest s') <? length (rest s))%nat
                            then loop n' s' k else None) with
             | Some e => Some e
             | None => k s
             end
         end) (length (rest s)) s k
  end.

(** [re.findall] for a pattern without capturing groups that matches no
    empty string: scan left to right, take the match at the first position
    that has one, resume at its end.  [skip] counts the characters still
    covered by the previous match. *)
Fixpoint scan (r : regex) (prev : option ascii) (l : list ascii) (skip : nat)
  : list string :=
  match l with
  | [] => []
  | c :: t =>
      match skip with
      | S n => scan r (Some c) t n
      | 0 =>
          match rmatch r (Cursor prev l) Some with
          | Some e =>
              let n := length l - length (rest e) in
              Str.of_list (take n l) :: scan r (Some c) t (n - 1)
          | None => scan r (Some c) t 0
          end
      end
  end.

Definition findall (r : regex) (text : string) : list string :=
  scan r None (Str.to_list text) 0.

End Re.

(** ** pdf_processor.py *)

Module PdfProcessor.

Import Re.

(** [r'\b[A-Z][a-z]+(?:\s+[A-Z][a-z]+)*\b'] *)
Definition capitalized_word : regex :=
  Cat (Class Str.is_upper_az) (Plus (Class Str.is_lower_az)).

Definition concept_pattern : regex :=
  Cat Boundary
    (Cat capitalized_word
       (Cat (Star (Cat (Plus (Class Str.is_space)) capitalized_word))
          Boundary)).

Definition common_words : list string :=
  ["The"; "This"; "We"; "Our"; "These"; "That"; "In"; "On"; "At"; "For"; "With"].

Definition max_concepts_default : Z := 5.

(** [l[:n]] for a Python [int] [n]: the first [n] items, or, when [n] is
    negative, all but the last [-n]. *)
Definition slice_to {A : Type} (n : Z) (l : list A) : list A :=
  take (Z.to_nat (if (n <? 0)%Z then Z.of_nat (length l) + n else n)) l.

(** [dict.fromkeys(l)]: the keys in insertion order; a key that is
    already present keeps its place. *)
Definition dict_insert_key (d : list string) (k : string) : list string :=
  if bool_decide (k ∈ d) then d else d ++ [k].

Definition dict_fromkeys (l : list string) : list string :=
  foldl dict_insert_key [] l.

(** [[w for w in words if w not in common_words and len(w) > 3]] *)
Definition keep_concept (w : string) : bool :=
  negb (bool_decide (w ∈ common_words)) && (3 <? Str.len w)%nat.

Definition concepts (text : string) : list string :=
  filter (λ w, keep_concept w = true) (findall concept_pattern text).

(** [list(dict.fromkeys(concepts))[:max_concepts]] *)
Definition unique_concepts (text : string) (max_concepts : Z) : list string :=
  slice_to max_concepts (dict_fromkeys (concepts text)).

Definition fallback_concepts : string :=
  "Research, Machine Learning, Deep Learning".

Definition extract_key_concepts_n (text : string) (max_concepts : Z) : string :=
  match unique_concepts text max_concepts with
  | [] => fallback_concepts
  | u => Str.join ", " u
  end.

(** [l.index(x)], when [x] occurs in [l]. *)
Fixpoint first_index (x : string) (l : list string) : option nat :=
  match l with
  | [] => None
  | y :: t => if bool_decide (y = x) then Some 0 else S <$> first_index x t
  end.

(** The call with the default [max_concepts=5]. *)
Definition extract_key_concepts (text : string) : string :=
  extract_key_concepts_n text max_concepts_default.

(** The metadata dictionary built by the downloader; a key may be
    missing, and [get] supplies the default. *)
Record Metadata : Type := {
  md_title : option string;
  md_authors : option (list string);
  md_summary : option string;
  md_entry_id : option string;
  md_published : option string
}.

Record PaperInfo : Type := {
  title : string;
  abstract : string;
  key_concepts : string;
  authors : string
}.

Definition extract_paper_info (pdf_path : string) (metadata : Metadata)
  : PaperInfo :=
  let title := default EmptyString (md_title metadata) in
  let abstract := default EmptyString (md_summary metadata) in
  let key_concepts := extract_key_concepts abstract in
  {| title := title;
     abstract := Str.take 1000 abstract;
     key_concepts := key_concepts;
     authors := Str.join ", " (take 3 (default [] (md_authors metadata))) |}.

End PdfProcessor.

(** ** Effects: exceptions, collaborators, and the monad that threads them *)

Module Runtime.

(** Exception classes, as far as the handlers of the program tell them
    apart.  Everything raised is an [Exception]; interrupts are not
    modelled. *)
Inductive exn_class : Type :=
| ValueError
| RuntimeError
| TypeError
| OtherError (name : string).

(** An exception: its class, its text [str(e)] and the exception it was
    raised [from]. *)
Inductive exn : Type :=
| Exn (cls : exn_class) (msg : string) (cause : option exn).

Definition exn_cls (e : exn) : exn_class := let 'Exn c _ _ := e in c.
Definition exn_str (e : exn) : string := let 'Exn _ m _ := e in m.
Definition exn_cause (e : exn) : option exn := let 'Exn _ _ c := e in c.

Definition is_ValueError (e : exn) : bool :=
  match exn_cls e with ValueError => true | _ => false end.

(** A file held by the generation service. *)
Record File : Type := { file_name : string; file_uri : string }.

(** [types.Part]: a reference to an uploaded file, or text. *)
Inductive Part : Type :=
| FileData (fileUri mimeType : string)
| Text (text : string).

(** An image payload of a response. *)
Definition Image : Type := string.

(** A generation response: [response.parts], possibly [None]; of each
    part, what [as_image()] returns. *)
Record Response : Type := { parts : option (list (option Image)) }.

(** [types.GenerateContentConfig] as the program fills it. *)
Record GenerateContentConfig : Type := {
  response_modalities : list string;
  image_config : gmap string string
}.

(** A search result of the paper repository. *)
Record Paper : Type := {
  paper_title : string;
  paper_authors : list string;
  paper_summary : string;
  paper_entry_id : string;
  paper_published : option string
}.

(** What the program does to the outside, in order. *)
Inductive event : Type :=
| EvArxivResults (id : string)
| EvDownloadPdf (dirpath filename : string)
| EvUpload (file mimeType : string)
| EvGenerate (model : string) (contents : list Part)
             (config : GenerateContentConfig)
| EvDelete (name : string)
| EvSave (path : string)
| EvMkdtemp
| EvMkdir (path : string)
| EvMakedirs (path : string)
| EvRemove (path : string)
| EvStdout (line : string)
| EvStderr (line : string)
| EvTraceback.

(** Calls that reach one of the two remote services. *)
Definition is_remote (ev : event) : bool :=
  match ev with
  | EvArxivResults _ | EvDownloadPdf _ _ | EvUpload _ _
  | EvGenerate _ _ _ | EvDelete _ => true
  | _ => false
  end.

(** Readings of a trace: what went to each output stream, and the
    remote calls, each by a short label. *)
Definition stdout_of (t : list event) : list string :=
  omap (λ ev, match ev with EvStdout s => Some s | _ => None end) t.

Definition stderr_of (t : list event) : list string :=
  omap (λ ev, match ev with EvStderr s => Some s | _ => None end) t.

Definition remote_label (ev : event) : option string :=
  match ev with
  | EvArxivResults id => Some ("arxiv.results " +:+ id)
  | EvDownloadPdf _ f => Some ("arxiv.download_pdf " +:+ f)
  | EvUpload f _ => Some ("files.upload " +:+ f)
  | EvGenerate m _ _ => Some ("models.generate_content " +:+ m)
  | EvDelete n => Some ("files.delete " +:+ n)
  | _ => None
  end.

Definition remote_calls (t : list event) : list string :=
  omap remote_label t.

(** The configurations of the generation calls of a run, in order. *)
Definition sent_configs (t : list event) : list GenerateContentConfig :=
  omap (λ ev, match ev with EvGenerate _ _ c => Some c | _ => None end) t.

(** What a run did besides printing: its events without the lines on
    the output streams and the tracebacks. *)
Definition is_print (ev : event) : bool :=
  match ev with
  | EvStdout _ | EvStderr _ | EvTraceback => true
  | _ => false
  end.

Definition effects (t : list event) : list event :=
  filter (λ ev, is_print ev = false) t.

(** The collaborators, over a state [W] of the outside world.  Each
    call returns a value or raises, and may change the world. *)
Record Env (W : Type) : Type := {
  os_getenv : string → W → option string;
  path_exists : string → W → bool;
  path_mkdir : string → W → (exn + unit) * W;
  os_makedirs : string → W → (exn + unit) * W;
  os_remove : string → W → (exn + unit) * W;
  tempfile_mkdtemp : W → (exn + string) * W;
  arxiv_results : string → W → (exn + list Paper) * W;
  paper_download_pdf : Paper → string → string → W → (exn + unit) * W;
  (* the first argument of the next four is the client's API key *)
  files_upload : string → string → string → W → (exn + File) * W;
  files_delete : string → string → W → (exn + unit) * W;
  models_generate_content :
    string → string → list Part → GenerateContentConfig →
    W → (exn + Response) * W;
  image_save : Image → string → W → (exn + unit) * W
}.

Arguments os_getenv {W}. Arguments path_exists {W}.
Arguments path_mkdir {W}. Arguments os_makedirs {W}.
Arguments os_remove {W}. Arguments tempfile_mkdtemp {W}.
Arguments arxiv_results {W}. Arguments paper_download_pdf {W}.
Arguments files_upload {W}. Arguments files_delete {W}.
Arguments models_generate_content {W}. Arguments image_save {W}.

(** How a computation ends: with a value, with an exception, or not at
    all (a loop that ran out of its bound). *)
Inductive result (A : Type) : Type :=
| Ok (a : A)
| Raised (e : exn)
| Diverged.

Arguments Ok {A}. Arguments Raised {A}. Arguments Diverged {A}.

Record run (W A : Type) : Type := Run {
  res : result A;
  world : W;
  trace : list event
}.

Arguments Run {W A}. Arguments res {W A}.
Arguments world {W A}. Arguments trace {W A}.

Definition M (W A : Type) : Type := W → run W A.

Section Monad.
Context {W : Type}.

Definition ret {A} (a : A) : M W A := λ w, Run (Ok a) w [].

Definition raise {A} (e : exn) : M W A := λ w, Run (Raised e) w [].

Definition diverge {A} : M W A := λ w, Run Diverged w [].

Definition bind {A B} (m : M W A) (k : A → M W B) : M W B :=
  λ w,
    let r := m w in
    match res r with
    | Ok a =>
        let r' := k a (world r) in
        Run (res r') (world r') (trace r ++ trace r')
    | Raised e => Run (Raised e) (world r) (trace r)
    | Diverged => Run Diverged (world r) (trace r)
    end.

(** [try: m  except Exception as e: h e] *)
Definition try_except {A} (m : M W A) (h : exn → M W A) : M W A :=
  λ w,
    let r := m w in
    match res r with
    | Raised e =>
        let r' := h e (world r) in
        Run (res r') (world r') (trace r ++ trace r')
    | _ => r
    end.

(** [try: m  finally: f]: [f] runs however [m] ends; what [m] returned
    or raised stands unless [f] itself raises. *)
Definition try_finally {A} (m : M W A) (f : M W unit) : M W A :=
  λ w,
    let r := m w in
    match res r with
    | Diverged => r
    | _ =>
        let r' := f (world r) in
        Run (match res r' with
             | Ok _ => res r
             | Raised e => Raised e
             | Diverged => Diverged
             end) (world r') (trace r ++ trace r')
    end.

(** A call to a collaborator, recorded in the trace. *)
Definition call {A} (ev : event) (f : W → (exn + A) * W) : M W A :=
  λ w,
    let '(r, w') := f w in
    Run (match r with inl e => Raised e | inr a => Ok a end) w' [ev].

(** A read of the world that cannot fail. *)
Definition ask {A} (f : W → A) : M W A := λ w, Run (Ok (f w)) w [].

Definition emit (ev : event) : M W unit := λ w, Run (Ok tt) w [ev].

(** [print(line)] and [print(line, file=sys.stderr)] *)
Definition print (line : string) : M W unit := emit (EvStdout line).
Definition eprint (line : string) : M W unit := emit (EvStderr line).

Definition when (b : bool) (m : M W unit) : M W unit :=
  if b then m else ret tt.

(** [try: m  except: pass] *)
Definition ignore_errors (m : M W unit) : M W unit :=
  try_except m (λ _, ret tt).

(** A computation that comes to an end in every world. *)
Definition terminates {A} (m : M W A) : Prop :=
  ∀ w, res (m w) ≠ Diverged.

End Monad.

Declare Scope monad_scope.
Delimit Scope monad_scope with M.
Notation "'let*' x ':=' m 'in' k" := (bind m (λ x, k))
  (at level 10, x pattern, m at level 100, k at level 200) : monad_scope.
Notation "m ';;' k" := (bind m (λ _, k))
  (at level 100, k at level 200, right associativity) : monad_scope.

End Runtime.


(** ** arxiv_downloader.py *)

Module ArxivDownloader.

Import Runtime PdfProcessor.
Local Open Scope monad_scope.

Section WithEnv.
Context {W : Type} (env : Env W).

Definition download_arxiv_pdf (arxiv_id : string)
    (output_dir : option string) : M W (string * Metadata) :=
  let clean_id :=
    if Str.contains "/" arxiv_id then Str.last_segment "/" arxiv_id
    else arxiv_id in
  let* output_dir :=
    match output_dir with
    | None => call EvMkdtemp (tempfile_mkdtemp env)
    | Some d => ret d
    end in
  call (EvMakedirs output_dir) (os_makedirs env output_dir);;
  let* results :=
    call (EvArxivResults clean_id) (arxiv_results env clean_id) in
  match results with
  | [] =>
      raise (Exn ValueError
               ("Paper with ID " +:+ arxiv_id +:+ " not found on arXiv")
               None)
  | paper :: _ =>
      let pdf_filename := clean_id +:+ ".pdf" in
      let pdf_path := Path.os_path_join output_dir pdf_filename in
      call (EvDownloadPdf output_dir pdf_filename)
           (paper_download_pdf env paper output_dir pdf_filename);;
      let metadata :=
        {| md_title := Some (paper_title paper);
           md_authors := Some (paper_authors paper);
           md_summary := Some (paper_summary paper);
           md_entry_id := Some (paper_entry_id paper);
           md_published := paper_published paper |} in
      ret (pdf_path, metadata)
  end.

End WithEnv.

End ArxivDownloader.

(** ** poster_generator.py *)

Module PosterGenerator.

Import Runtime PdfProcessor.
Local Open Scope monad_scope.

Definition model_map : gmap string string :=
  <["pro" := "gemini-3-pro-image-preview"]>
    (<["flash" := "gemini-2.5-flash-image"]> ∅).

(** The aspect ratios the generation service accepts. *)
Definition supported_aspect_ratios : list string :=
  ["1:1"; "2:3"; "3:2"; "3:4"; "4:3"; "4:5"; "5:4"; "9:16"; "16:9"; "21:9"].

Definition aspect_ratio (orientation : string) (side_panel : option string)
  : string :=
  if Str.truthy_opt side_panel then
    if Str.eqb orientation "landscape" then "21:9" else "4:3"
  else
    if Str.eqb orientation "landscape" then "3:2" else "3:4".

Definition ordering_principle (orientation : string) : string :=
  if Str.eqb orientation "landscape" then
    Str.lines [
      "- Sections must follow column-first ordering principle: read top to bottom within each column, then move to the next column (left to right)";
      "- Example to illustrate the principle (NOT a strict template):";
      "  If using 3 columns with 2 rows: Column 1 (top→bottom), Column 2 (top→bottom), Column 3 (top→bottom)";
      "  Reading flows vertically down each column before moving to the next column";
      "- Adapt the layout to fit the content naturally while maintaining column-first ordering" ]
  else
    Str.lines [
      "- Sections must follow row-first ordering principle: read left to right within each row, then move to the next row (top to bottom)";
      "- Example to illustrate the principle (NOT a strict template):";
      "  If using 2 rows with 3 columns: Row 1 (left→right), Row 2 (left→right)";
      "  Reading flows horizontally across each row before moving to the next row";
      "- Adapt the layout to fit the content naturally while maintaining row-first ordering" ].

Definition resolution_text (model resolution : string) : string :=
  if Str.eqb model "pro" then "- Resolution: " +:+ resolution +:+ Str.nl
  else EmptyString.

Definition whatif_section (whatif_text : option string) : string :=
  match whatif_text with
  | Some t =>
      if Str.truthy t then
        Str.lines [
          EmptyString;
          "WHAT IF IDEA TO INCORPORATE:";
          "- The user wants to explore: " +:+ Str.dq +:+ t +:+ Str.dq;
          "- This is a new idea or variation to add on top of the existing research work";
          "- Incorporate this " +:+ Str.dq +:+ "what if" +:+ Str.dq +:+ " concept into the poster while maintaining the core research content";
          "- Show how this idea relates to or extends the existing work";
          "- Make it visually clear that this is an extension or variation of the original research";
          "- The poster should reflect both the original paper content AND this new " +:+ Str.dq +:+ "what if" +:+ Str.dq +:+ " idea";
          EmptyString ]
      else EmptyString
  | None => EmptyString
  end.

(** The four texts chosen by the kind of side panel. *)
Record Layout : Type := {
  layout_structure : string;
  side_panel_section : string;
  layout_note : string;
  side_panel_description : string
}.

Definition qa_layout : Layout :=
  {| layout_structure :=
       Str.lines [
         "LAYOUT STRUCTURE:";
         "The image must be divided into TWO DISTINCT SECTIONS side by side:";
         EmptyString;
         "LEFT SIDE (60-65% of width): ACADEMIC POSTER" ];
     side_panel_section :=
       Str.lines [
         EmptyString;
         "RIGHT SIDE (35-40% of width): Q&A CHAT INTERFACE";
         "- Design a modern chat interface/messaging app style box";
         "- Include a chat header/title area (e.g., " +:+ Str.dq +:+ "Questions & Answers" +:+ Str.dq +:+ " or " +:+ Str.dq +:+ "Q&A About This Paper" +:+ Str.dq +:+ ")";
         "- Display up to 4 common questions and answers about the paper in a chat bubble format (maximum 4 Q&A pairs total)";
         "- Questions should appear as user messages (typically on the right, different color/style)";
         "- Answers should appear as assistant/bot messages (typically on the left, different color/style)";
         "- Use chat bubble design with rounded corners, appropriate colors, and clear visual distinction";
         "- Questions should cover: methodology, key findings, applications, limitations, contributions";
         "- Answers should be concise, informative, and directly address the questions";
         "- Include scrollable chat appearance or multiple visible Q&A pairs";
         "- Make it look like a real chat interface (modern, clean, professional)";
         EmptyString;
         "VISUAL SEPARATION:";
         "- Use a clear vertical divider or visual separator between the two sections";
         "- Can use a subtle border, different background colors, or shadow effects";
         "- Ensure both sections are visually distinct but harmoniously integrated" ];
     layout_note := "Side-by-side design with Q&A chat interface";
     side_panel_description := "Q&A chat interface" |}.

Definition full_width_layout : Layout :=
  {| layout_structure :=
       Str.lines [
         "LAYOUT STRUCTURE:";
         "The image is a single, full-width academic poster:" ];
     side_panel_section := EmptyString;
     layout_note := "Full-width poster layout";
     side_panel_description := EmptyString |}.

Definition is_qa (side_panel : option string) : bool :=
  bool_decide (side_panel = Some "qa").

(** [if side_panel == "qa": ... elif side_panel: ... else: ...] *)
Definition layout (side_panel : option string) : Layout :=
  if is_qa side_panel then qa_layout
  else if Str.truthy_opt side_panel then full_width_layout
  else full_width_layout.

Definition is_whatif (whatif_text existing_poster_path : option string)
  : bool :=
  bool_decide (whatif_text ≠ None)
  && bool_decide (existing_poster_path ≠ None).

Definition qa_content_requirements (side_panel : option string) : string :=
  if is_qa side_panel then
    Str.lines [
      EmptyString;
      "Q&A CONTENT REQUIREMENTS (Right Side):";
      "- Generate realistic, common questions that researchers or readers would ask about this paper";
      "- Questions should be specific to the paper's content, methodology, and findings";
      "- Answers should be accurate, concise, and directly based on the paper's content";
      "- Cover diverse aspects: technical details, practical applications, limitations, future work";
      "- Make Q&As informative and valuable for understanding the paper";
      EmptyString ]
  else EmptyString.

Definition poster_prompt (orientation resolution model language : string)
    (side_panel whatif_text existing_poster_path : option string) : string :=
  let aspect_ratio := aspect_ratio orientation side_panel in
  let lay := layout side_panel in
  let variation_note :=
    if is_whatif whatif_text existing_poster_path
    then " (variation incorporating a 'what if' idea)" else EmptyString in
  let side_panel_note :=
    if Str.truthy (side_panel_description lay)
    then " with " +:+ side_panel_description lay else EmptyString in
  Str.lines [
    EmptyString;
    "Create an academic poster" +:+ side_panel_note +:+ variation_note +:+ " for this research paper.";
    whatif_section whatif_text;
    layout_structure lay;
    "- Traditional academic poster layout with all key research information";
    "- Use a clear grid-based layout with well-defined sections";
    "- The number of sections, rows, and columns should be determined by the content and what makes sense for the paper";
    ordering_principle orientation;
    "- Ensure proper spacing between elements";
    "- Organize content in logical flow";
    "- Use visual separators to distinguish sections";
    "- Maintain consistent margins and padding";
    "- Ensure text blocks are properly aligned";
    side_panel_section lay;
    EmptyString;
    "POSTER SPECIFICATIONS:";
    "- Orientation: " +:+ Str.upper orientation +:+ " (" +:+ aspect_ratio +:+ " aspect ratio)";
    resolution_text model resolution +:+ "- Language: Generate all content (poster text" +:+ (if Str.truthy_opt side_panel then " and side panel content" else EmptyString) +:+ ", labels) in " +:+ language;
    "- Overall Layout: " +:+ layout_note lay;
    EmptyString;
    "LEFT SIDE - POSTER DESIGN APPROACH:";
    "- Visually appealing with title prominently displayed";
    "- Clean, professional design with good typography and visual hierarchy";
    "- Suitable for academic presentation and readable from a distance";
    "- Focus on insights and key information, not lengthy descriptions";
    EmptyString;
    "POSTER CONTENT STRATEGY:";
    "- **Title**: Large, bold, prominent";
    "- **Key Insights**: Focus on main contributions and findings (not detailed descriptions)";
    "- **Visual Elements**: Include important figures, diagrams, and visual elements from the paper";
    "- **Methodology**: Highlight the approach, not exhaustive details";
    "- **Results**: Emphasize key results and conclusions with visual emphasis";
    "- **Takeaways**: Make insights clear and immediately understandable";
    qa_content_requirements side_panel;
    "IMPORTANT: ";
    "- The poster should prioritize visual communication over text. Use insights, highlights, and key points rather than descriptive paragraphs.";
    (if is_qa side_panel then "- The Q&A side should look like a real, modern chat interface with proper chat bubble styling." else EmptyString);
    (if is_qa side_panel then "- Both sides should work together as a cohesive single image that provides both visual poster information and interactive Q&A content." else "- The poster should convey the essence of the research quickly and effectively.");
    EmptyString ].

Definition reference_note : string :=
  Str.nl +:+ "REFERENCE: The uploaded image above is the existing poster. Use it as a reference and incorporate the 'what if' idea while maintaining the overall structure and style." +:+ Str.nl.

(** The request contents: the PDF, then the reference poster and its
    note when a poster was uploaded, then the prompt. *)
Definition contents (pdf_uri : string) (poster_uri : option string)
    (prompt : string) : list Part :=
  [FileData pdf_uri "application/pdf"]
  ++ match poster_uri with
     | Some u =>
         if Str.truthy u
         then [FileData u "image/png"; Text reference_note] else []
     | None => []
     end
  ++ [Text prompt].

Definition image_config_params (model resolution aspect_ratio : string)
  : gmap string string :=
  let params : gmap string string := {["aspectRatio" := aspect_ratio]} in
  if Str.eqb model "pro" then <["imageSize" := resolution]> params
  else params.

(** The test on the text of a failed generation call. *)
Definition is_api_key_error (error_msg : string) : bool :=
  Str.contains "API key" error_msg
  || Str.contains "API_KEY" error_msg
  || Str.contains "expired" (Str.lower error_msg).

Definition api_key_error (e : exn) : exn :=
  Exn ValueError
    ("API key error: " +:+ exn_str e +:+ Str.nl +:+
     "Please check that your GEMINI_API_KEY or GOOGLE_API_KEY is valid and not expired.")
    (Some e).

(** The first part of a response that decodes as an image. *)
Fixpoint first_image (ps : list (option Image)) : option Image :=
  match ps with
  | [] => None
  | Some i :: _ => Some i
  | None :: t => first_image t
  end.

Section WithEnv.
Context {W : Type} (env : Env W).

(** [os.getenv("GEMINI_API_KEY") or os.getenv("GOOGLE_API_KEY")] *)
Definition api_key_from_env (w : W) : option string :=
  if Str.truthy_opt (os_getenv env "GEMINI_API_KEY" w)
  then os_getenv env "GEMINI_API_KEY" w
  else os_getenv env "GOOGLE_API_KEY" w.

(** The [finally] block: delete what was uploaded, ignoring errors. *)
Definition cleanup (client : string) (uploaded_pdf : File)
    (uploaded_poster : option File) : M W unit :=
  ignore_errors
    (call (EvDelete (file_name uploaded_pdf))
          (files_delete env client (file_name uploaded_pdf)));;
  match uploaded_poster with
  | Some f =>
      ignore_errors
        (call (EvDelete (file_name f))
              (files_delete env client (file_name f)))
  | None => ret tt
  end.

Definition generate_poster (pdf_path : string) (paper_info : PaperInfo)
    (orientation resolution model language : string)
    (side_panel whatif_text existing_poster_path api_key : option string)
    (output_path : string) : M W string :=
  let* api_key :=
    match api_key with
    | None => ask api_key_from_env
    | Some k => ret (Some k)
    end in
  if negb (Str.truthy_opt api_key) then
    raise (Exn ValueError
             "API key not provided. Set GEMINI_API_KEY or GOOGLE_API_KEY environment variable, or pass --api-key argument."
             None)
  else
  let client := default EmptyString api_key in
  match model_map !! model with
  | None =>
      raise (Exn ValueError
               ("Invalid model: " +:+ model +:+ ". Must be 'pro' or 'flash'")
               None)
  | Some api_model =>
      let aspect_ratio := aspect_ratio orientation side_panel in
      let* uploaded_pdf :=
        try_except
          (call (EvUpload pdf_path "application/pdf")
                (files_upload env client pdf_path "application/pdf"))
          (λ e, raise (Exn RuntimeError
                         ("Failed to upload PDF file: " +:+ exn_str e)
                         (Some e))) in
      let pdf_uri := file_uri uploaded_pdf in
      let* uploaded_poster :=
        match existing_poster_path with
        | Some p =>
            if Str.truthy p then
              let* f :=
                try_except
                  (call (EvUpload p "image/png")
                        (files_upload env client p "image/png"))
                  (λ e, raise (Exn RuntimeError
                                 ("Failed to upload existing poster image: "
                                  +:+ exn_str e)
                                 (Some e))) in
              ret (Some f)
            else ret None
        | None => ret None
        end in
      let poster_uri := file_uri <$> uploaded_poster in
      let prompt :=
        poster_prompt orientation resolution model language
          side_panel whatif_text existing_poster_path in
      let contents := contents pdf_uri poster_uri prompt in
      let config :=
        {| response_modalities := ["TEXT"; "IMAGE"];
           image_config :=
             image_config_params model resolution aspect_ratio |} in
      let* response :=
        try_finally
          (try_except
             (call (EvGenerate api_model contents config)
                   (models_generate_content env client api_model
                      contents config))
             (λ e,
                if is_api_key_error (exn_str e)
                then raise (api_key_error e)
                else raise e))
          (cleanup client uploaded_pdf uploaded_poster) in
      match parts response with
      | None =>
          raise (Exn TypeError "'NoneType' object is not iterable" None)
      | Some ps =>
          match first_image ps with
          | Some image =>
              call (EvSave output_path) (image_save env image output_path);;
              ret output_path
          | None =>
              raise (Exn RuntimeError
                       "No image was generated in the API response" None)
          end
      end
  end.

End WithEnv.

End PosterGenerator.

(** ** cli.py *)

Module Cli.

Import Runtime PdfProcessor.
Local Open Scope monad_scope.

(** The pictograms that open the messages, as the source spells them. *)
Definition mark_error : string := "âŒ".
Definition mark_warning : string := "âš ï¸".
Definition mark_page : string := "ðŸ“„".
Definition mark_check : string := "âœ“".
Definition mark_memo : string := "ðŸ“".
Definition mark_outbox : string := "ðŸ“¤".
Definition mark_sparkles : string := "âœ¨".

Definition normalize_arxiv_id (arxiv_id : string) : string :=
  let arxiv_id := Str.strip arxiv_id in
  if Str.startswith "arxiv:" arxiv_id then Str.drop 6 arxiv_id
  else arxiv_id.

(** The parsed command line. *)
Record Args : Type := {
  arxiv_ids : list string;
  orientation : string;
  output_dir : string;
  output : option string;
  model : string;
  resolution : string;
  language : string;
  side_panel : option string;
  whatif : option string;
  api_key : option string;
  verbose : bool
}.

(** What the argument parser lets through: at least one identifier, and
    the listed choices for the options that have them. *)
Definition parsed (args : Args) : Prop :=
  arxiv_ids args ≠ []
  ∧ orientation args ∈ ["landscape"; "portrait"]
  ∧ model args ∈ ["pro"; "flash"]
  ∧ resolution args ∈ ["1K"; "2K"; "4K"]
  ∧ side_panel args ∈ [None; Some "qa"].

(** The same command line with another [--resolution]. *)
Definition set_resolution (r : string) (args : Args) : Args :=
  {| arxiv_ids := arxiv_ids args;
     orientation := orientation args;
     output_dir := output_dir args;
     output := output args;
     model := model args;
     resolution := r;
     language := language args;
     side_panel := side_panel args;
     whatif := whatif args;
     api_key := api_key args;
     verbose := verbose args |}.

(** The same command line with or without [--verbose]. *)
Definition set_verbose (b : bool) (args : Args) : Args :=
  {| arxiv_ids := arxiv_ids args;
     orientation := orientation args;
     output_dir := output_dir args;
     output := output args;
     model := model args;
     resolution := resolution args;
     language := language args;
     side_panel := side_panel args;
     whatif := whatif args;
     api_key := api_key args;
     verbose := b |}.

Definition warning_resolution_ignored : string :=
  mark_warning +:+ "  Warning: --resolution is ignored when using --model flash (Nano Banana doesn't support resolution).".

Definition clean_id (arxiv_id : string) : string :=
  if Str.contains "/" arxiv_id then Str.last_segment "/" arxiv_id
  else arxiv_id.

Definition lang_normalized (args : Args) : string :=
  Str.replace_char " " "_" (Str.lower (language args)).

Definition side_panel_suffix (args : Args) : string :=
  if Str.truthy_opt (side_panel args)
  then default EmptyString (side_panel args) else "nopanel".

(** The file name without its extension and variant suffix. *)
Definition poster_stem (args : Args) (arxiv_id : string) : string :=
  "poster_" +:+ clean_id arxiv_id +:+ "_" +:+ orientation args +:+ "_"
  +:+ lang_normalized args +:+ "_" +:+ side_panel_suffix args.

Definition base_filename (args : Args) (arxiv_id : string) : string :=
  poster_stem args arxiv_id +:+ ".png".

Definition variant_filename (args : Args) (arxiv_id : string)
    (variant_num : nat) : string :=
  poster_stem args arxiv_id +:+ "_var_" +:+ Str.of_nat variant_num +:+ ".png".

Definition base_path (args : Args) (arxiv_id : string) : string :=
  Path.joinpath (output_dir args) (base_filename args arxiv_id).

Definition variant_path (args : Args) (arxiv_id : string)
    (variant_num : nat) : string :=
  Path.joinpath (output_dir args) (variant_filename args arxiv_id variant_num).

(** The [while True] loop that looks for a free variant number; [fuel]
    bounds the number of probes. *)
Fixpoint find_variant (fuel : nat) (exists_ : string → bool)
    (path_of : nat → string) (variant_num : nat) : option nat :=
  match fuel with
  | 0 => None
  | S fuel' =>
      if exists_ (path_of variant_num)
      then find_variant fuel' exists_ path_of (S variant_num)
      else Some variant_num
  end.

Definition model_display (args : Args) : string :=
  if Str.eqb (model args) "pro" then "Nano Banana Pro" else "Nano Banana".

Definition resolution_display (args : Args) : string :=
  if Str.eqb (model args) "pro" then ", " +:+ resolution args
  else EmptyString.

Definition whatif_display (args : Args) : string :=
  if Str.truthy_opt (whatif args)
  then " with 'what if' idea: '" +:+ default EmptyString (whatif args) +:+ "'"
  else EmptyString.

Definition rule : string := Str.join EmptyString (replicate 60 "=").

(** How the body of the [try] block was left: at its end, or by
    [continue] after the identifier was recorded as failed. *)
Inductive body_end : Type := Completed | Continued.

Definition downloader (W : Type) : Type :=
  string → M W (string * Metadata).

Definition generator (W : Type) : Type :=
  string → PaperInfo → string → string → string → string →
  option string → option string → option string → option string →
  string → M W string.

Section WithEnv.
Context {W : Type} (env : Env W).
(** The two functions the module imports. *)
Context (download_arxiv_pdf : downloader W) (generate_poster : generator W).

(** The output path for one paper, or [None] when the paper is given
    up before any processing. *)
Definition choose_output_path (fuel : nat) (args : Args)
    (arxiv_id : string) : M W (option string) :=
  match output args with
  | None =>
      if Str.truthy_opt (whatif args) then
        let existing_poster_path := base_path args arxiv_id in
        let* found := ask (path_exists env existing_poster_path) in
        if negb found then
          eprint (mark_error +:+ " Error: Existing poster file not found: "
                  +:+ existing_poster_path);;
          eprint "   Please generate the base poster first without --whatif.";;
          ret None
        else
          let* variant_num :=
            ask (λ w, find_variant fuel (λ p, path_exists env p w)
                        (variant_path args arxiv_id) 1) in
          match variant_num with
          | Some n => ret (Some (variant_path args arxiv_id n))
          | None => diverge
          end
      else ret (Some (base_path args arxiv_id))
  | Some out =>
      let output_path :=
        if negb (Path.isabs out) then Path.joinpath (output_dir args) out
        else out in
      call (EvMkdir (Path.parent output_path))
           (path_mkdir env (Path.parent output_path));;
      ret (Some output_path)
  end.

(** Download, extract, generate, report, remove the temporary PDF. *)
Definition process_paper (args : Args) (arxiv_id output_path : string)
  : M W unit :=
  when (verbose args)
    (print (mark_page +:+ " Downloading paper " +:+ arxiv_id
            +:+ " from arXiv..."));;
  let* (pdf_path, metadata) := download_arxiv_pdf arxiv_id in
  when (verbose args)
    (print (mark_check +:+ " Downloaded: "
            +:+ default "Unknown" (md_title metadata));;
     print ("  Authors: "
            +:+ Str.join ", " (take 3 (default [] (md_authors metadata)))));;
  when (verbose args) (print (mark_memo +:+ " Extracting paper metadata..."));;
  let paper_info := extract_paper_info pdf_path metadata in
  when (verbose args) (print (mark_check +:+ " Paper metadata extracted"));;
  when (verbose args)
    (print (mark_outbox +:+ " Uploading PDF"
            +:+ (if Str.truthy_opt (whatif args)
                 then " and existing poster" else EmptyString)
            +:+ " to Gemini and generating poster (" +:+ orientation args
            +:+ resolution_display args +:+ ", " +:+ model_display args
            +:+ ")" +:+ whatif_display args +:+ "...");;
     print "   This may take a minute...");;
  let existing_poster_path :=
    if Str.truthy_opt (whatif args)
    then Some (base_path args arxiv_id) else None in
  let* final_output_path :=
    generate_poster pdf_path paper_info (orientation args)
      (resolution args) (model args) (language args) (side_panel args)
      (whatif args) existing_poster_path (api_key args) output_path in
  when (verbose args) (print (mark_check +:+ " Poster generated successfully!"));;
  print (mark_sparkles +:+ " Poster saved to: " +:+ final_output_path);;
  when (Str.contains "/tmp" pdf_path)
    (ignore_errors (call (EvRemove pdf_path) (os_remove env pdf_path))).

(** The body of the [try] block. *)
Definition try_body (fuel : nat) (args : Args) (arxiv_id : string)
  : M W body_end :=
  let* output_path := choose_output_path fuel args arxiv_id in
  match output_path with
  | None => ret Continued
  | Some p => process_paper args arxiv_id p;; ret Completed
  end.

(** One turn of the loop, on the counters [(success_count, failed_ids)]. *)
Definition iteration (fuel : nat) (args : Args) (n idx : nat)
    (arxiv_id : string) (st : nat * list string)
  : M W (nat * list string) :=
  let '(success_count, failed_ids) := st in
  when (1 <? n)
    (print (Str.nl +:+ "[" +:+ Str.of_nat idx +:+ "/" +:+ Str.of_nat n
            +:+ "] Processing " +:+ arxiv_id +:+ "..."));;
  try_except
    (let* r := try_body fuel args arxiv_id in
     match r with
     | Completed => ret (S success_count, failed_ids)
     | Continued => ret (success_count, failed_ids ++ [arxiv_id])
     end)
    (λ e,
       if is_ValueError e then
         eprint (mark_error +:+ " Error processing " +:+ arxiv_id +:+ ": "
                 +:+ exn_str e);;
         ret (success_count, failed_ids ++ [arxiv_id])
       else
         eprint (mark_error +:+ " Unexpected error processing "
                 +:+ arxiv_id +:+ ": " +:+ exn_str e);;
         when (verbose args) (emit EvTraceback);;
         ret (success_count, failed_ids ++ [arxiv_id])).

(** [for idx, arxiv_id in enumerate(arxiv_ids, 1)] *)
Fixpoint process_ids (fuel : nat) (args : Args) (n idx : nat)
    (ids : list string) (st : nat * list string)
  : M W (nat * list string) :=
  match ids with
  | [] => ret st
  | arxiv_id :: rest =>
      let* st' := iteration fuel args n idx arxiv_id st in
      process_ids fuel args n (S idx) rest st'
  end.

(** The summary and the exit code. *)
Definition summary (n : nat) (st : nat * list string) : M W nat :=
  let '(success_count, failed_ids) := st in
  if 1 <? n then
    print (Str.nl +:+ rule);;
    print ("Summary: " +:+ Str.of_nat success_count +:+ "/" +:+ Str.of_nat n
           +:+ " posters generated successfully");;
    when (bool_decide (failed_ids ≠ []))
      (print ("Failed IDs: " +:+ Str.join ", " failed_ids));;
    print rule;;
    ret (if success_count =? n then 0 else 1)
  else ret (if 0 <? success_count then 0 else 1).

Definition main_with (fuel : nat) (args : Args) : M W nat :=
  let arxiv_ids := normalize_arxiv_id <$> arxiv_ids args in
  let n := length arxiv_ids in
  call (EvMkdir (Path.normalize (output_dir args)))
       (path_mkdir env (Path.normalize (output_dir args)));;
  if (1 <? n) && bool_decide (output args ≠ None) then
    eprint (mark_error +:+ " Error: --output option cannot be used when processing multiple arXiv IDs.");;
    eprint "   Each paper will be saved with its default filename in the output directory.";;
    ret 1
  else
    when (Str.eqb (model args) "flash"
          && negb (Str.eqb (resolution args) "2K"))
      (eprint warning_resolution_ignored);;
    if Str.truthy_opt (whatif args) && (1 <? n) then
      eprint (mark_error +:+ " Error: --whatif cannot be used when processing multiple arXiv IDs.");;
      ret 1
    else
      let* st := process_ids fuel args n 1 arxiv_ids (0, []) in
      summary n st.

End WithEnv.

(** [main], with the functions it imports. *)
Definition main {W : Type} (env : Env W) (fuel : nat) (args : Args)
  : M W nat :=
  main_with env
    (λ arxiv_id, ArxivDownloader.download_arxiv_pdf env arxiv_id None)
    (PosterGenerator.generate_poster env) fuel args.

End Cli.

(** ** Specification devices *)

Module Uploads.

Import Runtime.

(** The reference poster, when one is asked for, uploads without
    error: [up] is the file obtained, if any, and [w2] the world after. *)
Definition poster_uploaded {W : Type} (env : Env W) (client : string)
    (existing_poster_path : option string) (w1 : W)
    (up : option File) (w2 : W) : Prop :=
  match existing_poster_path with
  | Some p =>
      if Str.truthy p then
        ∃ fp, files_upload env client p "image/png" w1 = (inr fp, w2)
              ∧ up = Some fp
      else up = None ∧ w2 = w1
  | None => up = None ∧ w2 = w1
  end.

End Uploads.

Module Quiet.

Import Runtime.

(** Two computations that differ at most in what they print on the
    standard output and in their tracebacks: from every world they end
    alike, in the same world, after the same other events and the same
    lines on the error stream. *)
Definition same_but_output {W A : Type} (m m' : M W A) : Prop :=
  ∀ w,
    res (m w) = res (m' w)
    ∧ world (m w) = world (m' w)
    ∧ effects (trace (m w)) = effects (trace (m' w))
    ∧ stderr_of (trace (m w)) = stderr_of (trace (m' w)).

End Quiet.

Module Batch.

Import Runtime Cli.

Section WithEnv.
Context {W : Type} (env : Env W).
Context (download_arxiv_pdf : downloader W) (generate_poster : generator W).

(** The identifiers of a batch, each with the outcome of its attempt
    ([true] when the body of the [try] block ran to its end); every
    attempt is made in the world the previous turn of the loop left. *)
Fixpoint batch_log (fuel : nat) (args : Args) (n idx : nat)
    (ids : list string) (w : W) : list (string * bool) :=
  match ids with
  | [] => []
  | arxiv_id :: rest =>
      let attempt :=
        try_body env download_arxiv_pdf generate_poster fuel args
          arxiv_id w in
      let turn :=
        iteration env download_arxiv_pdf generate_poster fuel args n idx
          arxiv_id (0, []) w in
      (arxiv_id,
       match res attempt with Ok Completed => true | _ => false end)
      :: batch_log fuel args n (S idx) rest (world turn)
  end.

(** The events of the turns of the loop, one list per identifier. *)
Fixpoint batch_traces (fuel : nat) (args : Args) (n idx : nat)
    (ids : list string) (w : W) : list (list event) :=
  match ids with
  | [] => []
  | arxiv_id :: rest =>
      let turn :=
        iteration env download_arxiv_pdf generate_poster fuel args n idx
          arxiv_id (0, []) w in
      trace turn :: batch_traces fuel args n (S idx) rest (world turn)
  end.

End WithEnv.

(** The log and the events of the loop that [main] runs. *)
Definition main_log {W : Type} (env : Env W) (fuel : nat) (args : Args)
    (w : W) : list (string * bool) :=
  let ids := normalize_arxiv_id <$> arxiv_ids args in
  batch_log env
    (λ arxiv_id, ArxivDownloader.download_arxiv_pdf env arxiv_id None)
    (PosterGenerator.generate_poster env) fuel args (length ids) 1 ids w.

Definition main_traces {W : Type} (env : Env W) (fuel : nat) (args : Args)
    (w : W) : list (list event) :=
  let ids := normalize_arxiv_id <$> arxiv_ids args in
  batch_traces env
    (λ arxiv_id, ArxivDownloader.download_arxiv_pdf env arxiv_id None)
    (PosterGenerator.generate_poster env) fuel args (length ids) 1 ids w.

Definition successes (log : list (string * bool)) : nat :=
  length (filter (λ p, p.2 = true) log).

Definition failures (log : list (string * bool)) : list string :=
  fst <$> filter (λ p, p.2 = false) log.

End Batch.

(** ** A scripted world, for running the program on concrete inputs *)

Module Scenario.

Import Runtime.

(** What the outside does in one scenario. *)
Record Script : Type := {
  environ : list (string * string);      (* environment variables *)
  existing_files : list string;          (* paths that exist on disk *)
  unknown_ids : list string;             (* papers the repository lacks *)
  unreadable : list string;              (* files whose upload fails *)
  undeletable : list string;             (* remote files whose deletion fails *)
  generation : exn + Response            (* how the generation call ends *)
}.

Definition lookup_assoc (k : string) (l : list (string * string))
  : option string :=
  (λ r, r.2.2) <$> list_find (λ p, p.1 = k) l.

Definition some_paper (id : string) : Paper :=
  {| paper_title := "Paper " +:+ id;
     paper_authors := ["A. Author"; "B. Author"];
     paper_summary := "We study Deep Learning for " +:+ id +:+ ".";
     paper_entry_id := "http://arxiv.org/abs/" +:+ id;
     paper_published := None |}.

(** The state of the world: the names of the files that the generation
    service currently holds. *)
Definition scripted (s : Script) : Env (list string) :=
  {| os_getenv := λ name _, lookup_assoc name (environ s);
     path_exists := λ p _, bool_decide (p ∈ existing_files s);
     path_mkdir := λ _ w, (inr tt, w);
     os_makedirs := λ _ w, (inr tt, w);
     os_remove := λ _ w, (inr tt, w);
     tempfile_mkdtemp := λ w, (inr "/tmp/tmpdir", w);
     arxiv_results := λ id w,
       (inr (if bool_decide (id ∈ unknown_ids s) then []
             else [some_paper id]), w);
     paper_download_pdf := λ _ _ _ w, (inr tt, w);
     files_upload := λ _ file _ w,
       if bool_decide (file ∈ unreadable s)
       then (inl (Exn (OtherError "FileNotFoundError")
                      ("No such file: " +:+ file) None), w)
       else (inr {| file_name := "files/" +:+ file;
                    file_uri := "https://files/" +:+ file |},
             w ++ ["files/" +:+ file]);
     files_delete := λ _ name w,
       if bool_decide (name ∈ undeletable s)
       then (inl (Exn (OtherError "ServerError") "cannot delete" None), w)
       else (inr tt, filter (λ x, x ≠ name) w);
     models_generate_content := λ _ _ _ _ w, (generation s, w);
     image_save := λ _ _ w, (inr tt, w) |}.

Definition one_image : Response := {| parts := Some [None; Some "PNG"] |}.

(** Everything works. *)
Definition all_well : Script :=
  {| environ := [];
     existing_files := [];
     unknown_ids := [];
     unreadable := [];
     undeletable := [];
     generation := inr one_image |}.

(** The generation service rejects the key. *)
Definition key_rejected : Script :=
  {| environ := [];
     existing_files := [];
     unknown_ids := [];
     unreadable := [];
     undeletable := [];
     generation :=
       inl (Exn (OtherError "ClientError")
              "400 INVALID_ARGUMENT. API key not valid." None) |}.

(** The reference poster cannot be read at upload time. *)
Definition poster_unreadable : Script :=
  {| environ := [];
     existing_files := [];
     unknown_ids := [];
     unreadable := ["old_poster.png"];
     undeletable := [];
     generation := inr one_image |}.

Definition default_args (ids : list string) : Cli.Args :=
  {| Cli.arxiv_ids := ids;
     Cli.orientation := "landscape";
     Cli.output_dir := "outputs";
     Cli.output := None;
     Cli.model := "pro";
     Cli.resolution := "2K";
     Cli.language := "English";
     Cli.side_panel := None;
     Cli.whatif := None;
     Cli.api_key := Some "secret";
     Cli.verbose := false |}.

Definition with_whatif (idea : string) (args : Cli.Args) : Cli.Args :=
  {| Cli.arxiv_ids := Cli.arxiv_ids args;
     Cli.orientation := Cli.orientation args;
     Cli.output_dir := Cli.output_dir args;
     Cli.output := Cli.output args;
     Cli.model := Cli.model args;
     Cli.resolution := Cli.resolution args;
     Cli.language := Cli.language args;
     Cli.side_panel := Cli.side_panel args;
     Cli.whatif := Some idea;
     Cli.api_key := Cli.api_key args;
     Cli.verbose := Cli.verbose args |}.

Definition with_output (out : string) (args : Cli.Args) : Cli.Args :=
  {| Cli.arxiv_ids := Cli.arxiv_ids args;
     Cli.orientation := Cli.orientation args;
     Cli.output_dir := Cli.output_dir args;
     Cli.output := Some out;
     Cli.model := Cli.model args;
     Cli.resolution := Cli.resolution args;
     Cli.language := Cli.language args;
     Cli.side_panel := Cli.side_panel args;
     Cli.whatif := Cli.whatif args;
     Cli.api_key := Cli.api_key args;
     Cli.verbose := Cli.verbose args |}.

Definition with_model (m r : string) (args : Cli.Args) : Cli.Args :=
  {| Cli.arxiv_ids := Cli.arxiv_ids args;
     Cli.orientation := Cli.orientation args;
     Cli.output_dir := Cli.output_dir args;
     Cli.output := Cli.output args;
     Cli.model := m;
     Cli.resolution := r;
     Cli.language := Cli.language args;
     Cli.side_panel := Cli.side_panel args;
     Cli.whatif := Cli.whatif args;
     Cli.api_key := Cli.api_key args;
     Cli.verbose := Cli.verbose args |}.

Definition base_poster : string :=
  "outputs/poster_1706.03762_landscape_english_nopanel.png".

(** The base poster and its first two variants are on disk. *)
Definition two_variants : Script :=
  {| environ := [];
     existing_files :=
       [base_poster;
        "outputs/poster_1706.03762_landscape_english_nopanel_var_1.png";
        "outputs/poster_1706.03762_landscape_english_nopanel_var_2.png"];
     unknown_ids := [];
     unreadable := [];
     undeletable := [];
     generation := inr one_image |}.

(** Only the base poster is on disk. *)
Definition base_only : Script :=
  {| environ := [];
     existing_files := [base_poster];
     unknown_ids := [];
     unreadable := [];
     undeletable := [];
     generation := inr one_image |}.

(** No poster is on disk; reading the base poster fails. *)
Definition no_base_poster : Script :=
  {| environ := [];
     existing_files := [];
     unknown_ids := [];
     unreadable := [base_poster];
     undeletable := [];
     generation := inr one_image |}.

(** The repository lacks the second paper of the batch. *)
Definition second_unknown : Script :=
  {| environ := [];
     existing_files := [];
     unknown_ids := ["2222.00002"];
     unreadable := [];
     undeletable := [];
     generation := inr one_image |}.

Definition three_ids : list string :=
  ["1111.00001"; "2222.00002"; "3333.00003"].

Definition no_paper_info : PdfProcessor.PaperInfo :=
  {| PdfProcessor.title := EmptyString;
     PdfProcessor.abstract := EmptyString;
     PdfProcessor.key_concepts := EmptyString;
     PdfProcessor.authors := EmptyString |}.

(** The key is in the environment, under the second name only. *)
Definition key_in_environment : Script :=
  {| environ :=
       [("GEMINI_API_KEY", EmptyString); ("GOOGLE_API_KEY", "from-env")];
     existing_files := [];
     unknown_ids := [];
     unreadable := [];
     undeletable := [];
     generation := inr one_image |}.

(** The PDF cannot be read at upload time. *)
Definition pdf_unreadable : Script :=
  {| environ := [];
     existing_files := [];
     unknown_ids := [];
     unreadable := ["paper.pdf"];
     undeletable := [];
     generation := inr one_image |}.

(** The service answers with text alone. *)
Definition text_only : Script :=
  {| environ := [];
     existing_files := [];
     unknown_ids := [];
     unreadable := [];
     undeletable := [];
     generation := inr {| parts := Some [None; None] |} |}.

(** The service draws the poster but refuses every deletion. *)
Definition deletion_refused : Script :=
  {| environ := [];
     existing_files := [];
     unknown_ids := [];
     unreadable := [];
     undeletable := ["files/paper.pdf"; "files/old_poster.png"];
     generation := inr {| parts := Some [None; Some "first"; Some "second"] |} |}.

(** The same outside, on a disk where no directory can be made. *)
Definition read_only_disk (s : Script) : Env (list string) :=
  {| os_getenv := os_getenv (scripted s);
     path_exists := path_exists (scripted s);
     path_mkdir := λ p w,
       (inl (Exn (OtherError "PermissionError")
               ("Permission denied: " +:+ p) None), w);
     os_makedirs := os_makedirs (scripted s);
     os_remove := os_remove (scripted s);
     tempfile_mkdtemp := tempfile_mkdtemp (scripted s);
     arxiv_results := arxiv_results (scripted s);
     paper_download_pdf := paper_download_pdf (scripted s);
     files_upload := files_upload (scripted s);
     files_delete := files_delete (scripted s);
     models_generate_content := models_generate_content (scripted s);
     image_save := image_save (scripted s) |}.

End Scenario.

(** * Properties *)

(** ** Key-concept extraction *)

Module PdfProcessorFacts.

Import PdfProcessor.

Lemma dict_fromkeys_snoc (l : list string) (x : string) :
  dict_fromkeys (l ++ [x]) = dict_insert_key (dict_fromkeys l) x.
Proof. unfold dict_fromkeys. by rewrite foldl_app. Qed.

Lemma elem_of_dict_insert_key (d : list string) (k x : string) :
  x ∈ dict_insert_key d k ↔ x ∈ d ∨ x = k.
Proof.
  unfold dict_insert_key. case_bool_decide as Hk.
  - split; [by left | intros [?| ->]; done].
  - rewrite elem_of_app, list_elem_of_singleton. done.
Qed.

Lemma elem_of_dict_fromkeys (l : list string) (x : string) :
  x ∈ dict_fromkeys l ↔ x ∈ l.
Proof.
  induction l as [|y l IH] using rev_ind.
  - done.
  - rewrite dict_fromkeys_snoc, elem_of_dict_insert_key, IH.
    rewrite elem_of_app, list_elem_of_singleton. done.
Qed.

Lemma NoDup_dict_fromkeys (l : list string) : NoDup (dict_fromkeys l).
Proof.
  induction l as [|y l IH] using rev_ind.
  - constructor.
  - rewrite dict_fromkeys_snoc. unfold dict_insert_key.
    case_bool_decide as Hy; [done|].
    apply NoDup_app. split_and!; [done| |apply NoDup_singleton].
    intros x Hx ->%list_elem_of_singleton. done.
Qed.

Lemma first_index_lt (x : string) (l : list string) (a : nat) :
  first_index x l = Some a → a < length l.
Proof.
  revert a. induction l as [|y l IH]; intros a; simpl; [done|].
  case_bool_decide.
  - intros [= <-]. lia.
  - destruct (first_index x l) as [b|]; simpl; [|done].
    intros [= <-]. specialize (IH b eq_refl). lia.
Qed.

Lemma first_index_elem (x : string) (l : list string) :
  x ∈ l → is_Some (first_index x l).
Proof.
  induction l as [|y l IH]; [by intros ?%elem_of_nil|].
  simpl. case_bool_decide as Hy; [by eexists|].
  intros [?|Hx]%elem_of_cons; [congruence|].
  destruct (IH Hx) as [a ->]. by eexists.
Qed.

Lemma first_index_app_l (x : string) (l l' : list string) :
  x ∈ l → first_index x (l ++ l') = first_index x l.
Proof.
  induction l as [|y l IH]; [by intros ?%elem_of_nil|].
  simpl. case_bool_decide as Hy; [done|].
  intros [?|Hx]%elem_of_cons; [congruence|]. by rewrite IH.
Qed.

Lemma first_index_snoc_fresh (x : string) (l : list string) :
  x ∉ l → first_index x (l ++ [x]) = Some (length l).
Proof.
  induction l as [|y l IH]; simpl.
  - intros _. by rewrite bool_decide_true.
  - intros [Hy Hx]%not_elem_of_cons.
    rewrite bool_decide_false by congruence. by rewrite IH.
Qed.

(** Keys come out in the order of their first occurrence. *)
Lemma dict_fromkeys_order (l : list string) (i j : nat) (x y : string) :
  i < j →
  dict_fromkeys l !! i = Some x →
  dict_fromkeys l !! j = Some y →
  ∃ a b, first_index x l = Some a ∧ first_index y l = Some b ∧ a < b.
Proof.
  revert i j x y. induction l as [|z l IH] using rev_ind; intros i j x y Hij.
  - done.
  - rewrite dict_fromkeys_snoc. unfold dict_insert_key.
    case_bool_decide as Hz.
    + intros Hx Hy. destruct (IH _ _ _ _ Hij Hx Hy) as (a & b & Ha & Hb & Hab).
      exists a, b. split_and!; [| |done].
      * rewrite first_index_app_l; [done|].
        apply elem_of_dict_fromkeys. by eapply list_elem_of_lookup_2.
      * rewrite first_index_app_l; [done|].
        apply elem_of_dict_fromkeys. by eapply list_elem_of_lookup_2.
    + intros Hx Hy.
      assert (x ∈ l ∧ dict_fromkeys l !! i = Some x) as [Hxl Hx'].
      { apply lookup_lt_Some in Hy as Hj.
        rewrite length_app in Hj. simpl in Hj.
        rewrite lookup_app_l in Hx by lia.
        split; [|done]. apply elem_of_dict_fromkeys.
        by eapply list_elem_of_lookup_2. }
      destruct (decide (j < length (dict_fromkeys l))) as [Hj|Hj].
      * rewrite lookup_app_l in Hy by done.
        destruct (IH _ _ _ _ Hij Hx' Hy) as (a & b & Ha & Hb & Hab).
        exists a, b. split_and!; [| |done].
        -- by rewrite first_index_app_l.
        -- rewrite first_index_app_l; [done|].
           apply elem_of_dict_fromkeys. by eapply list_elem_of_lookup_2.
      * rewrite lookup_app_r in Hy by lia.
        apply list_lookup_singleton_Some in Hy as [_ <-].
        destruct (first_index_elem _ _ Hxl) as [a Ha].
        exists a, (length l). split_and!.
        -- by rewrite first_index_app_l.
        -- apply first_index_snoc_fresh. by rewrite <-elem_of_dict_fromkeys.
        -- by eapply first_index_lt.
Qed.

Lemma elem_of_concepts (text w : string) :
  w ∈ concepts text ↔
  w ∈ Re.findall concept_pattern text ∧ (w ∉ common_words) ∧ 3 < Str.len w.
Proof.
  unfold concepts, keep_concept. rewrite list_elem_of_filter.
  rewrite andb_true_iff, negb_true_iff, bool_decide_eq_false, Nat.ltb_lt.
  tauto.
Qed.

(** C5: key-concept extraction is a function of the abstract alone; its
    concepts number at most 5, are pairwise distinct and listed in the
    order of their first occurrence, none of them is itself a stoplist
    word (a concept of several words may begin with one) and each is
    longer than 3 characters; the result is the concepts joined by a
    comma and a space, or the fixed fallback text when there is none. *)
Theorem extract_key_concepts_spec (text : string) :
  let cs := concepts text in
  let u := unique_concepts text 5 in
  (∀ text', text' = text →
     extract_key_concepts text' = extract_key_concepts text)
  ∧ length u ≤ 5
  ∧ NoDup u
  ∧ (∀ w, w ∈ u →
       (w ∉ common_words) ∧ 3 < Str.len w
       ∧ w ∈ Re.findall concept_pattern text)
  ∧ (∀ i j x y, i < j → u !! i = Some x → u !! j = Some y →
       ∃ a b, first_index x cs = Some a ∧ first_index y cs = Some b ∧ a < b)
  ∧ (∀ z, z ∈ cs →
       z ∈ u ∨
       (length u = 5 ∧
        ∀ x, x ∈ u →
          ∃ a b, first_index x cs = Some a ∧ first_index z cs = Some b
                 ∧ a < b))
  ∧ (u = [] →
       extract_key_concepts text = "Research, Machine Learning, Deep Learning")
  ∧ (u ≠ [] → extract_key_concepts text = Str.join ", " u).
Proof.
  intros cs u. subst cs u.
  change (unique_concepts text 5) with (take 5 (dict_fromkeys (concepts text))).
  set (cs := concepts text). set (d := dict_fromkeys cs).
  assert (Hsub : ∀ i x, take 5 d !! i = Some x → d !! i = Some x ∧ i < 5).
  { intros i x Hi. apply lookup_take_Some in Hi. tauto. }
  split_and!.
  - by intros ? ->.
  - rewrite length_take. lia.
  - eapply sublist_NoDup; [apply NoDup_dict_fromkeys|apply sublist_take].
  - intros w Hw.
    assert (w ∈ cs) as Hc.
    { apply elem_of_dict_fromkeys.
      apply elem_of_take in Hw as (i & Hi & _).
      by eapply list_elem_of_lookup_2. }
    apply elem_of_concepts in Hc. tauto.
  - intros i j x y Hij [Hx _]%Hsub [Hy _]%Hsub.
    by eapply dict_fromkeys_order.
  - intros z Hz. apply elem_of_dict_fromkeys in Hz.
    apply list_elem_of_lookup in Hz as [k Hk].
    destruct (decide (k < 5)) as [Hlt|Hge].
    + left. apply list_elem_of_lookup. exists k.
      by rewrite lookup_take_lt.
    + right. apply lookup_lt_Some in Hk as Hlen. split.
      * rewrite length_take. fold d in Hlen. lia.
      * intros x [i Hi]%list_elem_of_lookup.
        apply Hsub in Hi as [Hi Hi5].
        eapply (dict_fromkeys_order cs i k); [lia|exact Hi|exact Hk].
  - unfold extract_key_concepts, extract_key_concepts_n, max_concepts_default.
    change (unique_concepts text 5) with (take 5 d). by intros ->.
  - unfold extract_key_concepts, extract_key_concepts_n, max_concepts_default.
    change (unique_concepts text 5) with (take 5 d). by destruct (take 5 d).
Qed.

(** Stoplist words in the output: the pattern takes a run of
    capitalised words as one match, and only a match that is a stoplist
    word as a whole is discarded. *)
Lemma stoplist_words_in_output :
  extract_key_concepts "The Transformer is new. This Model wins."
  = "The Transformer, This Model"
  ∧ "The" ∈ common_words
  ∧ "This" ∈ common_words
  ∧ Str.contains "The "
      (extract_key_concepts "The Transformer is new. This Model wins.")
    = true
  ∧ Str.contains "This "
      (extract_key_concepts "The Transformer is new. This Model wins.")
    = true.
Proof.
  split_and!; [by vm_compute| | |by vm_compute..].
  - apply list_elem_of_here.
  - apply list_elem_of_further, list_elem_of_here.
Qed.

End PdfProcessorFacts.

(** ** Strings *)

Module StrFacts.

Lemma app_nil_l (s : string) : EmptyString +:+ s = s.
Proof. reflexivity. Qed.

Lemma app_cons (c : ascii) (s t : string) :
  String c s +:+ t = String c (s +:+ t).
Proof. reflexivity. Qed.

Lemma app_nil_r (s : string) : s +:+ EmptyString = s.
Proof.
  induction s as [|c s IH]; [done|]. by rewrite app_cons, IH.
Qed.

Lemma app_assoc (a b c : string) : (a +:+ b) +:+ c = a +:+ (b +:+ c).
Proof.
  induction a as [|x a IH]; [done|]. by rewrite !app_cons, IH.
Qed.

Lemma length_app (a b : string) :
  String.length (a +:+ b) = String.length a + String.length b.
Proof.
  induction a as [|x a IH]; [done|]. rewrite app_cons. simpl. by rewrite IH.
Qed.

Lemma startswith_app (p s : string) : Str.startswith p (p +:+ s) = true.
Proof.
  induction p as [|c p IH]; [done|].
  rewrite app_cons. simpl. by rewrite bool_decide_true, IH.
Qed.

Lemma contains_prefix (p s : string) : Str.contains p (p +:+ s) = true.
Proof.
  pose proof (startswith_app p s) as H.
  destruct (p +:+ s); simpl; by rewrite H.
Qed.

Lemma contains_app_r (p a s : string) :
  Str.contains p s = true → Str.contains p (a +:+ s) = true.
Proof.
  intros H. induction a as [|c a IH]; [done|].
  rewrite app_cons. simpl. rewrite IH. apply orb_true_r.
Qed.

(** A text occurs in whatever is built around it. *)
Lemma contains_middle (p a b : string) :
  Str.contains p (a +:+ p +:+ b) = true.
Proof. apply contains_app_r, contains_prefix. Qed.

End StrFacts.

(** ** The monad *)

Module RuntimeFacts.

Import Runtime.

Section Runs.
Context {W : Type}.

Lemma bind_ok {A B} (m : M W A) (k : A → M W B) w a w1 t1 :
  m w = Run (Ok a) w1 t1 →
  bind m k w
  = Run (res (k a w1)) (world (k a w1)) (t1 ++ trace (k a w1)).
Proof. intros H. unfold bind. by rewrite H. Qed.

Lemma bind_raised {A B} (m : M W A) (k : A → M W B) w e w1 t1 :
  m w = Run (Raised e) w1 t1 → bind m k w = Run (Raised e) w1 t1.
Proof. intros H. unfold bind. by rewrite H. Qed.

Lemma bind_diverged {A B} (m : M W A) (k : A → M W B) w w1 t1 :
  m w = Run Diverged w1 t1 → bind m k w = Run Diverged w1 t1.
Proof. intros H. unfold bind. by rewrite H. Qed.

Lemma call_inr {A} ev (f : W → (exn + A) * W) w a w1 :
  f w = (inr a, w1) → call ev f w = Run (Ok a) w1 [ev].
Proof. intros H. unfold call. by rewrite H. Qed.

Lemma call_inl {A} ev (f : W → (exn + A) * W) w e w1 :
  f w = (inl e, w1) → call ev f w = Run (Raised e) w1 [ev].
Proof. intros H. unfold call. by rewrite H. Qed.

Lemma try_except_ok {A} (m : M W A) h w a w1 t1 :
  m w = Run (Ok a) w1 t1 → try_except m h w = Run (Ok a) w1 t1.
Proof. intros H. unfold try_except. by rewrite H. Qed.

Lemma try_except_raised {A} (m : M W A) h w e w1 t1 :
  m w = Run (Raised e) w1 t1 →
  try_except m h w
  = Run (res (h e w1)) (world (h e w1)) (t1 ++ trace (h e w1)).
Proof. intros H. unfold try_except. by rewrite H. Qed.

(** A call whose errors are ignored always completes, after one
    attempt. *)
Lemma ignore_errors_call ev (f : W → (exn + unit) * W) w :
  ignore_errors (call ev f) w = Run (Ok tt) (f w).2 [ev].
Proof.
  unfold ignore_errors, try_except, call.
  destruct (f w) as [[e|[]] w1]; simpl; [|done].
  done.
Qed.

End Runs.

End RuntimeFacts.

(** ** Paths *)

Module PathFacts.

Import StrFacts.

(** A text without a slash. *)
Lemma contains_slash_cons (c : ascii) (s : string) :
  Str.contains "/" (String c s) = false ↔
  c ≠ "/"%char ∧ Str.contains "/" s = false.
Proof.
  simpl. rewrite orb_false_iff, andb_true_r, bool_decide_eq_false.
  split; intros [H1 H2]; split; congruence.
Qed.

Lemma contains_slash_app (a b : string) :
  Str.contains "/" a = false → Str.contains "/" b = false →
  Str.contains "/" (a +:+ b) = false.
Proof.
  intros Ha Hb. induction a as [|c a IH]; [done|].
  rewrite app_cons. apply contains_slash_cons in Ha as [Hc Ha].
  apply contains_slash_cons. auto.
Qed.

Lemma pretty_N_go_no_slash (x : N) (s : string) :
  Str.contains "/" s = false → Str.contains "/" (pretty_N_go x s) = false.
Proof.
  revert s. induction (N.lt_wf_0 x) as [x _ IH]; intros s Hs.
  assert (x = 0 ∨ 0 < x)%N as [->|Hx] by lia.
  - by rewrite pretty_N_go_0.
  - rewrite pretty_N_go_step by done. apply IH.
    { by apply N.div_lt. }
    apply contains_slash_cons. split; [|done].
    unfold pretty_N_char. by repeat case_match.
Qed.

Lemma of_nat_no_slash (n : nat) : Str.contains "/" (Str.of_nat n) = false.
Proof.
  unfold Str.of_nat, pretty, pretty_nat, pretty, pretty_N.
  case_decide; [done|]. by apply pretty_N_go_no_slash.
Qed.

Lemma split_from_no_slash (acc s : string) :
  Str.contains "/" s = false → Path.split_from acc s = [acc +:+ s].
Proof.
  revert acc. induction s as [|c s IH]; intros acc Hs.
  - by rewrite app_nil_r.
  - apply contains_slash_cons in Hs as [Hc Hs]. simpl.
    rewrite bool_decide_false by done. rewrite IH by done.
    by rewrite app_assoc.
Qed.

(** Appending a text without a slash only extends the last segment. *)
Lemma split_from_app (acc q s : string) :
  Str.contains "/" s = false →
  ∃ init last, Path.split_from acc (q +:+ s) = init ++ [last +:+ s].
Proof.
  intros Hs. revert acc. induction q as [|c q IH]; intros acc.
  - exists [], acc. by apply split_from_no_slash.
  - rewrite app_cons. simpl. case_bool_decide.
    + destruct (IH EmptyString) as (init & last & ->).
      by exists (acc :: init), last.
    + apply IH.
Qed.

Lemma join_snoc (sep : string) (ps : list string) (x : string) :
  ∃ pre, Str.join sep (ps ++ [x]) = pre +:+ x.
Proof.
  induction ps as [|y ps [pre IH]].
  - by exists EmptyString.
  - exists (y +:+ sep +:+ pre). simpl.
    destruct (ps ++ [x]) as [|z l] eqn:Hl.
    { by destruct ps. }
    rewrite IH. by rewrite !app_assoc.
Qed.

Lemma render_snoc (r : string) (ps : list string) (x : string) :
  ∃ pre, Path.render r (ps ++ [x]) = pre +:+ x.
Proof.
  destruct (join_snoc "/" ps x) as [pre Hpre].
  exists (r +:+ pre). unfold Path.render.
  destruct r; [destruct (ps ++ [x]) eqn:Hl; [by destruct ps|]|];
    by rewrite Hpre, app_assoc.
Qed.

Lemma normalize_suffix (q s : string) :
  Str.contains "/" s = false → 2 ≤ String.length s →
  ∃ pre, Path.normalize (q +:+ s) = pre +:+ s.
Proof.
  intros Hs Hlen. unfold Path.normalize, Path.parts, Path.split.
  destruct (split_from_app EmptyString q s Hs) as (init & last & ->).
  rewrite filter_app.
  assert (Path.keep_part (last +:+ s) = true) as Hkeep.
  { unfold Path.keep_part, Str.eqb.
    rewrite !bool_decide_false; [done|..];
      intros Heq; apply (f_equal String.length) in Heq;
      rewrite length_app in Heq; simpl in Heq; lia. }
  rewrite filter_cons_True by exact Hkeep. rewrite filter_nil.
  destruct (render_snoc (Path.root (q +:+ s))
              (filter (λ x, Path.keep_part x = true) init) (last +:+ s))
    as [pre ->].
  exists (pre +:+ last). by rewrite app_assoc.
Qed.

(** Joining keeps the end of a file name, as far back as its last
    slash. *)
Lemma joinpath_suffix (d g s : string) :
  Str.contains "/" s = false → 2 ≤ String.length s →
  ∃ pre, Path.joinpath d (g +:+ s) = pre +:+ s.
Proof.
  intros Hs Hlen. unfold Path.joinpath, Path.os_path_join.
  destruct (Str.startswith "/" (g +:+ s)).
  - by apply normalize_suffix.
  - destruct (negb (Str.truthy d) || Str.endswith "/" d).
    + rewrite <-app_assoc. by apply normalize_suffix.
    + rewrite <-!app_assoc. by apply normalize_suffix.
Qed.

End PathFacts.

(** ** The composed request *)

Module ComposerFacts.

Import Runtime PosterGenerator.

(** C2: the aspect ratio follows the table: with a side panel, 21:9 in
    landscape and 4:3 in portrait; without one, 3:2 in landscape and 3:4
    in portrait; whatever the orientation and the panel, the value is one
    of these four, all of which the generation service accepts.  A side
    panel is present when the option holds a non-empty identifier. *)
Theorem aspect_ratio_table :
  (∀ (c : ascii) (s : string),
      aspect_ratio "landscape" (Some (String c s)) = "21:9"
      ∧ aspect_ratio "portrait" (Some (String c s)) = "4:3")
  ∧ aspect_ratio "landscape" None = "3:2"
  ∧ aspect_ratio "portrait" None = "3:4"
  ∧ (∀ orientation side_panel,
       aspect_ratio orientation side_panel ∈ ["21:9"; "4:3"; "3:2"; "3:4"]
       ∧ aspect_ratio orientation side_panel ∈ supported_aspect_ratios).
Proof.
  split_and!; try done.
  intros orientation side_panel. unfold aspect_ratio, supported_aspect_ratios.
  destruct (Str.truthy_opt side_panel), (Str.eqb orientation "landscape");
    split; set_solver.
Qed.

(** C4: a side panel that is named but is not ["qa"].  The layout
    texts are those of a poster without a panel and the instructions for
    the questions and answers are left out, but the image is still given
    the wide aspect ratio of a poster with a panel. *)
Theorem unknown_side_panel_keeps_wide_ratio (c : ascii) (s : string)
    (orientation : string) :
  String c s ≠ "qa" →
  layout (Some (String c s)) = layout None
  ∧ qa_content_requirements (Some (String c s))
    = qa_content_requirements None
  ∧ aspect_ratio orientation (Some (String c s))
    = aspect_ratio orientation (Some "qa")
  ∧ aspect_ratio orientation (Some (String c s))
    ≠ aspect_ratio orientation None.
Proof.
  intros Hqa.
  assert (is_qa (Some (String c s)) = false) as Hno.
  { apply bool_decide_eq_false_2. congruence. }
  unfold layout, qa_content_requirements, aspect_ratio. rewrite Hno.
  repeat split.
  cbn [Str.truthy_opt Str.truthy negb].
  change (Str.truthy_opt None) with false.
  change (Str.truthy_opt (Some (String c s))) with true. cbv iota.
  destruct (Str.eqb orientation "landscape"); discriminate.
Qed.

(** A ["timeline"] panel on a landscape poster: 21:9 where a poster
    without a panel gets 3:2, and a prompt that asks for side panel
    content under a full-width layout. *)
Lemma unknown_side_panel_keeps_wide_ratio_witness :
  layout (Some "timeline") = full_width_layout
  ∧ aspect_ratio "landscape" (Some "timeline") = "21:9"
  ∧ aspect_ratio "landscape" None = "3:2"
  ∧ Str.contains " and side panel content"
      (poster_prompt "landscape" "2K" "pro" "English" (Some "timeline")
         None None) = true
  ∧ Str.contains " and side panel content"
      (poster_prompt "landscape" "2K" "pro" "English" None None None)
    = false.
Proof.
  destruct (unknown_side_panel_keeps_wide_ratio "t" "imeline" "landscape")
    as (Hlayout & _ & Hratio & _); [discriminate|].
  split; [rewrite Hlayout; reflexivity|].
  split; [rewrite Hratio; reflexivity|].
  repeat split; vm_compute; reflexivity.
Defined.

End ComposerFacts.

(** ** The orchestrator *)

Module OrchestratorFacts.

Import Runtime PosterGenerator Uploads RuntimeFacts.

Section WithEnv.
Context {W : Type} (env : Env W).

(** The [finally] block always completes, after one deletion attempt
    for the PDF and one for the poster when one was uploaded. *)
Lemma cleanup_run client f up w :
  ∃ w',
    cleanup env client f up w
    = Run (Ok tt) w'
        (EvDelete (file_name f)
         :: match up with
            | Some fp => [EvDelete (file_name fp)]
            | None => []
            end).
Proof.
  unfold cleanup.
  erewrite bind_ok by apply ignore_errors_call.
  destruct up as [fp|].
  - rewrite ignore_errors_call. simpl. by eexists.
  - simpl. by eexists.
Qed.

(** The run of the orchestrator once the uploads have succeeded: one
    generation call on the composed request, then the deletions, then
    (after a successful call only) the extraction of the image. *)
Lemma generate_poster_run pdf_path info orientation resolution model
    language side_panel whatif_text existing_poster_path key output_path
    api_model f up w w1 w2 :
  Str.truthy key = true →
  model_map !! model = Some api_model →
  files_upload env key pdf_path "application/pdf" w = (inr f, w1) →
  poster_uploaded env key existing_poster_path w1 up w2 →
  let cts :=
    contents (file_uri f) (file_uri <$> up)
      (poster_prompt orientation resolution model language side_panel
         whatif_text existing_poster_path) in
  let cfg :=
    {| response_modalities := ["TEXT"; "IMAGE"];
       image_config :=
         image_config_params model resolution
           (aspect_ratio orientation side_panel) |} in
  let g := models_generate_content env key api_model cts cfg w2 in
  let ups :=
    EvUpload pdf_path "application/pdf"
    :: match up, existing_poster_path with
       | Some _, Some p => [EvUpload p "image/png"]
       | _, _ => []
       end in
  let dels :=
    EvDelete (file_name f)
    :: match up with Some fp => [EvDelete (file_name fp)] | None => [] end in
  ∃ r' w' tail,
    generate_poster env pdf_path info orientation resolution model
      language side_panel whatif_text existing_poster_path (Some key)
      output_path w
    = Run r' w' (ups ++ EvGenerate api_model cts cfg :: dels ++ tail)
    ∧ (∀ e, g.1 = inl e →
         r' = Raised (if is_api_key_error (exn_str e)
                      then api_key_error e else e)
         ∧ tail = [])
    ∧ (∀ resp, g.1 = inr resp →
         tail = [] ∨ tail = [EvSave output_path]).
Proof.
  intros Hkey Hmodel Hpdf Hposter cts cfg g ups dels.
  unfold generate_poster.
  erewrite bind_ok by reflexivity. cbv beta.
  change (Str.truthy_opt (Some key)) with (Str.truthy key).
  rewrite Hkey. change (negb true) with false. cbv iota.
  rewrite Hmodel. cbv beta iota.
  change (default EmptyString (Some key)) with key.
  erewrite bind_ok by (eapply try_except_ok, call_inr, Hpdf). cbv beta.
  assert (Hup :
    match existing_poster_path with
    | Some p =>
        if Str.truthy p
        then
          bind
            (try_except
               (call (EvUpload p "image/png")
                  (files_upload env key p "image/png"))
               (λ e : exn,
                  raise
                    (Exn RuntimeError
                       ("Failed to upload existing poster image: "
                        +:+ exn_str e) (Some e))))
            (λ f0, ret (Some f0))
        else ret None
    | None => ret None
    end w1
    = Run (Ok up) w2
        match up, existing_poster_path with
        | Some _, Some p => [EvUpload p "image/png"]
        | _, _ => []
        end).
  { unfold poster_uploaded in Hposter.
    destruct existing_poster_path as [p|]; [destruct (Str.truthy p)|].
    - destruct Hposter as (fp & Hfp & ->).
      erewrite bind_ok by (eapply try_except_ok, call_inr, Hfp).
      done.
    - by destruct Hposter as [-> ->].
    - by destruct Hposter as [-> ->]. }
  erewrite bind_ok by exact Hup. clear Hup. cbv beta.
  fold cts cfg. cbn [res world trace].
  match goal with
  | |- context [res (?m w2)] => destruct (m w2) as [r' w' t'] eqn:Hrun
  end.
  cbn [res world trace].
  destruct (cleanup_run key f up g.2) as [w3 Hclean]. fold dels in Hclean.
  unfold bind at 1, try_finally, try_except, call in Hrun. fold g in Hrun.
  destruct g as [[e|resp] wg] eqn:Hg; cbn [fst snd] in Hclean |- *;
    cbv beta iota zeta in Hrun; cbn [res world trace raise] in Hrun.
  - assert (r' = Raised (if is_api_key_error (exn_str e)
                         then api_key_error e else e)
            ∧ t' = EvGenerate api_model cts cfg :: dels) as [-> ->].
    { destruct (is_api_key_error (exn_str e));
        cbv beta iota zeta in Hrun; cbn [res world trace raise] in Hrun;
        rewrite Hclean in Hrun; cbv beta iota zeta in Hrun;
        cbn [res world trace app] in Hrun; by injection Hrun as <- <- <-. }
    eexists _, _, []. rewrite app_nil_r.
    split_and!; [done| |done]. by intros e' [= <-].
  - rewrite Hclean in Hrun. cbv beta iota zeta in Hrun.
    cbn [res world trace app] in Hrun.
    destruct (parts resp) as [ps|]; [destruct (first_image ps) as [im|]|].
    + unfold bind, call, ret in Hrun.
      destruct (image_save env im output_path w3) as [[e|[]] w4];
        cbv beta iota zeta in Hrun;
        cbn [res world trace app] in Hrun; injection Hrun as <- <- <-;
        eexists _, _, [EvSave output_path];
        (split_and!; [|done|by right]);
        by rewrite ?app_nil_r, <-?(assoc_L (++)).
    + cbn [res world trace raise] in Hrun. injection Hrun as <- <- <-.
      eexists _, _, []. split_and!; [|done|by left].
      by rewrite !app_nil_r.
    + cbn [res world trace raise] in Hrun. injection Hrun as <- <- <-.
      eexists _, _, []. split_and!; [|done|by left].
      by rewrite !app_nil_r.
Qed.


(** C1: when the upload of the reference poster fails after the PDF
    was uploaded, the orchestrator raises at once: the trace ends with
    the failed upload, and no deletion of the uploaded PDF is
    attempted. *)
Theorem poster_upload_failure_skips_cleanup pdf_path info orientation
    resolution model language side_panel whatif_text p key output_path
    api_model f e w w1 w2 :
  Str.truthy key = true →
  model_map !! model = Some api_model →
  files_upload env key pdf_path "application/pdf" w = (inr f, w1) →
  Str.truthy p = true →
  files_upload env key p "image/png" w1 = (inl e, w2) →
  generate_poster env pdf_path info orientation resolution model
    language side_panel whatif_text (Some p) (Some key) output_path w
  = Run (Raised (Exn RuntimeError
                   ("Failed to upload existing poster image: "
                    +:+ exn_str e) (Some e)))
      w2
      [EvUpload pdf_path "application/pdf"; EvUpload p "image/png"].
Proof.
  intros Hkey Hmodel Hpdf Hp Hposter.
  unfold generate_poster.
  erewrite bind_ok by reflexivity. cbv beta.
  change (Str.truthy_opt (Some key)) with (Str.truthy key).
  rewrite Hkey. change (negb true) with false. cbv iota.
  rewrite Hmodel. cbv beta iota.
  change (default EmptyString (Some key)) with key.
  erewrite bind_ok by (eapply try_except_ok, call_inr, Hpdf). cbv beta.
  rewrite Hp.
  erewrite (bind_raised (bind _ _)); [done|].
  erewrite bind_raised; [done|].
  erewrite try_except_raised by (eapply call_inl, Hposter).
  done.
Qed.

(** C7: when the generation call raises an error whose text holds one
    of the markers (API key, API_KEY, or expired in any letter case),
    the orchestrator raises a ValueError whose text embeds the original
    text and whose cause is the original error; any other error of the
    generation call comes out as it was raised. *)
Theorem generation_error_classification pdf_path info orientation
    resolution model language side_panel whatif_text
    existing_poster_path key output_path api_model f up e w w1 w2 w3 :
  Str.truthy key = true →
  model_map !! model = Some api_model →
  files_upload env key pdf_path "application/pdf" w = (inr f, w1) →
  poster_uploaded env key existing_poster_path w1 up w2 →
  models_generate_content env key api_model
    (contents (file_uri f) (file_uri <$> up)
       (poster_prompt orientation resolution model language side_panel
          whatif_text existing_poster_path))
    {| response_modalities := ["TEXT"; "IMAGE"];
       image_config :=
         image_config_params model resolution
           (aspect_ratio orientation side_panel) |} w2
  = (inl e, w3) →
  let r :=
    generate_poster env pdf_path info orientation resolution model
      language side_panel whatif_text existing_poster_path (Some key)
      output_path w in
  (is_api_key_error (exn_str e) = true →
     res r = Raised (api_key_error e))
  ∧ (is_api_key_error (exn_str e) = false → res r = Raised e)
  ∧ exn_cls (api_key_error e) = ValueError
  ∧ exn_cause (api_key_error e) = Some e
  ∧ Str.contains (exn_str e) (exn_str (api_key_error e)) = true
  ∧ api_key_error e ≠ e.
Proof.
  intros Hkey Hmodel Hpdf Hposter Hgen.
  destruct (generate_poster_run pdf_path info orientation resolution
              model language side_panel whatif_text existing_poster_path
              key output_path api_model f up w w1 w2)
    as (r' & w' & tail & -> & Herr & _); [done..|].
  rewrite Hgen in Herr. destruct (Herr e eq_refl) as [-> _].
  cbn [res]. split_and!.
  - by intros ->.
  - by intros ->.
  - done.
  - done.
  - apply StrFacts.contains_middle.
  - intros Heq. apply (f_equal exn_str) in Heq.
    apply (f_equal String.length) in Heq.
    cbn [exn_str api_key_error] in Heq.
    rewrite !StrFacts.length_app in Heq. simpl in Heq. lia.
Qed.

(** C10: with an existing poster path and whatever what-if text, the
    reference poster is uploaded and the request holds, in order, the
    PDF, the poster, the note that names it as the existing poster to
    use as reference, and the prompt; without a what-if text the prompt
    is the one of a request that has no what-if at all. *)
Theorem reference_poster_wired_by_path_alone pdf_path info orientation
    resolution model language side_panel whatif_text p key output_path
    api_model f fp w w1 w2 :
  Str.truthy key = true →
  model_map !! model = Some api_model →
  files_upload env key pdf_path "application/pdf" w = (inr f, w1) →
  Str.truthy p = true →
  files_upload env key p "image/png" w1 = (inr fp, w2) →
  Str.truthy (file_uri fp) = true →
  (∃ rest,
     trace (generate_poster env pdf_path info orientation resolution
              model language side_panel whatif_text (Some p) (Some key)
              output_path w)
     = EvUpload pdf_path "application/pdf"
       :: EvUpload p "image/png"
       :: EvGenerate api_model
            [FileData (file_uri f) "application/pdf";
             FileData (file_uri fp) "image/png";
             Text reference_note;
             Text (poster_prompt orientation resolution model language
                     side_panel whatif_text (Some p))]
            {| response_modalities := ["TEXT"; "IMAGE"];
               image_config :=
                 image_config_params model resolution
                   (aspect_ratio orientation side_panel) |}
       :: rest)
  ∧ whatif_section None = EmptyString
  ∧ poster_prompt orientation resolution model language side_panel
      None (Some p)
    = poster_prompt orientation resolution model language side_panel
        None None
  ∧ Str.contains
      "The uploaded image above is the existing poster. Use it as a reference"
      reference_note = true.
Proof.
  intros Hkey Hmodel Hpdf Hp Hposter Huri.
  split_and!; [|done|done|by vm_compute].
  destruct (generate_poster_run pdf_path info orientation resolution
              model language side_panel whatif_text (Some p)
              key output_path api_model f (Some fp) w w1 w2)
    as (r' & w' & tail & -> & _); [done..| |].
  { unfold poster_uploaded. rewrite Hp. by exists fp. }
  cbn [trace fmap option_fmap option_map]. unfold contents.
  rewrite Huri. by eexists.
Qed.

End WithEnv.

Import Scenario.

Lemma poster_upload_failure_skips_cleanup_witness :
  generate_poster (scripted poster_unreadable) "paper.pdf" no_paper_info
    "landscape" "2K" "pro" "English" None (Some "more colour")
    (Some "old_poster.png") (Some "secret") "out.png" []
  = Run (Raised (Exn RuntimeError
                   "Failed to upload existing poster image: No such file: old_poster.png"
                   (Some (Exn (OtherError "FileNotFoundError")
                            "No such file: old_poster.png" None))))
      ["files/paper.pdf"]
      [EvUpload "paper.pdf" "application/pdf";
       EvUpload "old_poster.png" "image/png"].
Proof.
  apply (poster_upload_failure_skips_cleanup (scripted poster_unreadable)
           "paper.pdf" no_paper_info "landscape" "2K" "pro" "English" None
           (Some "more colour") "old_poster.png" "secret" "out.png"
           "gemini-3-pro-image-preview"
           {| file_name := "files/paper.pdf";
              file_uri := "https://files/paper.pdf" |}
           (Exn (OtherError "FileNotFoundError")
              "No such file: old_poster.png" None)
           [] ["files/paper.pdf"] ["files/paper.pdf"]);
    reflexivity.
Defined.

Lemma generation_error_classification_witness :
  res (generate_poster (scripted key_rejected) "paper.pdf" no_paper_info
         "landscape" "2K" "pro" "English" None None None (Some "secret")
         "out.png" [])
  = Raised (api_key_error
              (Exn (OtherError "ClientError")
                 "400 INVALID_ARGUMENT. API key not valid." None)).
Proof.
  refine (proj1 (generation_error_classification (scripted key_rejected)
           "paper.pdf" no_paper_info "landscape" "2K" "pro" "English" None
           None None "secret" "out.png" "gemini-3-pro-image-preview"
           {| file_name := "files/paper.pdf";
              file_uri := "https://files/paper.pdf" |}
           None
           (Exn (OtherError "ClientError")
              "400 INVALID_ARGUMENT. API key not valid." None)
           [] ["files/paper.pdf"] ["files/paper.pdf"] ["files/paper.pdf"]
           _ _ _ _ _) _).
  - reflexivity.
  - reflexivity.
  - reflexivity.
  - split; reflexivity.
  - reflexivity.
  - vm_compute. reflexivity.
Defined.

Lemma reference_poster_wired_by_path_alone_witness :
  ∃ rest,
    trace (generate_poster (scripted all_well) "paper.pdf" no_paper_info
             "landscape" "2K" "pro" "English" None None
             (Some "old_poster.png") (Some "secret") "out.png" [])
    = EvUpload "paper.pdf" "application/pdf"
      :: EvUpload "old_poster.png" "image/png"
      :: EvGenerate "gemini-3-pro-image-preview"
           [FileData "https://files/paper.pdf" "application/pdf";
            FileData "https://files/old_poster.png" "image/png";
            Text reference_note;
            Text (poster_prompt "landscape" "2K" "pro" "English" None None
                    (Some "old_poster.png"))]
           {| response_modalities := ["TEXT"; "IMAGE"];
              image_config := image_config_params "pro" "2K" "3:2" |}
      :: rest.
Proof.
  refine (proj1 (reference_poster_wired_by_path_alone (scripted all_well)
           "paper.pdf" no_paper_info "landscape" "2K" "pro" "English" None
           None "old_poster.png" "secret" "out.png"
           "gemini-3-pro-image-preview"
           {| file_name := "files/paper.pdf";
              file_uri := "https://files/paper.pdf" |}
           {| file_name := "files/old_poster.png";
              file_uri := "https://files/old_poster.png" |}
           [] ["files/paper.pdf"] ["files/paper.pdf"; "files/old_poster.png"]
           _ _ _ _ _ _)); reflexivity.
Defined.

End OrchestratorFacts.

(** ** Computations that end *)

Module Termination.

Import Runtime.

Section Rules.
Context {W : Type}.

Lemma terminates_ret {A} (a : A) : terminates (W:=W) (ret a).
Proof. by intros w. Qed.

Lemma terminates_raise {A} e : terminates (W:=W) (raise (A:=A) e).
Proof. by intros w. Qed.

Lemma terminates_ask {A} (f : W → A) : terminates (ask f).
Proof. by intros w. Qed.

Lemma terminates_emit ev : terminates (W:=W) (emit ev).
Proof. by intros w. Qed.

Lemma terminates_call {A} ev (f : W → (exn + A) * W) :
  terminates (call ev f).
Proof. intros w. unfold call. by destruct (f w) as [[?|?] ?]. Qed.

Lemma terminates_bind {A B} (m : M W A) (k : A → M W B) :
  terminates m → (∀ a, terminates (k a)) → terminates (bind m k).
Proof.
  intros Hm Hk w. unfold bind. specialize (Hm w).
  destruct (res (m w)) as [a| |] eqn:Hr; cbn [res]; [apply Hk|done|done].
Qed.

Lemma terminates_try_except {A} (m : M W A) h :
  terminates m → (∀ e, terminates (h e)) → terminates (try_except m h).
Proof.
  intros Hm Hh w. unfold try_except. specialize (Hm w).
  destruct (res (m w)) as [a|e|] eqn:Hr; cbn [res];
    [by rewrite Hr|apply Hh|done].
Qed.

Lemma terminates_try_finally {A} (m : M W A) f :
  terminates m → terminates f → terminates (try_finally m f).
Proof.
  intros Hm Hf w. unfold try_finally. specialize (Hm w).
  destruct (res (m w)) as [a|e|] eqn:Hr; cbn [res]; [| |done];
    specialize (Hf (world (m w)));
    by destruct (res (f (world (m w)))).
Qed.

Lemma terminates_when b (m : M W unit) :
  terminates m → terminates (when b m).
Proof. intros Hm. destruct b; [done|apply terminates_ret]. Qed.

Lemma terminates_ignore_errors (m : M W unit) :
  terminates m → terminates (ignore_errors m).
Proof.
  intros Hm. apply terminates_try_except; [done|].
  intros e. apply terminates_ret.
Qed.

End Rules.

(** Breaks a computation down along its structure. *)
Ltac terminates :=
  repeat first
    [ apply terminates_ret | apply terminates_raise | apply terminates_ask
    | apply terminates_emit | apply terminates_call
    | apply terminates_when | apply terminates_ignore_errors
    | apply terminates_try_finally | apply terminates_try_except
    | apply terminates_bind
    | match goal with
      | |- ∀ _, terminates _ => intros ?
      | |- terminates (match ?x with _ => _ end) => destruct x
      end ].

Section Programs.
Context {W : Type} (env : Env W).

Lemma download_arxiv_pdf_terminates arxiv_id output_dir :
  terminates (ArxivDownloader.download_arxiv_pdf env arxiv_id output_dir).
Proof. unfold ArxivDownloader.download_arxiv_pdf. terminates. Qed.

Lemma cleanup_terminates client f up :
  terminates (PosterGenerator.cleanup env client f up).
Proof. unfold PosterGenerator.cleanup. terminates. Qed.

Lemma generate_poster_terminates pdf_path info orientation resolution
    model language side_panel whatif_text existing_poster_path api_key
    output_path :
  terminates
    (PosterGenerator.generate_poster env pdf_path info orientation
       resolution model language side_panel whatif_text
       existing_poster_path api_key output_path).
Proof.
  unfold PosterGenerator.generate_poster.
  apply terminates_bind; [destruct api_key; terminates|].
  intros k. destruct (negb _); [terminates|].
  destruct (_ !! _); [|terminates].
  apply terminates_bind; [terminates|]. intros f.
  apply terminates_bind; [terminates|]. intros up.
  apply terminates_bind.
  - apply terminates_try_finally; [terminates|apply cleanup_terminates].
  - terminates.
Qed.

End Programs.

End Termination.

(** ** The batch driver *)

Module CliFacts.

Import Runtime Cli RuntimeFacts Termination Batch.

(** The search for a variant number stops at the first free one,
    provided the bound reaches it. *)
Lemma find_variant_first_free exists_ path_of fuel start n :
  start ≤ n → n - start < fuel →
  (∀ k, start ≤ k < n → exists_ (path_of k) = true) →
  exists_ (path_of n) = false →
  find_variant fuel exists_ path_of start = Some n.
Proof.
  revert start. induction fuel as [|fuel IH]; intros start Hle Hfuel Hex Hfree.
  - lia.
  - simpl. destruct (decide (start = n)) as [->|Hne].
    + by rewrite Hfree.
    + rewrite Hex by lia. apply IH; [lia|lia| |done].
      intros k Hk. apply Hex. lia.
Qed.

Lemma variant_path_suffix args arxiv_id n :
  ∃ prefix,
    variant_path args arxiv_id n
    = prefix +:+ "_var_" +:+ Str.of_nat n +:+ ".png".
Proof.
  unfold variant_path, variant_filename.
  apply PathFacts.joinpath_suffix.
  - apply (PathFacts.contains_slash_app "_var_"); [done|].
    apply PathFacts.contains_slash_app; [apply PathFacts.of_nat_no_slash|done].
  - rewrite StrFacts.length_app. simpl. lia.
Qed.

Section WithEnv.
Context {W : Type} (env : Env W).

(** C9: with a what-if request and the base poster on disk, the output
    path is the variant path numbered by the first free number from 1
    on: n when the variants 1 to n-1 exist and variant n does not (so
    3 after variants 1 and 2, and 1 when there is none); the path ends
    in _var_n.png. *)
Theorem variant_numbering fuel args arxiv_id w n :
  output args = None →
  Str.truthy_opt (whatif args) = true →
  path_exists env (base_path args arxiv_id) w = true →
  1 ≤ n ≤ fuel →
  (∀ k, 1 ≤ k < n →
     path_exists env (variant_path args arxiv_id k) w = true) →
  path_exists env (variant_path args arxiv_id n) w = false →
  choose_output_path env fuel args arxiv_id w
  = Run (Ok (Some (variant_path args arxiv_id n))) w []
  ∧ ∃ prefix,
      variant_path args arxiv_id n
      = prefix +:+ "_var_" +:+ Str.of_nat n +:+ ".png".
Proof.
  intros Hout Hwhatif Hbase Hn Hex Hfree.
  split; [|apply variant_path_suffix].
  unfold choose_output_path. rewrite Hout, Hwhatif.
  unfold bind, ask. cbn [res world trace]. rewrite Hbase.
  change (negb true) with false. cbv iota. cbn [res world trace].
  rewrite (find_variant_first_free _ _ fuel 1 n); [done|lia|lia|done|done].
Qed.

End WithEnv.

Import Scenario.

Lemma variant_numbering_witness :
  choose_output_path (scripted two_variants) 10
    (with_whatif "more colour" (default_args ["1706.03762"]))
    "1706.03762" []
  = Run (Ok (Some
               "outputs/poster_1706.03762_landscape_english_nopanel_var_3.png"))
      [] []
  ∧ choose_output_path (scripted base_only) 10
      (with_whatif "more colour" (default_args ["1706.03762"]))
      "1706.03762" []
    = Run (Ok (Some
                 "outputs/poster_1706.03762_landscape_english_nopanel_var_1.png"))
        [] [].
Proof.
  split.
  - refine (proj1 (variant_numbering (scripted two_variants) 10
             (with_whatif "more colour" (default_args ["1706.03762"]))
             "1706.03762" [] 3 _ _ _ _ _ _)).
    + reflexivity.
    + reflexivity.
    + reflexivity.
    + lia.
    + intros k Hk. assert (k = 1 ∨ k = 2) as [-> | ->] by lia; reflexivity.
    + reflexivity.
  - refine (proj1 (variant_numbering (scripted base_only) 10
             (with_whatif "more colour" (default_args ["1706.03762"]))
             "1706.03762" [] 1 _ _ _ _ _ _)).
    + reflexivity.
    + reflexivity.
    + reflexivity.
    + lia.
    + intros k Hk. lia.
    + reflexivity.
Defined.

End CliFacts.

(** ** The loop over the identifiers *)

Module BatchFacts.

Import Runtime Cli RuntimeFacts Termination Batch.

Lemma successes_cons id (b : bool) log :
  successes ((id, b) :: log) = (if b then 1 else 0) + successes log.
Proof.
  unfold successes. destruct b.
  - by rewrite filter_cons_True.
  - by rewrite filter_cons_False.
Qed.

Lemma failures_cons id (b : bool) log :
  failures ((id, b) :: log) = (if b then [] else [id]) ++ failures log.
Proof.
  unfold failures. destruct b.
  - by rewrite filter_cons_False.
  - by rewrite filter_cons_True.
Qed.

Section WithEnv.
Context {W : Type} (env : Env W).
Context (download_arxiv_pdf : downloader W) (generate_poster : generator W).
Hypothesis download_ends : ∀ id, terminates (download_arxiv_pdf id).
Hypothesis generate_ends :
  ∀ a b c d e f g h i j k, terminates (generate_poster a b c d e f g h i j k).

Abbreviation try_body := (try_body env download_arxiv_pdf generate_poster).
Abbreviation iteration := (iteration env download_arxiv_pdf generate_poster).
Abbreviation process_ids :=
  (process_ids env download_arxiv_pdf generate_poster).
Abbreviation batch_log := (batch_log env download_arxiv_pdf generate_poster).
Abbreviation batch_traces :=
  (batch_traces env download_arxiv_pdf generate_poster).

Lemma process_paper_terminates args arxiv_id output_path :
  terminates
    (process_paper env download_arxiv_pdf generate_poster args arxiv_id
       output_path).
Proof.
  unfold process_paper.
  repeat first
    [ apply terminates_bind | apply download_ends | apply generate_ends
    | match goal with
      | |- ∀ _, terminates _ => intros ?
      | |- terminates (match ?x with _ => _ end) => destruct x
      end
    | progress terminates ].
Qed.

(** Without a what-if request nothing in the body of the loop can run
    for ever. *)
Lemma try_body_terminates fuel args arxiv_id :
  Str.truthy_opt (whatif args) = false →
  terminates (try_body fuel args arxiv_id).
Proof.
  intros Hwhatif. unfold Cli.try_body, choose_output_path.
  rewrite Hwhatif.
  apply terminates_bind; [terminates|].
  intros [p|]; [|terminates].
  apply terminates_bind; [apply process_paper_terminates|terminates].
Qed.

(** One turn of the loop never raises: it ends with one more success
    or with the identifier appended to the failures, and leaves the
    same world and events whatever the counters were. *)
Lemma iteration_run fuel args n idx arxiv_id w :
  res (try_body fuel args arxiv_id w) ≠ Diverged →
  ∃ w' t,
    ∀ success_count failed_ids,
      iteration fuel args n idx arxiv_id (success_count, failed_ids) w
      = Run (Ok (match res (try_body fuel args arxiv_id w) with
                 | Ok Completed => (S success_count, failed_ids)
                 | _ => (success_count, failed_ids ++ [arxiv_id])
                 end)) w' t.
Proof.
  intros Hend. unfold Cli.iteration.
  destruct (try_body fuel args arxiv_id w) as [r wb tb] eqn:Hbody.
  cbn [res] in Hend |- *.
  destruct (1 <? n) eqn:Hn.
  all: destruct r as [[]|e|]; [| | |done].
  all: try (eexists _, _; intros sc failed;
            unfold bind, when, try_except, print, emit, ret;
            cbn [res world trace]; rewrite Hbody;
            cbn [res world trace]; reflexivity).
  all: destruct (is_ValueError e) eqn:Hcls, (verbose args) eqn:Hverb;
      eexists _, _; intros sc failed;
      unfold bind, when, try_except, print, eprint, emit, ret;
      rewrite ?Hverb; cbn [res world trace]; rewrite Hbody;
      cbn [res world trace]; rewrite Hcls; cbn [res world trace];
      reflexivity.
Qed.

(** The loop: every identifier gets its turn, in order, whatever
    happened to the ones before; the counters end as the successes and
    the failures of the log. *)
Lemma process_ids_run fuel args n ids :
  Str.truthy_opt (whatif args) = false →
  ∀ idx w success_count failed_ids,
    let log := batch_log fuel args n idx ids w in
    log.*1 = ids
    ∧ ∃ w',
        process_ids fuel args n idx ids (success_count, failed_ids) w
        = Run (Ok (success_count + successes log,
                   failed_ids ++ failures log))
            w' (concat (batch_traces fuel args n idx ids w)).
Proof.
  intros Hwhatif. induction ids as [|id ids IH]; intros idx w sc failed.
  - cbn. split; [done|]. exists w. unfold ret.
    by rewrite Nat.add_0_r, app_nil_r.
  - pose proof (try_body_terminates fuel args id Hwhatif w) as Hend.
    destruct (iteration_run fuel args n idx id w Hend) as (w1 & t1 & Hit).
    cbn [Batch.batch_log Batch.batch_traces Cli.process_ids].
    rewrite (Hit 0 []). cbn [world trace].
    destruct (IH (S idx) w1
                (match res (try_body fuel args id w) with
                 | Ok Completed => S sc
                 | _ => sc
                 end)
                (match res (try_body fuel args id w) with
                 | Ok Completed => failed
                 | _ => failed ++ [id]
                 end)) as [Hfst [w' Hrest]].
    split.
    { cbn [fmap list_fmap fst]. by rewrite <-Hfst at 2. }
    exists w'.
    erewrite bind_ok by apply Hit. cbn [concat].
    rewrite successes_cons, failures_cons.
    destruct (res (try_body fuel args id w)) as [[]|e|];
      rewrite Hrest; cbn [res world trace];
      rewrite <-?(assoc_L (++)); cbn [app];
      do 3 f_equal; lia.
Qed.

(** Without a base poster on disk a what-if request is given up before
    anything is downloaded or generated. *)
Lemma whatif_without_base_gives_up fuel args n idx arxiv_id w
    success_count failed_ids :
  output args = None →
  Str.truthy_opt (whatif args) = true →
  path_exists env (base_path args arxiv_id) w = false →
  iteration fuel args n idx arxiv_id (success_count, failed_ids) w
  = Run (Ok (success_count, failed_ids ++ [arxiv_id])) w
      ((if 1 <? n
        then [EvStdout (Str.nl +:+ "[" +:+ Str.of_nat idx +:+ "/"
                        +:+ Str.of_nat n +:+ "] Processing "
                        +:+ arxiv_id +:+ "...")]
        else [])
       ++ [EvStderr (mark_error
                     +:+ " Error: Existing poster file not found: "
                     +:+ base_path args arxiv_id);
           EvStderr "   Please generate the base poster first without --whatif."]).
Proof.
  intros Hout Hwhatif Hbase.
  assert (Hchoose :
    choose_output_path env fuel args arxiv_id w
    = Run (Ok None) w
        [EvStderr (mark_error
                   +:+ " Error: Existing poster file not found: "
                   +:+ base_path args arxiv_id);
         EvStderr "   Please generate the base poster first without --whatif."]).
  { unfold choose_output_path. rewrite Hout, Hwhatif.
    erewrite bind_ok by reflexivity. cbv beta. rewrite Hbase.
    change (negb false) with true. cbv iota. reflexivity. }
  assert (Hbody :
    try_body fuel args arxiv_id w
    = Run (Ok Continued) w
        [EvStderr (mark_error
                   +:+ " Error: Existing poster file not found: "
                   +:+ base_path args arxiv_id);
         EvStderr "   Please generate the base poster first without --whatif."]).
  { unfold Cli.try_body. erewrite bind_ok by exact Hchoose. reflexivity. }
  unfold Cli.iteration.
  destruct (1 <? n); unfold when.
  - erewrite bind_ok by reflexivity. cbv beta.
    erewrite try_except_ok
      by (erewrite bind_ok by exact Hbody; reflexivity).
    reflexivity.
  - erewrite bind_ok by reflexivity. cbv beta.
    erewrite try_except_ok
      by (erewrite bind_ok by exact Hbody; reflexivity).
    reflexivity.
Qed.

End WithEnv.

End BatchFacts.

(** ** The driver as a whole *)

Module DriverFacts.

Import Runtime Cli RuntimeFacts Termination Batch BatchFacts.

Section WithEnv.
Context {W : Type} (env : Env W).

Abbreviation download :=
  (λ arxiv_id, ArxivDownloader.download_arxiv_pdf env arxiv_id None).
Abbreviation generate := (PosterGenerator.generate_poster env).

(** With the flash model the loop does not depend on the resolution. *)
Lemma flash_process_ids fuel ids o od out r l sp wi ak v n ids' idx :
  process_ids env download generate fuel
    {| arxiv_ids := ids; orientation := o; output_dir := od;
       output := out; model := "flash"; resolution := r; language := l;
       side_panel := sp; whatif := wi; api_key := ak; verbose := v |}
    n idx ids'
  = process_ids env download generate fuel
      {| arxiv_ids := ids; orientation := o; output_dir := od;
         output := out; model := "flash"; resolution := "2K";
         language := l; side_panel := sp; whatif := wi; api_key := ak;
         verbose := v |}
      n idx ids'.
Proof.
  revert idx. induction ids' as [|id ids' IH]; intros idx; [done|].
  cbn [process_ids].
  change (λ st, bind (?it st) (λ st', ?p st')) with (λ st, bind (it st) p).
  rewrite (IH (S idx)). reflexivity.
Qed.

(** The run of [main] on a batch that passes the checks on the
    command line. *)
Lemma main_run fuel args w w1 :
  let ids := normalize_arxiv_id <$> arxiv_ids args in
  let n := length ids in
  path_mkdir env (Path.normalize (output_dir args)) w = (inr tt, w1) →
  (1 <? n) && bool_decide (output args ≠ None) = false →
  Str.truthy_opt (whatif args) && (1 <? n) = false →
  let loop :=
    bind (process_ids env download generate fuel args n 1 ids (0, []))
         (summary n) w1 in
  main env fuel args w
  = Run (res loop) (world loop)
      (EvMkdir (Path.normalize (output_dir args))
       :: (if Str.eqb (model args) "flash"
              && negb (Str.eqb (resolution args) "2K")
           then [EvStderr warning_resolution_ignored] else [])
       ++ trace loop).
Proof.
  intros ids n Hmk Hout Hwhatif loop.
  unfold main, main_with. fold ids. fold n.
  erewrite bind_ok by (apply call_inr, Hmk). cbv beta.
  rewrite Hout. cbv iota.
  destruct (Str.eqb (model args) "flash"
            && negb (Str.eqb (resolution args) "2K")); unfold when.
  - erewrite bind_ok by reflexivity. cbv beta. rewrite Hwhatif. cbv iota.
    fold loop. reflexivity.
  - erewrite bind_ok by reflexivity. cbv beta. rewrite Hwhatif. cbv iota.
    fold loop. reflexivity.
Qed.

End WithEnv.

(** C3: whenever the orchestrator reaches the generation call, it
    makes one such call, and the image configuration it sends holds the
    aspect ratio alone for the flash model, whatever resolution was
    asked for, and the requested resolution as [imageSize] for the pro
    model; nothing the orchestrator does with the flash model depends
    on the resolution.  A resolution other than the default one next to
    [--model flash] makes [main] print a warning on the error stream
    and go on: the run ends with the same result, in the same world and
    with the same other events as the run with the default resolution.
    Arguments that [main] refuses before any processing, [--output]
    next to several identifiers, end the run with the exit code 1 and
    the two lines of that refusal, before the warning. *)
Theorem flash_ignores_resolution_with_warning :
  (∀ W (env : Env W) pdf_path paper_info orientation resolution model
     language side_panel whatif_text existing_poster_path key output_path
     api_model f up w w1 w2,
     Str.truthy key = true →
     PosterGenerator.model_map !! model = Some api_model →
     files_upload env key pdf_path "application/pdf" w = (inr f, w1) →
     Uploads.poster_uploaded env key existing_poster_path w1 up w2 →
     ∃ cfg,
       sent_configs
         (trace (PosterGenerator.generate_poster env pdf_path paper_info
                   orientation resolution model language side_panel
                   whatif_text existing_poster_path (Some key) output_path
                   w))
       = [cfg]
       ∧ (model = "flash" →
            image_config cfg
            = {["aspectRatio"
                := PosterGenerator.aspect_ratio orientation side_panel]}
            ∧ image_config cfg !! "imageSize" = None)
       ∧ (model = "pro" →
            image_config cfg !! "imageSize" = Some resolution))
  ∧ (∀ W (env : Env W) pdf_path paper_info orientation resolution language
       side_panel whatif_text existing_poster_path api_key output_path,
       PosterGenerator.generate_poster env pdf_path paper_info orientation
         resolution "flash" language side_panel whatif_text
         existing_poster_path api_key output_path
       = PosterGenerator.generate_poster env pdf_path paper_info orientation
           "2K" "flash" language side_panel whatif_text
           existing_poster_path api_key output_path)
  ∧ (∀ W (env : Env W) fuel args w w1,
       model args = "flash" →
       resolution args ≠ "2K" →
       path_mkdir env (Path.normalize (output_dir args)) w = (inr tt, w1) →
       let r := main env fuel args w in
       let r0 := main env fuel (set_resolution "2K" args) w in
       if (1 <? length (arxiv_ids args)) && bool_decide (output args ≠ None)
       then
         r = Run (Ok 1) w1
               [EvMkdir (Path.normalize (output_dir args));
                EvStderr (mark_error +:+ " Error: --output option cannot be used when processing multiple arXiv IDs.");
                EvStderr "   Each paper will be saved with its default filename in the output directory."]
       else
         res r = res r0 ∧ world r = world r0
         ∧ ∃ rest,
             trace r = EvMkdir (Path.normalize (output_dir args))
                       :: EvStderr warning_resolution_ignored :: rest
             ∧ trace r0 = EvMkdir (Path.normalize (output_dir args)) :: rest).
Proof.
  split; [|split].
  - intros W env pdf_path paper_info orientation resolution model language
      side_panel whatif_text existing_poster_path key output_path api_model
      f up w w1 w2 Hkey Hmodel Hpdf Hposter.
    destruct (OrchestratorFacts.generate_poster_run env pdf_path paper_info
                orientation resolution model language side_panel whatif_text
                existing_poster_path key output_path api_model f up w w1 w2
                Hkey Hmodel Hpdf Hposter)
      as (r' & w' & tail & Hrun & Herr & Hok).
    rewrite Hrun. cbn [trace].
    assert (tail = [] ∨ tail = [EvSave output_path]) as Htail.
    { match type of Herr with
      | ∀ e, ?g = inl e → _ => destruct g as [e|resp] eqn:Hg
      end.
      - left. by destruct (Herr e eq_refl).
      - by apply (Hok resp). }
    eexists. split.
    + unfold sent_configs. rewrite omap_app.
      destruct up, existing_poster_path, Htail as [-> | ->]; reflexivity.
    + cbn [image_config]. split.
      * intros ->. split; [reflexivity|].
        unfold PosterGenerator.image_config_params.
        change (Str.eqb "flash" "pro") with false. cbv iota zeta.
        by apply lookup_singleton_ne.
      * intros ->. unfold PosterGenerator.image_config_params.
        change (Str.eqb "pro" "pro") with true. cbv iota zeta.
        apply lookup_insert_eq.
  - reflexivity.
  - intros W env fuel [ids o od out m r l sp wi ak v] w w1.
    cbn [model resolution output_dir arxiv_ids output set_resolution
         language side_panel whatif api_key verbose orientation].
    intros -> Hres Hmk. cbv zeta.
    unfold main, main_with.
    cbn [model resolution output_dir arxiv_ids output set_resolution
         language side_panel whatif api_key verbose orientation].
    rewrite length_fmap.
    destruct ((1 <? length ids) && bool_decide (out ≠ None)) eqn:Hout.
    { erewrite bind_ok by (apply call_inr, Hmk). reflexivity. }
    change (Str.eqb "flash" "flash") with true.
    change (Str.eqb "2K" "2K") with true.
    unfold Str.eqb. rewrite (bool_decide_eq_false_2 _ Hres).
    change (true && negb false) with true.
    change (true && negb true) with false.
    unfold when.
    repeat (erewrite bind_ok by first [apply call_inr, Hmk | reflexivity];
            cbv beta iota).
    destruct (Str.truthy_opt wi && (1 <? length ids)).
    + cbn [res world trace app]. eauto.
    + rewrite flash_process_ids. cbn [res world trace app]. eauto.
Qed.

(** A flash request for a 4K poster: the warning, then the usual run,
    with a request that carries no [imageSize]; the same request with
    the pro model carries it.  With three identifiers and [--output] the
    run is refused before the warning. *)
Lemma flash_ignores_resolution_with_warning_witness :
  res (main (Scenario.scripted Scenario.all_well) 10
         (Scenario.with_model "flash" "4K"
            (Scenario.default_args ["1706.03762"])) [])
  = Ok 0
  ∧ stderr_of
      (trace (main (Scenario.scripted Scenario.all_well) 10
                (Scenario.with_model "flash" "4K"
                   (Scenario.default_args ["1706.03762"])) []))
    = warning_resolution_ignored
      :: stderr_of
           (trace (main (Scenario.scripted Scenario.all_well) 10
                     (Scenario.with_model "flash" "2K"
                        (Scenario.default_args ["1706.03762"])) []))
  ∧ (λ cfg, image_config cfg !! "imageSize")
    <$> sent_configs
          (trace (PosterGenerator.generate_poster
                    (Scenario.scripted Scenario.all_well) "paper.pdf"
                    Scenario.no_paper_info "landscape" "4K" "flash"
                    "English" None None None (Some "secret") "out.png" []))
    = [None]
  ∧ (λ cfg, image_config cfg !! "imageSize")
    <$> sent_configs
          (trace (PosterGenerator.generate_poster
                    (Scenario.scripted Scenario.all_well) "paper.pdf"
                    Scenario.no_paper_info "landscape" "4K" "pro"
                    "English" None None None (Some "secret") "out.png" []))
    = [Some "4K"]
  ∧ main (Scenario.scripted Scenario.all_well) 10
      (Scenario.with_output "one.png"
         (Scenario.with_model "flash" "4K"
            (Scenario.default_args Scenario.three_ids))) []
    = Run (Ok 1) []
        [EvMkdir "outputs";
         EvStderr (mark_error +:+ " Error: --output option cannot be used when processing multiple arXiv IDs.");
         EvStderr "   Each paper will be saved with its default filename in the output directory."].
Proof.
  destruct flash_ignores_resolution_with_warning as (Hsent & _ & Hmain).
  pose proof (Hmain _ (Scenario.scripted Scenario.all_well) 10
                (Scenario.with_output "one.png"
                   (Scenario.with_model "flash" "4K"
                      (Scenario.default_args Scenario.three_ids))) [] []
                eq_refl) as Hrefused.
  pose proof (Hmain _ (Scenario.scripted Scenario.all_well) 10
                (Scenario.with_model "flash" "4K"
                   (Scenario.default_args ["1706.03762"])) [] []
                eq_refl) as Hrun.
  destruct Hrun as (Hres & _ & rest & Ht & Ht0);
    [discriminate|reflexivity|].
  split_and!.
  - rewrite Hres. vm_compute. reflexivity.
  - rewrite Ht.
    change (Scenario.with_model "flash" "2K"
              (Scenario.default_args ["1706.03762"]))
      with (set_resolution "2K"
              (Scenario.with_model "flash" "4K"
                 (Scenario.default_args ["1706.03762"]))).
    rewrite Ht0. reflexivity.
  - destruct (Hsent _ (Scenario.scripted Scenario.all_well) "paper.pdf"
                Scenario.no_paper_info "landscape" "4K" "flash" "English"
                None None None "secret" "out.png" "gemini-2.5-flash-image"
                {| file_name := "files/paper.pdf";
                   file_uri := "https://files/paper.pdf" |}
                None [] ["files/paper.pdf"] ["files/paper.pdf"])
      as (cfg & -> & Hflash & _);
      [reflexivity|reflexivity|reflexivity|split; reflexivity|].
    cbn [fmap list_fmap]. by destruct (Hflash eq_refl) as [_ ->].
  - destruct (Hsent _ (Scenario.scripted Scenario.all_well) "paper.pdf"
                Scenario.no_paper_info "landscape" "4K" "pro" "English"
                None None None "secret" "out.png"
                "gemini-3-pro-image-preview"
                {| file_name := "files/paper.pdf";
                   file_uri := "https://files/paper.pdf" |}
                None [] ["files/paper.pdf"] ["files/paper.pdf"])
      as (cfg & -> & _ & Hpro);
      [reflexivity|reflexivity|reflexivity|split; reflexivity|].
    cbn [fmap list_fmap]. by rewrite (Hpro eq_refl).
  - apply Hrefused; [discriminate|reflexivity].
Defined.

(** C8: in a batch every identifier gets its turn, in order, in the
    world the turns before it left, whatever happened to them; [main]
    itself never raises; the summary prints the number of attempts that
    ran to their end and the identifiers of the others, and the exit
    code is 0 exactly when there is no such other. *)
Theorem batch_failures_are_isolated {W} (env : Env W) fuel args w w1 :
  1 < length (arxiv_ids args) →
  output args = None →
  Str.truthy_opt (whatif args) = false →
  path_mkdir env (Path.normalize (output_dir args)) w = (inr tt, w1) →
  (main_log env fuel args w1).*1 = normalize_arxiv_id <$> arxiv_ids args
  ∧ ∃ w',
      main env fuel args w
      = Run (Ok (if successes (main_log env fuel args w1)
                    =? length (arxiv_ids args) then 0 else 1))
          w'
          (EvMkdir (Path.normalize (output_dir args))
           :: (if Str.eqb (model args) "flash"
                  && negb (Str.eqb (resolution args) "2K")
               then [EvStderr warning_resolution_ignored] else [])
           ++ concat (main_traces env fuel args w1)
           ++ [EvStdout (Str.nl +:+ rule);
               EvStdout ("Summary: "
                         +:+ Str.of_nat (successes (main_log env fuel args w1))
                         +:+ "/" +:+ Str.of_nat (length (arxiv_ids args))
                         +:+ " posters generated successfully")]
           ++ (if bool_decide (failures (main_log env fuel args w1) ≠ [])
               then [EvStdout ("Failed IDs: "
                               +:+ Str.join ", "
                                     (failures (main_log env fuel args w1)))]
               else [])
           ++ [EvStdout rule]).
Proof.
  intros Hn Hout Hwhatif Hmk.
  pose proof (process_ids_run env
                (λ arxiv_id,
                   ArxivDownloader.download_arxiv_pdf env arxiv_id None)
                (PosterGenerator.generate_poster env)
                (λ id, download_arxiv_pdf_terminates env id None)
                (generate_poster_terminates env) fuel args
                (length (normalize_arxiv_id <$> arxiv_ids args))
                (normalize_arxiv_id <$> arxiv_ids args) Hwhatif 1 w1 0 [])
    as [Hfst [w' Hloop]].
  split; [exact Hfst|].
  rewrite (main_run env fuel args w w1 Hmk);
    [|rewrite Hout; apply andb_false_intro2, bool_decide_eq_false_2;
      intros H; by apply H
     |by rewrite Hwhatif].
  fold (main_log env fuel args w1) in Hloop.
  fold (main_traces env fuel args w1) in Hloop.
  erewrite bind_ok by exact Hloop.
  cbn [app] in *. rewrite length_fmap in *.
  unfold summary.
  apply Nat.ltb_lt in Hn. rewrite Hn.
  exists w'.
  destruct (bool_decide (failures (main_log env fuel args w1) ≠ []));
    cbn [res world trace]; rewrite ?app_nil_r, <-?(assoc_L (++));
    reflexivity.
Qed.

(** Three papers, the second unknown to the repository: two posters, the
    second identifier reported, the third one processed. *)
Lemma batch_failures_are_isolated_witness :
  main_log (Scenario.scripted Scenario.second_unknown) 10
    (Scenario.default_args Scenario.three_ids) []
  = [("1111.00001", true); ("2222.00002", false); ("3333.00003", true)]
  ∧ res (main (Scenario.scripted Scenario.second_unknown) 10
           (Scenario.default_args Scenario.three_ids) [])
    = Ok 1
  ∧ stdout_of
      (trace (main (Scenario.scripted Scenario.second_unknown) 10
                (Scenario.default_args Scenario.three_ids) []))
    = [Str.nl +:+ "[1/3] Processing 1111.00001...";
       mark_sparkles +:+ " Poster saved to: outputs/poster_1111.00001_landscape_english_nopanel.png";
       Str.nl +:+ "[2/3] Processing 2222.00002...";
       Str.nl +:+ "[3/3] Processing 3333.00003...";
       mark_sparkles +:+ " Poster saved to: outputs/poster_3333.00003_landscape_english_nopanel.png";
       Str.nl +:+ rule;
       "Summary: 2/3 posters generated successfully";
       "Failed IDs: 2222.00002";
       rule].
Proof.
  destruct (batch_failures_are_isolated
              (Scenario.scripted Scenario.second_unknown) 10
              (Scenario.default_args Scenario.three_ids) [] [])
    as [_ [w' Hmain]];
    [cbn; lia|reflexivity|reflexivity|reflexivity|].
  split; [vm_compute; reflexivity|].
  rewrite Hmain. cbn [res trace]. split; vm_compute; reflexivity.
Defined.

(** C6: a what-if request with [--output] and no base poster on disk.
    The missing poster is not looked for: the paper is fetched and
    uploaded, the orchestrator runs up to the upload of the poster that
    is not there, and the uploaded paper stays with the service. *)
Theorem whatif_with_custom_output_skips_base_check :
  path_exists (Scenario.scripted Scenario.no_base_poster)
    (base_path
       (Scenario.with_output "custom.png"
          (Scenario.with_whatif "more colour"
             (Scenario.default_args ["1706.03762"])))
       "1706.03762") []
  = false
  ∧ res (main (Scenario.scripted Scenario.no_base_poster) 10
           (Scenario.with_output "custom.png"
              (Scenario.with_whatif "more colour"
                 (Scenario.default_args ["1706.03762"]))) [])
    = Ok 1
  ∧ remote_calls
      (trace (main (Scenario.scripted Scenario.no_base_poster) 10
                (Scenario.with_output "custom.png"
                   (Scenario.with_whatif "more colour"
                      (Scenario.default_args ["1706.03762"]))) []))
    = ["arxiv.results 1706.03762"; "arxiv.download_pdf 1706.03762.pdf";
       "files.upload /tmp/tmpdir/1706.03762.pdf";
       "files.upload outputs/poster_1706.03762_landscape_english_nopanel.png"]
  ∧ stderr_of
      (trace (main (Scenario.scripted Scenario.no_base_poster) 10
                (Scenario.with_output "custom.png"
                   (Scenario.with_whatif "more colour"
                      (Scenario.default_args ["1706.03762"]))) []))
    = [mark_error +:+ " Unexpected error processing 1706.03762: Failed to upload existing poster image: No such file: outputs/poster_1706.03762_landscape_english_nopanel.png"]
  ∧ world (main (Scenario.scripted Scenario.no_base_poster) 10
             (Scenario.with_output "custom.png"
                (Scenario.with_whatif "more colour"
                   (Scenario.default_args ["1706.03762"]))) [])
    = ["files//tmp/tmpdir/1706.03762.pdf"].
Proof. repeat split; vm_compute; reflexivity. Qed.

End DriverFacts.

(** ** The downloader *)

Module DownloaderFacts.

Import Runtime PdfProcessor ArxivDownloader RuntimeFacts.

Lemma last_segment_from_no_slash (acc s : string) :
  Str.contains "/" acc = false →
  Str.contains "/" (Str.last_segment_from "/" acc s) = false.
Proof.
  revert acc. induction s as [|c s IH]; intros acc Hacc; [done|].
  cbn [Str.last_segment_from]. case_bool_decide as Hc.
  - by apply IH.
  - apply IH, PathFacts.contains_slash_app; [done|].
    by apply PathFacts.contains_slash_cons.
Qed.

Lemma last_segment_from_whole (acc s : string) :
  Str.contains "/" s = false → Str.last_segment_from "/" acc s = acc +:+ s.
Proof.
  revert acc. induction s as [|c s IH]; intros acc Hs.
  - by rewrite StrFacts.app_nil_r.
  - apply PathFacts.contains_slash_cons in Hs as [Hc Hs].
    cbn [Str.last_segment_from]. rewrite bool_decide_false by done.
    rewrite IH by done. by rewrite StrFacts.app_assoc.
Qed.

Lemma last_segment_from_split (acc s : string) :
  Str.contains "/" s = true →
  ∃ pre, s = pre +:+ "/" +:+ Str.last_segment_from "/" acc s.
Proof.
  revert acc. induction s as [|c s IH]; intros acc Hs; [done|].
  cbn [Str.last_segment_from]. case_bool_decide as Hc.
  - subst c. destruct (Str.contains "/" s) eqn:Hrest.
    + destruct (IH EmptyString eq_refl) as [pre Hpre].
      exists (String "/" pre). rewrite StrFacts.app_cons. by f_equal.
    + exists EmptyString. by rewrite last_segment_from_whole.
  - assert (Str.contains "/" s = true) as Hrest.
    { destruct (Str.contains "/" s) eqn:Hrest; [done|].
      assert (Str.contains "/" (String c s) = false) as Hno
        by by apply PathFacts.contains_slash_cons.
      congruence. }
    destruct (IH (acc +:+ String c EmptyString) Hrest) as [pre Hpre].
    exists (String c pre). rewrite StrFacts.app_cons. by f_equal.
Qed.

(** X1: the identifier used for the lookup and for the file names is the
    text after the last slash of the identifier given: it holds no slash,
    an identifier without a slash is taken as it is, and one with a slash
    ends with a slash followed by the clean identifier. *)
Theorem clean_id_is_last_segment (arxiv_id : string) :
  Str.contains "/" (Cli.clean_id arxiv_id) = false
  ∧ (Str.contains "/" arxiv_id = false → Cli.clean_id arxiv_id = arxiv_id)
  ∧ (Str.contains "/" arxiv_id = true →
       ∃ pre, arxiv_id = pre +:+ "/" +:+ Cli.clean_id arxiv_id)
  ∧ Cli.clean_id (Cli.clean_id arxiv_id) = Cli.clean_id arxiv_id.
Proof.
  assert (Hno : Str.contains "/" (Cli.clean_id arxiv_id) = false).
  { unfold Cli.clean_id. destruct (Str.contains "/" arxiv_id) eqn:Hs; [|done].
    by apply last_segment_from_no_slash. }
  split_and!.
  - exact Hno.
  - unfold Cli.clean_id. by intros ->.
  - unfold Cli.clean_id. intros Hs. rewrite Hs.
    by apply last_segment_from_split.
  - unfold Cli.clean_id at 1. by rewrite Hno.
Qed.

Section WithEnv.
Context {W : Type} (env : Env W).

(** The first steps of a download: the directory, then the lookup. *)
Lemma download_lookup arxiv_id output_dir d results w w1 w2 w3 :
  match output_dir with
  | None => tempfile_mkdtemp env w = (inr d, w1)
  | Some d' => d' = d ∧ w1 = w
  end →
  os_makedirs env d w1 = (inr tt, w2) →
  arxiv_results env (Cli.clean_id arxiv_id) w2 = (inr results, w3) →
  ∀ k : string → list Paper → M W (string * Metadata),
    (let* output_dir :=
       match output_dir with
       | None => call EvMkdtemp (tempfile_mkdtemp env)
       | Some d => ret d
       end in
     call (EvMakedirs output_dir) (os_makedirs env output_dir);;
     let* results :=
       call (EvArxivResults (Cli.clean_id arxiv_id))
            (arxiv_results env (Cli.clean_id arxiv_id)) in
     k output_dir results)%M w
    = Run (res (k d results w3)) (world (k d results w3))
        (match output_dir with None => [EvMkdtemp] | Some _ => [] end
         ++ [EvMakedirs d; EvArxivResults (Cli.clean_id arxiv_id)]
         ++ trace (k d results w3)).
Proof.
  intros Hdir Hmk Hres k.
  assert (Hfirst :
    match output_dir with
    | None => call EvMkdtemp (tempfile_mkdtemp env)
    | Some d => ret d
    end w
    = Run (Ok d) w1
        (match output_dir with None => [EvMkdtemp] | Some _ => [] end)).
  { destruct output_dir as [d'|].
    - by destruct Hdir as [-> ->].
    - by apply call_inr. }
  erewrite bind_ok by exact Hfirst. cbv beta.
  erewrite bind_ok by (apply call_inr, Hmk). cbv beta.
  erewrite bind_ok by (apply call_inr, Hres). cbv beta.
  cbn [res world trace app]. reflexivity.
Qed.

(** X2: a paper that the repository does not know.  The lookup uses
    the clean identifier, the error names the identifier as it was
    given, and nothing is downloaded. *)
Theorem unknown_paper_is_reported arxiv_id output_dir d w w1 w2 w3 :
  match output_dir with
  | None => tempfile_mkdtemp env w = (inr d, w1)
  | Some d' => d' = d ∧ w1 = w
  end →
  os_makedirs env d w1 = (inr tt, w2) →
  arxiv_results env (Cli.clean_id arxiv_id) w2 = (inr [], w3) →
  download_arxiv_pdf env arxiv_id output_dir w
  = Run (Raised (Exn ValueError
                   ("Paper with ID " +:+ arxiv_id +:+ " not found on arXiv")
                   None))
      w3
      (match output_dir with None => [EvMkdtemp] | Some _ => [] end
       ++ [EvMakedirs d; EvArxivResults (Cli.clean_id arxiv_id)]).
Proof.
  intros Hdir Hmk Hres. unfold download_arxiv_pdf.
  erewrite (download_lookup arxiv_id output_dir d [] w w1 w2 w3 Hdir Hmk Hres
              (λ output_dir results,
                 match results with
                 | [] => _
                 | paper :: _ => _
                 end)).
  cbn [res world trace raise]. by rewrite app_nil_r.
Qed.

(** X3: a paper that is found.  Only the first result counts; it is
    downloaded once, into the directory, under the clean identifier
    followed by [.pdf]; the path returned is the directory joined with
    that name and the metadata are those of the first result. *)
Theorem first_result_is_downloaded arxiv_id output_dir d paper others
    w w1 w2 w3 w4 :
  match output_dir with
  | None => tempfile_mkdtemp env w = (inr d, w1)
  | Some d' => d' = d ∧ w1 = w
  end →
  os_makedirs env d w1 = (inr tt, w2) →
  arxiv_results env (Cli.clean_id arxiv_id) w2 = (inr (paper :: others), w3) →
  paper_download_pdf env paper d (Cli.clean_id arxiv_id +:+ ".pdf") w3
  = (inr tt, w4) →
  download_arxiv_pdf env arxiv_id output_dir w
  = Run (Ok (Path.os_path_join d (Cli.clean_id arxiv_id +:+ ".pdf"),
             {| md_title := Some (paper_title paper);
                md_authors := Some (paper_authors paper);
                md_summary := Some (paper_summary paper);
                md_entry_id := Some (paper_entry_id paper);
                md_published := paper_published paper |}))
      w4
      (match output_dir with None => [EvMkdtemp] | Some _ => [] end
       ++ [EvMakedirs d; EvArxivResults (Cli.clean_id arxiv_id);
           EvDownloadPdf d (Cli.clean_id arxiv_id +:+ ".pdf")]).
Proof.
  intros Hdir Hmk Hres Hdl. unfold download_arxiv_pdf.
  erewrite (download_lookup arxiv_id output_dir d (paper :: others)
              w w1 w2 w3 Hdir Hmk Hres
              (λ output_dir results,
                 match results with
                 | [] => _
                 | paper :: _ => _
                 end)).
  erewrite bind_ok by (apply call_inr, Hdl). cbv beta.
  cbn [res world trace ret]. by rewrite app_nil_r.
Qed.

End WithEnv.

(** An unknown paper whose identifier carries a category. *)
Lemma unknown_paper_is_reported_witness :
  download_arxiv_pdf (Scenario.scripted Scenario.second_unknown)
    "cs.CV/2222.00002" None []
  = Run (Raised (Exn ValueError
                   "Paper with ID cs.CV/2222.00002 not found on arXiv" None))
      []
      [EvMkdtemp; EvMakedirs "/tmp/tmpdir"; EvArxivResults "2222.00002"].
Proof.
  apply (unknown_paper_is_reported (Scenario.scripted Scenario.second_unknown)
           "cs.CV/2222.00002" None "/tmp/tmpdir" [] [] [] []);
    reflexivity.
Defined.

(** A download into a directory of the caller's. *)
Lemma first_result_is_downloaded_witness :
  download_arxiv_pdf (Scenario.scripted Scenario.all_well)
    "cs.CV/2401.12345" (Some "papers") []
  = Run (Ok ("papers/2401.12345.pdf",
             {| md_title := Some "Paper 2401.12345";
                md_authors := Some ["A. Author"; "B. Author"];
                md_summary := Some "We study Deep Learning for 2401.12345.";
                md_entry_id := Some "http://arxiv.org/abs/2401.12345";
                md_published := None |}))
      []
      [EvMakedirs "papers"; EvArxivResults "2401.12345";
       EvDownloadPdf "papers" "2401.12345.pdf"].
Proof.
  apply (first_result_is_downloaded (Scenario.scripted Scenario.all_well)
           "cs.CV/2401.12345" (Some "papers") "papers"
           (Scenario.some_paper "2401.12345") [] [] [] [] [] []);
    try reflexivity.
  split; reflexivity.
Defined.

End DownloaderFacts.

(** ** The paper information *)

Module PaperInfoFacts.

Import Re PdfProcessor PdfProcessorFacts.

Lemma str_take_length (n : nat) (s : string) :
  String.length (Str.take n s) = n `min` String.length s.
Proof.
  revert n. induction s as [|c s IH]; intros [|n]; cbn; [done..|].
  by rewrite IH.
Qed.

Lemma str_take_drop (n : nat) (s : string) : Str.take n s +:+ Str.drop n s = s.
Proof.
  revert n. induction s as [|c s IH]; intros [|n]; cbn; [done..|].
  rewrite StrFacts.app_cons. by rewrite IH.
Qed.

Lemma str_take_all (n : nat) (s : string) :
  String.length s ≤ n → Str.take n s = s.
Proof.
  revert n. induction s as [|c s IH]; intros [|n] Hn; cbn in *;
    [done|done|lia|].
  rewrite IH; [done|lia].
Qed.

(** X4: the paper information handed to the orchestrator.  The abstract
    is the summary cut after 1000 characters (the summary itself when it
    is not longer), while the key concepts are taken from the whole
    summary; of a longer list of authors only the first three are named;
    the path of the PDF plays no part. *)
Theorem paper_info_limits (pdf_path : string) (metadata : Metadata) :
  let info := extract_paper_info pdf_path metadata in
  let summary := default EmptyString (md_summary metadata) in
  Str.len (abstract info) = 1000 `min` Str.len summary
  ∧ summary = abstract info +:+ Str.drop 1000 summary
  ∧ (Str.len summary ≤ 1000 → abstract info = summary)
  ∧ key_concepts info = extract_key_concepts summary
  ∧ (∀ a b c others,
       md_authors metadata = Some (a :: b :: c :: others) →
       authors info = a +:+ ", " +:+ b +:+ ", " +:+ c)
  ∧ (∀ pdf_path', extract_paper_info pdf_path' metadata = info).
Proof.
  intros info summary. subst info summary. unfold extract_paper_info.
  cbn [abstract key_concepts authors]. split_and!.
  - apply str_take_length.
  - by rewrite str_take_drop.
  - apply str_take_all.
  - done.
  - by intros a b c others ->.
  - done.
Qed.

(** ** The bound on the number of concepts *)

(** X5: the [max_concepts] argument, a Python [int].  The concepts kept
    are always the first ones, without repetition, of the distinct
    concepts in the order of their first occurrence: as many as the
    bound says when it is not negative (all of them when there are
    fewer), and all but the last [-n] for a negative bound [n]; with the
    bound 0 the result is the fallback text whatever the abstract says. *)
Theorem max_concepts_bounds_the_list (text : string) (n : Z) :
  let all := dict_fromkeys (concepts text) in
  let u := unique_concepts text n in
  NoDup u
  ∧ u = take (length u) all
  ∧ ((0 ≤ n)%Z → length u = Z.to_nat n `min` length all)
  ∧ ((n < 0)%Z → length u = length all - Z.to_nat (- n))
  ∧ (∀ m, (0 ≤ n ≤ m)%Z →
       u = take (Z.to_nat n) (unique_concepts text m))
  ∧ extract_key_concepts_n text 0 = fallback_concepts
  ∧ extract_key_concepts text = extract_key_concepts_n text 5.
Proof.
  intros all u. subst u. unfold unique_concepts, slice_to. fold all.
  split_and!.
  - eapply sublist_NoDup; [apply NoDup_dict_fromkeys|apply sublist_take].
  - rewrite length_take.
    match goal with |- take ?x _ = _ => generalize x end. intros k.
    destruct (decide (k ≤ length all)) as [Hk|Hk].
    + f_equal. lia.
    + rewrite !take_ge by lia. done.
  - intros Hn. rewrite length_take.
    destruct (Z.ltb_spec n 0) as [Hneg|_]; [lia|done].
  - intros Hn. rewrite length_take.
    destruct (Z.ltb_spec n 0) as [_|Hpos]; lia.
  - intros m [Hn Hm]. rewrite take_take.
    destruct (Z.ltb_spec n 0) as [Hneg|_]; [lia|].
    destruct (Z.ltb_spec m 0) as [Hneg|_]; [lia|].
    f_equal. lia.
  - done.
  - done.
Qed.

(** Three concepts in the text: the bound -1 keeps the first two, and the
    bound 2 keeps what the bound 5 keeps, cut after two. *)
Lemma max_concepts_bounds_the_list_witness :
  let text :=
    "We study Attention Heads and Sparse Models with Graph Networks." in
  length (unique_concepts text (-1)) = 2
  ∧ unique_concepts text (-1) = ["Attention Heads"; "Sparse Models"]
  ∧ unique_concepts text 2 = take 2 (unique_concepts text 5).
Proof.
  intros text.
  pose proof (max_concepts_bounds_the_list text (-1)) as Hneg.
  pose proof (max_concepts_bounds_the_list text 2) as Hpos.
  cbv zeta in Hneg, Hpos.
  destruct Hneg as (_ & _ & _ & Hneg & _).
  destruct Hpos as (_ & _ & _ & _ & Hpos & _).
  split_and!.
  - rewrite Hneg by lia. by vm_compute.
  - by vm_compute.
  - apply (Hpos 5%Z). lia.
Defined.

(** ** What the pattern can match *)

(** A match never moves backwards: the continuation is entered at a
    position that is not before the starting one. *)
Lemma rmatch_advances (r : regex) :
  ∀ s k e,
    rmatch r s k = Some e →
    ∃ s', k s' = Some e ∧ length (rest s') ≤ length (rest s).
Proof.
  induction r as [p| |r1 IH1 r2 IH2|r1 IH1]; intros s k e Hm.
  - cbn [rmatch] in Hm. destruct (rest s) as [|c t] eqn:Hs; [done|].
    destruct (p c); [|done].
    eexists. split; [exact Hm|]. cbn. lia.
  - cbn [rmatch] in Hm. destruct (at_boundary s); [|done]. eauto.
  - cbn [rmatch] in Hm.
    apply IH1 in Hm as (s1 & Hm & Hlen1).
    apply IH2 in Hm as (s2 & Hm & Hlen2).
    exists s2. split; [done|lia].
  - cbn [rmatch] in Hm. revert Hm.
    generalize (length (rest s)) at 1 as n. intros n. revert s k e.
    induction n as [|n IHn]; intros s k e Hm; [eauto|].
    destruct (rmatch r1 s _) as [e0|] eqn:Hr1 in Hm; [|eauto].
    injection Hm as ->.
    apply IH1 in Hr1 as (s1 & Hr1 & Hlen1).
    destruct (length (rest s1) <? length (rest s)); [|done].
    apply IHn in Hr1 as (s2 & Hk & Hlen2).
    exists s2. split; [done|lia].
Qed.

Lemma rmatch_cat r1 r2 s k :
  rmatch (Cat r1 r2) s k = rmatch r1 s (λ s', rmatch r2 s' k).
Proof. reflexivity. Qed.

Lemma rmatch_boundary s k :
  rmatch Boundary s k = if at_boundary s then k s else None.
Proof. reflexivity. Qed.

Lemma rmatch_class p s k :
  rmatch (Class p) s k
  = match rest s with
    | c :: t => if p c then k (Cursor (Some c) t) else None
    | [] => None
    end.
Proof. reflexivity. Qed.

(** The pattern matches only where a capital letter stands, and its
    match takes that letter in. *)
Lemma concept_match_starts_with_capital prev l e :
  rmatch concept_pattern (Cursor prev l) Some = Some e →
  ∃ c t, l = c :: t ∧ Str.is_upper_az c = true
         ∧ length (rest e) ≤ length t.
Proof.
  unfold concept_pattern. rewrite rmatch_cat, rmatch_boundary.
  destruct (at_boundary _); [|done].
  rewrite rmatch_cat. unfold capitalized_word.
  rewrite rmatch_cat, rmatch_class. cbn [rest].
  destruct l as [|c t]; [done|].
  destruct (Str.is_upper_az c) eqn:Hc; [|done].
  intros Hm. exists c, t. split_and!; [done..|].
  apply rmatch_advances in Hm as (s1 & Hm & Hlen1). cbn [rest] in Hlen1.
  apply rmatch_advances in Hm as (s2 & [= <-] & Hlen2). lia.
Qed.

Lemma scan_starts_with_capital prev l skip w :
  w ∈ scan concept_pattern prev l skip →
  ∃ c s, w = String c s ∧ Str.is_upper_az c = true.
Proof.
  revert prev skip. induction l as [|c t IH]; intros prev skip Hw.
  { by apply elem_of_nil in Hw. }
  cbn [scan] in Hw. destruct skip as [|n]; [|by eapply IH].
  destruct (rmatch concept_pattern (Cursor prev (c :: t)) Some)
    as [e|] eqn:Hm; [|by eapply IH].
  apply elem_of_cons in Hw as [->|Hw]; [|by eapply IH].
  apply concept_match_starts_with_capital in Hm
    as (c' & t' & [= <- <-] & Hc & Hlen).
  cbn [length]. replace (S (length t) - length (rest e))
    with (S (length t - length (rest e))) by lia.
  cbn [take Str.of_list string_of_list_ascii]. eauto.
Qed.

Lemma scan_without_capital prev l skip :
  Forall (λ c, Str.is_upper_az c = false) l →
  scan concept_pattern prev l skip = [].
Proof.
  intros Hl. revert prev skip.
  induction Hl as [|c t Hc Ht IH]; intros prev skip; [done|].
  cbn [scan]. destruct skip as [|n]; [|apply IH].
  destruct (rmatch concept_pattern (Cursor prev (c :: t)) Some)
    as [e|] eqn:Hm; [|apply IH].
  apply concept_match_starts_with_capital in Hm
    as (c' & t' & [= <- <-] & Hc' & _).
  congruence.
Qed.

(** X6: every concept that is extracted begins with a capital letter
    from A to Z. *)
Theorem concepts_start_with_capital (text : string) (n : Z) (w : string) :
  w ∈ unique_concepts text n →
  ∃ c s, w = String c s ∧ Str.is_upper_az c = true.
Proof.
  intros Hw. unfold unique_concepts, slice_to in Hw.
  apply elem_of_take in Hw as (i & Hi & _).
  apply list_elem_of_lookup_2 in Hi. rewrite elem_of_dict_fromkeys in Hi.
  apply elem_of_concepts in Hi as [Hi _].
  by eapply scan_starts_with_capital.
Qed.

Lemma concepts_start_with_capital_witness :
  unique_concepts "We study Deep Learning with the Transformer." 5
  = ["Deep Learning"; "Transformer"]
  ∧ ∃ c s, "Transformer" = String c s ∧ Str.is_upper_az c = true.
Proof.
  split; [vm_compute; reflexivity|].
  apply (concepts_start_with_capital
           "We study Deep Learning with the Transformer." 5 "Transformer").
  vm_compute. set_solver.
Defined.

(** X7: an abstract without any capital letter from A to Z gives the
    fallback text, whatever the bound on the number of concepts. *)
Theorem no_capital_gives_fallback (text : string) (n : Z) :
  Forall (λ c, Str.is_upper_az c = false) (Str.to_list text) →
  extract_key_concepts_n text n = fallback_concepts
  ∧ extract_key_concepts text = "Research, Machine Learning, Deep Learning".
Proof.
  intros Hl.
  assert (concepts text = []) as Hnone.
  { unfold concepts, findall. by rewrite scan_without_capital. }
  unfold extract_key_concepts, extract_key_concepts_n, unique_concepts.
  unfold slice_to. rewrite Hnone. cbn [dict_fromkeys foldl].
  by rewrite !take_nil.
Qed.

Lemma no_capital_gives_fallback_witness :
  extract_key_concepts "attention is all you need (2017)."
  = "Research, Machine Learning, Deep Learning".
Proof.
  apply (no_capital_gives_fallback "attention is all you need (2017)." 5).
  vm_compute. repeat constructor.
Defined.

End PaperInfoFacts.

(** ** The orchestrator: preconditions and outcomes *)

Module OrchestratorEdges.

Import Runtime PosterGenerator Uploads RuntimeFacts OrchestratorFacts.

Lemma run_eta {W A} (r : run W A) :
  Run (res r) (world r) (trace r) = r.
Proof. by destruct r. Qed.

Section WithEnv.
Context {W : Type} (env : Env W).

(** The key that reaches the client: the argument when there is one,
    else what the environment holds. *)
Lemma generate_poster_key pdf_path info orientation resolution model
    language side_panel whatif_text existing_poster_path api_key
    output_path w :
  generate_poster env pdf_path info orientation resolution model language
    side_panel whatif_text existing_poster_path api_key output_path w
  = generate_poster env pdf_path info orientation resolution model language
      side_panel whatif_text existing_poster_path
      (Some (default EmptyString
               (match api_key with
                | None => api_key_from_env env w
                | Some k => Some k
                end)))
      output_path w.
Proof.
  unfold generate_poster.
  assert (Hkey :
    match api_key with
    | None => ask (api_key_from_env env)
    | Some k => ret (Some k)
    end w
    = Run (Ok (match api_key with
               | None => api_key_from_env env w
               | Some k => Some k
               end)) w []).
  { by destruct api_key. }
  erewrite bind_ok by exact Hkey.
  erewrite (bind_ok (ret _)) by reflexivity. cbv beta.
  destruct (match api_key with
            | None => api_key_from_env env w
            | Some k => Some k
            end) as [k|]; reflexivity.
Qed.

(** X8: without a key nothing is attempted.  When no key is passed and
    neither variable of the environment holds a non-empty one, or when
    the key passed is the empty text, the orchestrator raises a
    ValueError before any event. *)
Theorem missing_api_key_stops_before_any_call pdf_path info orientation
    resolution model language side_panel whatif_text existing_poster_path
    api_key output_path w :
  Str.truthy_opt (match api_key with
                  | None => api_key_from_env env w
                  | Some k => Some k
                  end) = false →
  generate_poster env pdf_path info orientation resolution model language
    side_panel whatif_text existing_poster_path api_key output_path w
  = Run (Raised (Exn ValueError
                   "API key not provided. Set GEMINI_API_KEY or GOOGLE_API_KEY environment variable, or pass --api-key argument."
                   None))
      w [].
Proof.
  intros Hkey. rewrite generate_poster_key. unfold generate_poster.
  erewrite bind_ok by reflexivity. cbv beta.
  destruct (match api_key with
            | None => api_key_from_env env w
            | Some k => Some k
            end) as [[|c k]|]; done.
Qed.

(** X9: the key of the environment stands in for a missing argument:
    [GEMINI_API_KEY] when it is set and not empty, else
    [GOOGLE_API_KEY]; the run is then the one with that key passed as
    the argument. *)
Theorem environment_key_stands_in pdf_path info orientation resolution
    model language side_panel whatif_text existing_poster_path
    output_path w key :
  (os_getenv env "GEMINI_API_KEY" w = Some key
   ∨ Str.truthy_opt (os_getenv env "GEMINI_API_KEY" w) = false
     ∧ os_getenv env "GOOGLE_API_KEY" w = Some key) →
  Str.truthy key = true →
  generate_poster env pdf_path info orientation resolution model language
    side_panel whatif_text existing_poster_path None output_path w
  = generate_poster env pdf_path info orientation resolution model language
      side_panel whatif_text existing_poster_path (Some key) output_path w.
Proof.
  intros Hsrc Hkey. rewrite generate_poster_key.
  assert (api_key_from_env env w = Some key) as ->; [|done].
  unfold api_key_from_env. destruct Hsrc as [Hg|[Hg Ho]].
  - rewrite Hg. cbn [Str.truthy_opt]. by rewrite Hkey.
  - by rewrite Hg.
Qed.

(** X10: a model that is neither [pro] nor [flash] is refused before
    anything is uploaded. *)
Theorem unknown_model_is_refused pdf_path info orientation resolution
    model language side_panel whatif_text existing_poster_path key
    output_path w :
  Str.truthy key = true →
  model ≠ "pro" → model ≠ "flash" →
  generate_poster env pdf_path info orientation resolution model language
    side_panel whatif_text existing_poster_path (Some key) output_path w
  = Run (Raised (Exn ValueError
                   ("Invalid model: " +:+ model
                    +:+ ". Must be 'pro' or 'flash'") None))
      w [].
Proof.
  intros Hkey Hpro Hflash. unfold generate_poster.
  erewrite bind_ok by reflexivity. cbv beta.
  change (Str.truthy_opt (Some key)) with (Str.truthy key).
  rewrite Hkey. change (negb true) with false. cbv iota.
  assert (model_map !! model = None) as ->; [|done].
  unfold model_map. by rewrite !lookup_insert_ne.
Qed.

(** X11: when the PDF cannot be uploaded the orchestrator raises a
    RuntimeError that carries the text of the failure and the failure
    itself as its cause; the failed upload is the only event: no poster
    is uploaded, nothing is generated, nothing is deleted. *)
Theorem pdf_upload_failure_is_wrapped pdf_path info orientation resolution
    model language side_panel whatif_text existing_poster_path key
    output_path api_model e w w1 :
  Str.truthy key = true →
  model_map !! model = Some api_model →
  files_upload env key pdf_path "application/pdf" w = (inl e, w1) →
  generate_poster env pdf_path info orientation resolution model language
    side_panel whatif_text existing_poster_path (Some key) output_path w
  = Run (Raised (Exn RuntimeError
                   ("Failed to upload PDF file: " +:+ exn_str e) (Some e)))
      w1 [EvUpload pdf_path "application/pdf"].
Proof.
  intros Hkey Hmodel Hpdf. unfold generate_poster.
  erewrite bind_ok by reflexivity. cbv beta.
  change (Str.truthy_opt (Some key)) with (Str.truthy key).
  rewrite Hkey. change (negb true) with false. cbv iota.
  rewrite Hmodel. cbv beta iota.
  change (default EmptyString (Some key)) with key.
  erewrite bind_raised; [done|].
  erewrite try_except_raised by (eapply call_inl, Hpdf).
  done.
Qed.

(** The run of the orchestrator on an answer of the generation call:
    the uploads, the call, the deletions, then the search for an image. *)
Lemma generate_poster_response pdf_path info orientation resolution model
    language side_panel whatif_text existing_poster_path key output_path
    api_model f up resp w w1 w2 w3 :
  Str.truthy key = true →
  model_map !! model = Some api_model →
  files_upload env key pdf_path "application/pdf" w = (inr f, w1) →
  poster_uploaded env key existing_poster_path w1 up w2 →
  let cts :=
    contents (file_uri f) (file_uri <$> up)
      (poster_prompt orientation resolution model language side_panel
         whatif_text existing_poster_path) in
  let cfg :=
    {| response_modalities := ["TEXT"; "IMAGE"];
       image_config :=
         image_config_params model resolution
           (aspect_ratio orientation side_panel) |} in
  models_generate_content env key api_model cts cfg w2 = (inr resp, w3) →
  let before :=
    EvUpload pdf_path "application/pdf"
    :: match up, existing_poster_path with
       | Some _, Some p => [EvUpload p "image/png"]
       | _, _ => []
       end
    ++ EvGenerate api_model cts cfg
    :: EvDelete (file_name f)
    :: match up with Some fp => [EvDelete (file_name fp)] | None => [] end in
  ∃ w4,
    world (cleanup env key f up w3) = w4
    ∧ generate_poster env pdf_path info orientation resolution model
        language side_panel whatif_text existing_poster_path (Some key)
        output_path w
      = match parts resp with
        | None =>
            Run (Raised (Exn TypeError "'NoneType' object is not iterable"
                           None)) w4 before
        | Some ps =>
            match first_image ps with
            | None =>
                Run (Raised (Exn RuntimeError
                               "No image was generated in the API response"
                               None)) w4 before
            | Some image =>
                Run (match (image_save env image output_path w4).1 with
                     | inl e => Raised e
                     | inr _ => Ok output_path
                     end)
                  (image_save env image output_path w4).2
                  (before ++ [EvSave output_path])
            end
        end.
Proof.
  intros Hkey Hmodel Hpdf Hposter cts cfg Hgen before.
  destruct (cleanup_run env key f up w3) as [w4 Hclean].
  exists w4. split; [by rewrite Hclean|].
  unfold generate_poster.
  erewrite bind_ok by reflexivity. cbv beta.
  change (Str.truthy_opt (Some key)) with (Str.truthy key).
  rewrite Hkey. change (negb true) with false. cbv iota.
  rewrite Hmodel. cbv beta iota.
  change (default EmptyString (Some key)) with key.
  erewrite bind_ok by (eapply try_except_ok, call_inr, Hpdf). cbv beta.
  assert (Hup :
    match existing_poster_path with
    | Some p =>
        if Str.truthy p
        then
          bind
            (try_except
               (call (EvUpload p "image/png")
                  (files_upload env key p "image/png"))
               (λ e : exn,
                  raise
                    (Exn RuntimeError
                       ("Failed to upload existing poster image: "
                        +:+ exn_str e) (Some e))))
            (λ f0, ret (Some f0))
        else ret None
    | None => ret None
    end w1
    = Run (Ok up) w2
        match up, existing_poster_path with
        | Some _, Some p => [EvUpload p "image/png"]
        | _, _ => []
        end).
  { unfold poster_uploaded in Hposter.
    destruct existing_poster_path as [p|]; [destruct (Str.truthy p)|].
    - destruct Hposter as (fp & Hfp & ->).
      erewrite bind_ok by (eapply try_except_ok, call_inr, Hfp).
      done.
    - by destruct Hposter as [-> ->].
    - by destruct Hposter as [-> ->]. }
  erewrite bind_ok by exact Hup. clear Hup. cbv beta.
  fold cts cfg.
  assert (Hfin :
    try_finally
      (try_except
         (call (EvGenerate api_model cts cfg)
            (models_generate_content env key api_model cts cfg))
         (λ e,
            if is_api_key_error (exn_str e)
            then raise (api_key_error e) else raise e))
      (cleanup env key f up) w2
    = Run (Ok resp) w4
        (EvGenerate api_model cts cfg
         :: EvDelete (file_name f)
         :: match up with
            | Some fp => [EvDelete (file_name fp)]
            | None => []
            end)).
  { unfold try_finally.
    erewrite try_except_ok by (apply call_inr, Hgen).
    cbn [res world trace]. by rewrite Hclean. }
  erewrite bind_ok by exact Hfin. clear Hfin. cbv beta.
  subst before.
  destruct (parts resp) as [ps|]; [destruct (first_image ps) as [im|]|].
  - unfold bind, call, ret.
    destruct (image_save env im output_path w4) as [[e|[]] w5];
      cbn [res world trace fst snd app];
      by rewrite ?app_nil_r, <-?(assoc_L (++)).
  - cbn [res world trace raise app]. by rewrite ?app_nil_r, <-?(assoc_L (++)).
  - cbn [res world trace raise app]. by rewrite ?app_nil_r, <-?(assoc_L (++)).
Qed.

(** X12: an answer without an image.  The uploaded files are deleted
    first, then the orchestrator raises a RuntimeError; nothing is
    saved. *)
Theorem answer_without_image_is_an_error pdf_path info orientation
    resolution model language side_panel whatif_text existing_poster_path
    key output_path api_model f up ps w w1 w2 w3 :
  Str.truthy key = true →
  model_map !! model = Some api_model →
  files_upload env key pdf_path "application/pdf" w = (inr f, w1) →
  poster_uploaded env key existing_poster_path w1 up w2 →
  models_generate_content env key api_model
    (contents (file_uri f) (file_uri <$> up)
       (poster_prompt orientation resolution model language side_panel
          whatif_text existing_poster_path))
    {| response_modalities := ["TEXT"; "IMAGE"];
       image_config :=
         image_config_params model resolution
           (aspect_ratio orientation side_panel) |} w2
  = (inr {| parts := Some ps |}, w3) →
  Forall (λ p, p = None) ps →
  let r :=
    generate_poster env pdf_path info orientation resolution model
      language side_panel whatif_text existing_poster_path (Some key)
      output_path w in
  res r = Raised (Exn RuntimeError
                    "No image was generated in the API response" None)
  ∧ world r = world (cleanup env key f up w3)
  ∧ EvDelete (file_name f) ∈ trace r
  ∧ (∀ fp, up = Some fp → EvDelete (file_name fp) ∈ trace r)
  ∧ EvSave output_path ∉ trace r.
Proof.
  intros Hkey Hmodel Hpdf Hposter Hgen Hps r. subst r.
  destruct (generate_poster_response pdf_path info orientation resolution
              model language side_panel whatif_text existing_poster_path
              key output_path api_model f up _ w w1 w2 w3
              Hkey Hmodel Hpdf Hposter Hgen) as (w4 & <- & ->).
  cbn [parts].
  assert (first_image ps = None) as ->.
  { clear -Hps. induction Hps as [|p ps -> _ IH]; [done|exact IH]. }
  cbn [res world trace]. split_and!; [done|done|..].
  - set_solver.
  - intros fp ->. set_solver.
  - destruct up as [fp|], existing_poster_path as [p|]; cbn [app];
      rewrite ?not_elem_of_cons; split_and?; try discriminate;
      apply not_elem_of_nil.
Qed.

(** X13: an answer with images.  The first part that is an image is the
    one saved, under the output path, after the uploaded files were
    deleted; the orchestrator returns the output path when the image is
    written, and whether a deletion failed plays no part. *)
Theorem first_image_is_saved pdf_path info orientation resolution model
    language side_panel whatif_text existing_poster_path key output_path
    api_model f up ps image w w1 w2 w3 w5 :
  Str.truthy key = true →
  model_map !! model = Some api_model →
  files_upload env key pdf_path "application/pdf" w = (inr f, w1) →
  poster_uploaded env key existing_poster_path w1 up w2 →
  models_generate_content env key api_model
    (contents (file_uri f) (file_uri <$> up)
       (poster_prompt orientation resolution model language side_panel
          whatif_text existing_poster_path))
    {| response_modalities := ["TEXT"; "IMAGE"];
       image_config :=
         image_config_params model resolution
           (aspect_ratio orientation side_panel) |} w2
  = (inr {| parts := Some ps |}, w3) →
  first_image ps = Some image →
  image_save env image output_path (world (cleanup env key f up w3))
  = (inr tt, w5) →
  ∃ before,
    generate_poster env pdf_path info orientation resolution model
      language side_panel whatif_text existing_poster_path (Some key)
      output_path w
    = Run (Ok output_path) w5 (before ++ [EvSave output_path])
    ∧ EvDelete (file_name f) ∈ before
    ∧ (∀ fp, up = Some fp → EvDelete (file_name fp) ∈ before)
    ∧ EvSave output_path ∉ before.
Proof.
  intros Hkey Hmodel Hpdf Hposter Hgen Himage Hsave.
  destruct (generate_poster_response pdf_path info orientation resolution
              model language side_panel whatif_text existing_poster_path
              key output_path api_model f up _ w w1 w2 w3
              Hkey Hmodel Hpdf Hposter Hgen) as (w4 & <- & ->).
  cbn [parts]. rewrite Himage, Hsave. cbn [fst snd].
  eexists. split; [reflexivity|]. split_and!.
  - set_solver.
  - intros fp ->. set_solver.
  - destruct up as [fp|], existing_poster_path as [p|]; cbn [app];
      rewrite ?not_elem_of_cons; split_and?; try discriminate;
      apply not_elem_of_nil.
Qed.

End WithEnv.

Import Scenario.

(** No key as argument and none in the environment. *)
Lemma missing_api_key_stops_before_any_call_witness :
  generate_poster (scripted all_well) "paper.pdf" no_paper_info "landscape"
    "2K" "pro" "English" None None None None "out.png" []
  = generate_poster (scripted key_in_environment) "paper.pdf" no_paper_info
      "landscape" "2K" "pro" "English" None None None (Some EmptyString)
      "out.png" [].
Proof.
  rewrite (missing_api_key_stops_before_any_call (scripted all_well))
    by reflexivity.
  rewrite (missing_api_key_stops_before_any_call (scripted key_in_environment))
    by reflexivity.
  reflexivity.
Defined.

(** [GEMINI_API_KEY] is empty and [GOOGLE_API_KEY] holds the key. *)
Lemma environment_key_stands_in_witness :
  generate_poster (scripted key_in_environment) "paper.pdf" no_paper_info
    "landscape" "2K" "pro" "English" None None None None "out.png" []
  = generate_poster (scripted key_in_environment) "paper.pdf" no_paper_info
      "landscape" "2K" "pro" "English" None None None (Some "from-env")
      "out.png" [].
Proof.
  apply (environment_key_stands_in (scripted key_in_environment)).
  - right. split; reflexivity.
  - reflexivity.
Defined.

Lemma unknown_model_is_refused_witness :
  generate_poster (scripted all_well) "paper.pdf" no_paper_info "landscape"
    "2K" "ultra" "English" None None None (Some "secret") "out.png" []
  = Run (Raised (Exn ValueError
                   "Invalid model: ultra. Must be 'pro' or 'flash'" None))
      [] [].
Proof.
  apply (unknown_model_is_refused (scripted all_well)); [reflexivity|..];
    discriminate.
Defined.

Lemma pdf_upload_failure_is_wrapped_witness :
  generate_poster (scripted pdf_unreadable) "paper.pdf" no_paper_info
    "landscape" "2K" "pro" "English" None (Some "more colour")
    (Some "old_poster.png") (Some "secret") "out.png" []
  = Run (Raised (Exn RuntimeError
                   "Failed to upload PDF file: No such file: paper.pdf"
                   (Some (Exn (OtherError "FileNotFoundError")
                            "No such file: paper.pdf" None))))
      [] [EvUpload "paper.pdf" "application/pdf"].
Proof.
  apply (pdf_upload_failure_is_wrapped (scripted pdf_unreadable) "paper.pdf"
           no_paper_info "landscape" "2K" "pro" "English" None
           (Some "more colour") (Some "old_poster.png") "secret" "out.png"
           "gemini-3-pro-image-preview"
           (Exn (OtherError "FileNotFoundError") "No such file: paper.pdf"
              None) [] []);
    reflexivity.
Defined.

Lemma answer_without_image_is_an_error_witness :
  res (generate_poster (scripted text_only) "paper.pdf" no_paper_info
         "landscape" "2K" "pro" "English" None None None (Some "secret")
         "out.png" [])
  = Raised (Exn RuntimeError "No image was generated in the API response"
              None)
  ∧ world (generate_poster (scripted text_only) "paper.pdf" no_paper_info
             "landscape" "2K" "pro" "English" None None None (Some "secret")
             "out.png" [])
    = [].
Proof.
  destruct (answer_without_image_is_an_error (scripted text_only)
              "paper.pdf" no_paper_info "landscape" "2K" "pro" "English"
              None None None "secret" "out.png" "gemini-3-pro-image-preview"
              {| file_name := "files/paper.pdf";
                 file_uri := "https://files/paper.pdf" |}
              None [None; None] [] ["files/paper.pdf"] ["files/paper.pdf"]
              ["files/paper.pdf"])
    as (Hres & Hworld & _);
    [reflexivity|reflexivity|reflexivity|split; reflexivity|reflexivity
    |repeat constructor|].
  split; [exact Hres|]. rewrite Hworld. reflexivity.
Defined.

(** The poster is returned although the service refused both
    deletions; the files stay with the service. *)
Lemma first_image_is_saved_witness :
  ∃ before,
    generate_poster (scripted deletion_refused) "paper.pdf" no_paper_info
      "landscape" "2K" "pro" "English" None (Some "more colour")
      (Some "old_poster.png") (Some "secret") "out.png" []
    = Run (Ok "out.png") ["files/paper.pdf"; "files/old_poster.png"]
        (before ++ [EvSave "out.png"])
    ∧ EvDelete "files/paper.pdf" ∈ before
    ∧ EvDelete "files/old_poster.png" ∈ before.
Proof.
  destruct (first_image_is_saved (scripted deletion_refused)
              "paper.pdf" no_paper_info "landscape" "2K" "pro" "English"
              None (Some "more colour") (Some "old_poster.png") "secret"
              "out.png" "gemini-3-pro-image-preview"
              {| file_name := "files/paper.pdf";
                 file_uri := "https://files/paper.pdf" |}
              (Some {| file_name := "files/old_poster.png";
                       file_uri := "https://files/old_poster.png" |})
              [None; Some "first"; Some "second"] "first"
              [] ["files/paper.pdf"]
              ["files/paper.pdf"; "files/old_poster.png"]
              ["files/paper.pdf"; "files/old_poster.png"]
              ["files/paper.pdf"; "files/old_poster.png"])
    as (before & Hrun & Hpdf & Hposter & _);
    [reflexivity|reflexivity|reflexivity| |reflexivity|reflexivity
    |reflexivity|].
  { eexists. split; reflexivity. }
  exists before. split_and!; [exact Hrun|exact Hpdf|exact (Hposter _ eq_refl)].
Defined.

End OrchestratorEdges.

(** ** The driver: refusals, single papers and temporary files *)

Module DriverEdges.

Import Runtime Cli RuntimeFacts Termination Batch BatchFacts DriverFacts.

Lemma find_variant_sound exists_ path_of fuel start n :
  find_variant fuel exists_ path_of start = Some n →
  start ≤ n < start + fuel
  ∧ exists_ (path_of n) = false
  ∧ ∀ k, start ≤ k < n → exists_ (path_of k) = true.
Proof.
  revert start. induction fuel as [|fuel IH]; intros start Hfind; [done|].
  cbn [find_variant] in Hfind.
  destruct (exists_ (path_of start)) eqn:Hstart.
  - apply IH in Hfind as (Hn & Hfree & Hex).
    split; [lia|]. split; [done|].
    intros k Hk. destruct (decide (k = start)) as [->|Hne]; [done|].
    apply Hex. lia.
  - injection Hfind as <-. split; [lia|]. split; [done|]. intros k Hk. lia.
Qed.

Section WithEnv.
Context {W : Type} (env : Env W).

(** X15: a what-if request never chooses a file that is there: the path
    chosen is a numbered variant that does not exist, all variants with
    smaller numbers exist, and the base poster exists and is left alone. *)
Theorem whatif_never_overwrites fuel args arxiv_id w p w' t :
  output args = None →
  Str.truthy_opt (whatif args) = true →
  choose_output_path env fuel args arxiv_id w = Run (Ok (Some p)) w' t →
  path_exists env p w = false
  ∧ path_exists env (base_path args arxiv_id) w = true
  ∧ (∃ n, 1 ≤ n ≤ fuel ∧ p = variant_path args arxiv_id n
          ∧ ∀ k, 1 ≤ k < n →
              path_exists env (variant_path args arxiv_id k) w = true)
  ∧ w' = w ∧ t = [].
Proof.
  intros Hout Hwhatif. unfold choose_output_path. rewrite Hout, Hwhatif.
  erewrite bind_ok by reflexivity. cbv beta.
  destruct (path_exists env (base_path args arxiv_id) w) eqn:Hbase.
  - change (negb true) with false. cbv iota.
    erewrite bind_ok by reflexivity. cbv beta.
    destruct (find_variant fuel _ _ 1) as [n|] eqn:Hfind; [|done].
    intros [= <- <- <-].
    apply find_variant_sound in Hfind as (Hn & Hfree & Hex).
    split_and!; [done|done| |done|done].
    exists n. split_and!; [lia|lia|done|done].
  - change (negb false) with true. cbv iota. intros Hrun.
    erewrite bind_ok in Hrun by reflexivity. cbv beta in Hrun.
    erewrite bind_ok in Hrun by reflexivity. done.
Qed.

(** X16: [--output] next to several identifiers.  [main] creates the
    output directory, prints two lines on the error stream and returns
    1; no paper is looked up, and the resolution warning is not
    printed either. *)
Theorem output_with_several_ids_is_refused fuel args out w w1 :
  1 < length (arxiv_ids args) →
  output args = Some out →
  path_mkdir env (Path.normalize (output_dir args)) w = (inr tt, w1) →
  main env fuel args w
  = Run (Ok 1) w1
      [EvMkdir (Path.normalize (output_dir args));
       EvStderr (mark_error +:+ " Error: --output option cannot be used when processing multiple arXiv IDs.");
       EvStderr "   Each paper will be saved with its default filename in the output directory."].
Proof.
  intros Hn Hout Hmk. unfold main, main_with.
  erewrite bind_ok by (apply call_inr, Hmk). cbv beta.
  rewrite length_fmap. apply Nat.ltb_lt in Hn. rewrite Hn, Hout.
  rewrite bool_decide_true by done. reflexivity.
Qed.

(** X17: [--whatif] next to several identifiers.  After the output
    directory and the resolution warning, if one is due, [main] prints
    one line on the error stream and returns 1; no paper is looked up. *)
Theorem whatif_with_several_ids_is_refused fuel args w w1 :
  1 < length (arxiv_ids args) →
  output args = None →
  Str.truthy_opt (whatif args) = true →
  path_mkdir env (Path.normalize (output_dir args)) w = (inr tt, w1) →
  main env fuel args w
  = Run (Ok 1) w1
      (EvMkdir (Path.normalize (output_dir args))
       :: (if Str.eqb (model args) "flash"
              && negb (Str.eqb (resolution args) "2K")
           then [EvStderr warning_resolution_ignored] else [])
       ++ [EvStderr (mark_error +:+ " Error: --whatif cannot be used when processing multiple arXiv IDs.")]).
Proof.
  intros Hn Hout Hwhatif Hmk. unfold main, main_with.
  erewrite bind_ok by (apply call_inr, Hmk). cbv beta.
  rewrite length_fmap. apply Nat.ltb_lt in Hn. rewrite Hn, Hout, Hwhatif.
  rewrite bool_decide_false by (intros H; by apply H).
  change (true && false) with false. change (true && true) with true.
  cbv iota.
  destruct (Str.eqb (model args) "flash"
            && negb (Str.eqb (resolution args) "2K")); reflexivity.
Qed.

(** The run of [main] on a single identifier. *)
Lemma main_single fuel args arxiv_id w w1 :
  arxiv_ids args = [arxiv_id] →
  path_mkdir env (Path.normalize (output_dir args)) w = (inr tt, w1) →
  let turn :=
    iteration env
      (λ arxiv_id, ArxivDownloader.download_arxiv_pdf env arxiv_id None)
      (PosterGenerator.generate_poster env) fuel args 1 1
      (normalize_arxiv_id arxiv_id) (0, []) w1 in
  main env fuel args w
  = Run (match res turn with
         | Ok (success_count, _) => Ok (if 0 <? success_count then 0 else 1)
         | Raised e => Raised e
         | Diverged => Diverged
         end)
      (world turn)
      (EvMkdir (Path.normalize (output_dir args))
       :: (if Str.eqb (model args) "flash"
              && negb (Str.eqb (resolution args) "2K")
           then [EvStderr warning_resolution_ignored] else [])
       ++ trace turn).
Proof.
  intros Hids Hmk. cbv zeta.
  rewrite (main_run env fuel args w w1 Hmk); rewrite Hids;
    [|done|by rewrite andb_false_r].
  cbn [fmap list_fmap length process_ids]. unfold bind.
  destruct (iteration env _ _ fuel args 1 1 _ (0, []) w1)
    as [[[sc failed]|e|] wt tt]; cbn [res world trace]; [|done|done].
  unfold ret, summary. cbn [res world trace Nat.ltb Nat.leb].
  by rewrite !app_nil_r.
Qed.

(** X18: a what-if request whose base poster is not on disk, with the
    default output path.  [main] prints the two lines that say so and
    returns 1; there is no other event: no lookup, no download, no
    upload. *)
Theorem whatif_without_base_poster_makes_no_call fuel args arxiv_id w w1 :
  arxiv_ids args = [arxiv_id] →
  output args = None →
  Str.truthy_opt (whatif args) = true →
  path_mkdir env (Path.normalize (output_dir args)) w = (inr tt, w1) →
  path_exists env (base_path args (normalize_arxiv_id arxiv_id)) w1 = false →
  main env fuel args w
  = Run (Ok 1) w1
      (EvMkdir (Path.normalize (output_dir args))
       :: (if Str.eqb (model args) "flash"
              && negb (Str.eqb (resolution args) "2K")
           then [EvStderr warning_resolution_ignored] else [])
       ++ [EvStderr (mark_error
                     +:+ " Error: Existing poster file not found: "
                     +:+ base_path args (normalize_arxiv_id arxiv_id));
           EvStderr "   Please generate the base poster first without --whatif."]).
Proof.
  intros Hids Hout Hwhatif Hmk Hbase.
  rewrite (main_single fuel args arxiv_id w w1 Hids Hmk).
  rewrite (whatif_without_base_gives_up env _ _ fuel args 1 1
             (normalize_arxiv_id arxiv_id) w1 0 [] Hout Hwhatif Hbase).
  reflexivity.
Qed.

(** The only turn of the loop when there is a single identifier. *)
Lemma iteration_single fuel args arxiv_id w :
  let attempt :=
    try_body env
      (λ arxiv_id, ArxivDownloader.download_arxiv_pdf env arxiv_id None)
      (PosterGenerator.generate_poster env) fuel args arxiv_id w in
  res attempt ≠ Diverged →
  ∃ after,
    iteration env
      (λ arxiv_id, ArxivDownloader.download_arxiv_pdf env arxiv_id None)
      (PosterGenerator.generate_poster env) fuel args 1 1 arxiv_id (0, []) w
    = Run (Ok (match res attempt with
               | Ok Completed => (1, [])
               | _ => (0, [arxiv_id])
               end))
        (world attempt) (trace attempt ++ after)
    ∧ stdout_of after = []
    ∧ remote_calls after = [].
Proof.
  cbv zeta. intros Hend. unfold iteration.
  destruct (try_body env _ _ fuel args arxiv_id w) as [r wb tb] eqn:Hbody.
  cbn [res world trace] in Hend |- *.
  destruct r as [[]|e|]; [| | |done].
  - exists []. split; [|done].
    unfold bind, when, try_except, print, emit, ret.
    cbn [res world trace Nat.ltb Nat.leb]. rewrite Hbody.
    cbn [res world trace app]. by rewrite !app_nil_r.
  - exists []. split; [|done].
    unfold bind, when, try_except, print, emit, ret.
    cbn [res world trace Nat.ltb Nat.leb]. rewrite Hbody.
    cbn [res world trace app]. by rewrite !app_nil_r.
  - destruct (is_ValueError e) eqn:Hcls, (verbose args) eqn:Hverb;
      eexists; (split; [|shelve]);
      unfold bind, when, try_except, print, eprint, emit, ret;
      rewrite ?Hverb; cbn [res world trace Nat.ltb Nat.leb]; rewrite Hbody;
      cbn [res world trace]; rewrite Hcls; cbn [res world trace app];
      reflexivity.
    Unshelve. all: done.
Qed.

(** With a bound that reaches a free variant number the search ends. *)
Lemma find_variant_finds exists_ path_of fuel start n :
  start ≤ n < start + fuel →
  exists_ (path_of n) = false →
  ∃ k, find_variant fuel exists_ path_of start = Some k.
Proof.
  revert start. induction fuel as [|fuel IH]; intros start Hn Hfree; [lia|].
  cbn [find_variant].
  destruct (exists_ (path_of start)) eqn:Hstart; [|by eexists].
  apply IH; [|done].
  destruct (decide (n = start)) as [->|Hne]; [congruence|lia].
Qed.

(** The attempt on one paper comes to an end when the bound on the
    search for a variant number, where there is such a search, reaches a
    free one. *)
Lemma try_body_ends fuel args arxiv_id w :
  (output args = None → Str.truthy_opt (whatif args) = true →
   path_exists env (base_path args arxiv_id) w = true →
   ∃ n, 1 ≤ n ≤ fuel
        ∧ path_exists env (variant_path args arxiv_id n) w = false) →
  res (try_body env
         (λ arxiv_id, ArxivDownloader.download_arxiv_pdf env arxiv_id None)
         (PosterGenerator.generate_poster env) fuel args arxiv_id w)
  ≠ Diverged.
Proof.
  intros Hfuel. unfold try_body.
  assert (Hc : res (choose_output_path env fuel args arxiv_id w) ≠ Diverged).
  { unfold choose_output_path. destruct (output args) as [out|].
    - unfold bind, call.
      by destruct (path_mkdir env _ w) as [[e|[]] w'].
    - destruct (Str.truthy_opt (whatif args)); [|done].
      erewrite bind_ok by reflexivity. cbv beta.
      destruct (path_exists env (base_path args arxiv_id) w); [|done].
      destruct (Hfuel eq_refl eq_refl eq_refl) as (n & Hn & Hfree).
      change (negb true) with false. cbv iota.
      erewrite bind_ok by reflexivity. cbv beta.
      destruct (find_variant_finds (λ p, path_exists env p w)
                  (variant_path args arxiv_id) fuel 1 n) as [k Hk];
        [lia|done|].
      by rewrite Hk. }
  unfold bind at 1.
  destruct (choose_output_path env fuel args arxiv_id w)
    as [[[p|]|e|] wc tc]; cbn [res world trace] in Hc |- *; [|done..].
  apply terminates_bind; [|intros ?; by apply terminates_ret].
  apply process_paper_terminates.
  - intros id. apply download_arxiv_pdf_terminates.
  - apply generate_poster_terminates.
Qed.

(** X19: a single identifier.  [main] makes one attempt, prints neither
    a progress line nor a summary, and returns 0 exactly when the
    attempt ran to its end; it never raises.  Where the attempt searches
    for a free variant number (a what-if request without [--output],
    the base poster on disk), the bound on the search has to reach one. *)
Theorem single_paper_exit_code fuel args arxiv_id w w1 :
  arxiv_ids args = [arxiv_id] →
  path_mkdir env (Path.normalize (output_dir args)) w = (inr tt, w1) →
  (output args = None → Str.truthy_opt (whatif args) = true →
   path_exists env (base_path args (normalize_arxiv_id arxiv_id)) w1 = true →
   ∃ n, 1 ≤ n ≤ fuel
        ∧ path_exists env
            (variant_path args (normalize_arxiv_id arxiv_id) n) w1 = false) →
  let attempt :=
    try_body env
      (λ arxiv_id, ArxivDownloader.download_arxiv_pdf env arxiv_id None)
      (PosterGenerator.generate_poster env) fuel args
      (normalize_arxiv_id arxiv_id) w1 in
  ∃ after,
    main env fuel args w
    = Run (Ok (match res attempt with Ok Completed => 0 | _ => 1 end))
        (world attempt)
        (EvMkdir (Path.normalize (output_dir args))
         :: (if Str.eqb (model args) "flash"
                && negb (Str.eqb (resolution args) "2K")
             then [EvStderr warning_resolution_ignored] else [])
         ++ trace attempt ++ after)
    ∧ stdout_of after = []
    ∧ remote_calls after = [].
Proof.
  intros Hids Hmk Hfuel attempt.
  pose proof (try_body_ends fuel args (normalize_arxiv_id arxiv_id) w1 Hfuel)
    as Hend.
  rewrite (main_single fuel args arxiv_id w w1 Hids Hmk).
  destruct (iteration_single fuel args (normalize_arxiv_id arxiv_id) w1 Hend)
    as (after & -> & Hout & Hremote).
  fold attempt. exists after. split; [|done].
  cbn [res world trace]. by destruct (res attempt) as [[]|e|].
Qed.

End WithEnv.

(** The temporary PDF, for whatever functions [main] is given to
    download and to generate. *)
Section TemporaryFile.
Context {W : Type} (env : Env W).
Context (download_arxiv_pdf : downloader W) (generate_poster : generator W).

Lemma when_print_run (b : bool) (lines : list string) (m : M W unit) w :
  m w = Run (Ok tt) w (EvStdout <$> lines) →
  when b m w = Run (Ok tt) w (EvStdout <$> (if b then lines else [])).
Proof. intros Hm. by destruct b. Qed.

(** The run of [process_paper] up to the call of the generator. *)
Lemma process_paper_run args arxiv_id output_path pdf_path metadata w w1 t1 :
  download_arxiv_pdf arxiv_id w = Run (Ok (pdf_path, metadata)) w1 t1 →
  let g :=
    generate_poster pdf_path
      (PdfProcessor.extract_paper_info pdf_path metadata)
      (orientation args) (resolution args) (model args) (language args)
      (side_panel args) (whatif args)
      (if Str.truthy_opt (whatif args)
       then Some (base_path args arxiv_id) else None)
      (api_key args) output_path w1 in
  ∃ shown1 shown2 shown3,
    (verbose args = false → shown1 = [] ∧ shown2 = [] ∧ shown3 = [])
    ∧ process_paper env download_arxiv_pdf generate_poster args arxiv_id
        output_path w
      = match res g with
        | Ok final =>
            Run (Ok tt)
              (if Str.contains "/tmp" pdf_path
               then (os_remove env pdf_path (world g)).2 else world g)
              ((EvStdout <$> shown1) ++ t1 ++ (EvStdout <$> shown2)
               ++ trace g ++ (EvStdout <$> shown3)
               ++ EvStdout (mark_sparkles +:+ " Poster saved to: " +:+ final)
               :: (if Str.contains "/tmp" pdf_path
                   then [EvRemove pdf_path] else []))
        | Raised e =>
            Run (Raised e) (world g)
              ((EvStdout <$> shown1) ++ t1 ++ (EvStdout <$> shown2)
               ++ trace g)
        | Diverged =>
            Run Diverged (world g)
              ((EvStdout <$> shown1) ++ t1 ++ (EvStdout <$> shown2)
               ++ trace g)
        end.
Proof.
  intros Hdl. cbv zeta. unfold process_paper.
  destruct (verbose args) eqn:Hv.
  - eexists [_], [_; _; _; _; _; _], [_]. split; [done|].
    cbn [when].
    erewrite bind_ok by reflexivity. cbv beta.
    erewrite bind_ok by exact Hdl. cbv beta iota.
    do 4 (erewrite bind_ok by reflexivity; cbv beta;
          cbn [res world trace print emit]).
    destruct (generate_poster _ _ _ _ _ _ _ _ _ _ _ w1)
      as [[final|e|] wg tg] eqn:Hg; cbn [res world trace].
    + erewrite bind_ok by exact Hg. cbv beta.
      do 2 (erewrite bind_ok by reflexivity; cbv beta;
            cbn [res world trace print emit]).
      destruct (Str.contains "/tmp" pdf_path); cbn [when].
      * rewrite ignore_errors_call. cbn [res world trace fmap list_fmap app].
        by rewrite <-?(assoc_L (++)).
      * cbn [res world trace fmap list_fmap app ret].
        by rewrite <-?(assoc_L (++)).
    + erewrite bind_raised by exact Hg.
      cbn [res world trace fmap list_fmap app].
      by rewrite <-?(assoc_L (++)).
    + erewrite bind_diverged by exact Hg.
      cbn [res world trace fmap list_fmap app].
      by rewrite <-?(assoc_L (++)).
  - exists [], [], []. split; [done|].
    cbn [when].
    erewrite bind_ok by reflexivity. cbv beta.
    erewrite bind_ok by exact Hdl. cbv beta iota.
    do 4 (erewrite bind_ok by reflexivity; cbv beta;
          cbn [res world trace ret]).
    destruct (generate_poster _ _ _ _ _ _ _ _ _ _ _ w1)
      as [[final|e|] wg tg] eqn:Hg; cbn [res world trace].
    + erewrite bind_ok by exact Hg. cbv beta.
      do 2 (erewrite bind_ok by reflexivity; cbv beta;
            cbn [res world trace print emit ret]).
      destruct (Str.contains "/tmp" pdf_path); cbn [when].
      * rewrite ignore_errors_call. cbn [res world trace fmap list_fmap app].
        by rewrite ?app_nil_r.
      * cbn [res world trace fmap list_fmap app ret].
        by rewrite ?app_nil_r.
    + erewrite bind_raised by exact Hg.
      cbn [res world trace fmap list_fmap app]. by rewrite ?app_nil_r.
    + erewrite bind_diverged by exact Hg.
      cbn [res world trace fmap list_fmap app]. by rewrite ?app_nil_r.
Qed.

(** X20: after a poster was generated its path is printed, and the
    PDF is removed when its path holds [/tmp]; whether the removal works
    plays no part: the paper is done. *)
Theorem temporary_pdf_is_removed_after_success args arxiv_id output_path
    pdf_path metadata final w w1 t1 w2 t2 :
  download_arxiv_pdf arxiv_id w = Run (Ok (pdf_path, metadata)) w1 t1 →
  generate_poster pdf_path
    (PdfProcessor.extract_paper_info pdf_path metadata)
    (orientation args) (resolution args) (model args) (language args)
    (side_panel args) (whatif args)
    (if Str.truthy_opt (whatif args)
     then Some (base_path args arxiv_id) else None)
    (api_key args) output_path w1
  = Run (Ok final) w2 t2 →
  Str.contains "/tmp" pdf_path = true →
  ∃ before,
    process_paper env download_arxiv_pdf generate_poster args arxiv_id
      output_path w
    = Run (Ok tt) (os_remove env pdf_path w2).2
        (before
         ++ [EvStdout (mark_sparkles +:+ " Poster saved to: " +:+ final);
             EvRemove pdf_path]).
Proof.
  intros Hdl Hgen Htmp.
  destruct (process_paper_run args arxiv_id output_path pdf_path metadata
              w w1 t1 Hdl) as (s1 & s2 & s3 & _ & ->).
  rewrite Hgen, Htmp. cbn [res world trace].
  eexists. by rewrite !(assoc_L (++)).
Qed.

(** X21: when the generator raises, the paper is given up with that
    error right after the generator's last event: the temporary PDF is
    not removed. *)
Theorem temporary_pdf_is_kept_after_failure args arxiv_id output_path
    pdf_path metadata e w w1 t1 w2 t2 :
  download_arxiv_pdf arxiv_id w = Run (Ok (pdf_path, metadata)) w1 t1 →
  generate_poster pdf_path
    (PdfProcessor.extract_paper_info pdf_path metadata)
    (orientation args) (resolution args) (model args) (language args)
    (side_panel args) (whatif args)
    (if Str.truthy_opt (whatif args)
     then Some (base_path args arxiv_id) else None)
    (api_key args) output_path w1
  = Run (Raised e) w2 t2 →
  ∃ shown1 shown2,
    process_paper env download_arxiv_pdf generate_poster args arxiv_id
      output_path w
    = Run (Raised e) w2
        ((EvStdout <$> shown1) ++ t1 ++ (EvStdout <$> shown2) ++ t2).
Proof.
  intros Hdl Hgen.
  destruct (process_paper_run args arxiv_id output_path pdf_path metadata
              w w1 t1 Hdl) as (s1 & s2 & s3 & _ & ->).
  rewrite Hgen. cbn [res world trace]. eauto.
Qed.

End TemporaryFile.

Import Scenario.

(** With the base poster and two variants on disk, the third variant is
    the one chosen. *)
Lemma whatif_never_overwrites_witness :
  path_exists (scripted two_variants)
    "outputs/poster_1706.03762_landscape_english_nopanel_var_3.png" []
  = false
  ∧ path_exists (scripted two_variants) base_poster [] = true.
Proof.
  destruct (whatif_never_overwrites (scripted two_variants) 10
              (with_whatif "more colour" (default_args ["1706.03762"]))
              "1706.03762" []
              "outputs/poster_1706.03762_landscape_english_nopanel_var_3.png"
              [] [])
    as (Hfree & Hbase & _); [reflexivity|reflexivity|vm_compute; reflexivity|].
  split; [exact Hfree|exact Hbase].
Defined.

Lemma output_with_several_ids_is_refused_witness :
  main (scripted all_well) 10
    (with_output "one.png" (with_model "flash" "4K" (default_args three_ids)))
    []
  = Run (Ok 1) []
      [EvMkdir "outputs";
       EvStderr (mark_error +:+ " Error: --output option cannot be used when processing multiple arXiv IDs.");
       EvStderr "   Each paper will be saved with its default filename in the output directory."].
Proof.
  apply (output_with_several_ids_is_refused (scripted all_well) 10
           (with_output "one.png"
              (with_model "flash" "4K" (default_args three_ids)))
           "one.png" [] []); [cbn; lia|reflexivity|reflexivity].
Defined.

Lemma whatif_with_several_ids_is_refused_witness :
  main (scripted two_variants) 10
    (with_whatif "more colour" (default_args three_ids)) []
  = Run (Ok 1) []
      [EvMkdir "outputs";
       EvStderr (mark_error +:+ " Error: --whatif cannot be used when processing multiple arXiv IDs.")].
Proof.
  apply (whatif_with_several_ids_is_refused (scripted two_variants) 10
           (with_whatif "more colour" (default_args three_ids)) [] []);
    [cbn; lia|reflexivity|reflexivity|reflexivity].
Defined.

Lemma whatif_without_base_poster_makes_no_call_witness :
  main (scripted no_base_poster) 10
    (with_whatif "more colour" (default_args ["arxiv:1706.03762"])) []
  = Run (Ok 1) []
      [EvMkdir "outputs";
       EvStderr (mark_error +:+ " Error: Existing poster file not found: outputs/poster_1706.03762_landscape_english_nopanel.png");
       EvStderr "   Please generate the base poster first without --whatif."].
Proof.
  apply (whatif_without_base_poster_makes_no_call (scripted no_base_poster)
           10 (with_whatif "more colour" (default_args ["arxiv:1706.03762"]))
           "arxiv:1706.03762" [] []);
    reflexivity.
Defined.

(** One paper, found and drawn: exit code 0; one paper that the
    repository does not know: exit code 1; a what-if request with the
    base poster and two variants on disk: exit code 0. *)
Lemma single_paper_exit_code_witness :
  res (main (scripted all_well) 10 (default_args ["arxiv:1706.03762"]) [])
  = Ok 0
  ∧ res (main (scripted second_unknown) 10 (default_args ["2222.00002"]) [])
    = Ok 1
  ∧ res (main (scripted two_variants) 10
           (with_whatif "more colour" (default_args ["1706.03762"])) [])
    = Ok 0.
Proof.
  split_and!.
  - destruct (single_paper_exit_code (scripted all_well) 10
                (default_args ["arxiv:1706.03762"]) "arxiv:1706.03762" [] [])
      as (after & -> & _);
      [reflexivity|reflexivity|discriminate|].
    vm_compute. reflexivity.
  - destruct (single_paper_exit_code (scripted second_unknown) 10
                (default_args ["2222.00002"]) "2222.00002" [] [])
      as (after & -> & _);
      [reflexivity|reflexivity|discriminate|].
    vm_compute. reflexivity.
  - destruct (single_paper_exit_code (scripted two_variants) 10
                (with_whatif "more colour" (default_args ["1706.03762"]))
                "1706.03762" [] [])
      as (after & -> & _);
      [reflexivity|reflexivity| |].
    + intros _ _ _. exists 3. split; [lia|reflexivity].
    + vm_compute. reflexivity.
Defined.

Lemma temporary_pdf_is_removed_after_success_witness :
  ∃ before,
    process_paper (scripted all_well)
      (λ arxiv_id,
         ArxivDownloader.download_arxiv_pdf (scripted all_well) arxiv_id None)
      (PosterGenerator.generate_poster (scripted all_well))
      (default_args ["1706.03762"]) "1706.03762" "outputs/poster.png" []
    = Run (Ok tt) []
        (before
         ++ [EvStdout (mark_sparkles +:+ " Poster saved to: outputs/poster.png");
             EvRemove "/tmp/tmpdir/1706.03762.pdf"]).
Proof.
  eapply (temporary_pdf_is_removed_after_success (scripted all_well)
            _ _ (default_args ["1706.03762"]) "1706.03762"
            "outputs/poster.png" "/tmp/tmpdir/1706.03762.pdf"
            _ "outputs/poster.png" [] [] _ [] _).
  - vm_compute. reflexivity.
  - vm_compute. reflexivity.
  - reflexivity.
Defined.

Lemma temporary_pdf_is_kept_after_failure_witness :
  res (process_paper (scripted key_rejected)
         (λ arxiv_id,
            ArxivDownloader.download_arxiv_pdf (scripted key_rejected)
              arxiv_id None)
         (PosterGenerator.generate_poster (scripted key_rejected))
         (default_args ["1706.03762"]) "1706.03762" "outputs/poster.png" [])
  = Raised (PosterGenerator.api_key_error
              (Exn (OtherError "ClientError")
                 "400 INVALID_ARGUMENT. API key not valid." None))
  ∧ EvRemove "/tmp/tmpdir/1706.03762.pdf"
    ∉ trace (process_paper (scripted key_rejected)
               (λ arxiv_id,
                  ArxivDownloader.download_arxiv_pdf (scripted key_rejected)
                    arxiv_id None)
               (PosterGenerator.generate_poster (scripted key_rejected))
               (default_args ["1706.03762"]) "1706.03762"
               "outputs/poster.png" []).
Proof.
  edestruct (temporary_pdf_is_kept_after_failure (scripted key_rejected)
               (λ arxiv_id,
                  ArxivDownloader.download_arxiv_pdf (scripted key_rejected)
                    arxiv_id None)
               (PosterGenerator.generate_poster (scripted key_rejected))
               (default_args ["1706.03762"]) "1706.03762"
               "outputs/poster.png" "/tmp/tmpdir/1706.03762.pdf")
    as (shown1 & shown2 & Hrun).
  - vm_compute. reflexivity.
  - vm_compute. reflexivity.
  - rewrite Hrun. cbn [res trace]. split; [reflexivity|].
    rewrite !not_elem_of_app. split_and!.
    + intros (? & ? & _)%list_elem_of_fmap. discriminate.
    + rewrite !not_elem_of_cons. split_and!; try discriminate.
      apply not_elem_of_nil.
    + intros (? & ? & _)%list_elem_of_fmap. discriminate.
    + rewrite !not_elem_of_cons. split_and!; try discriminate.
      apply not_elem_of_nil.
Defined.

End DriverEdges.

(** ** Identifiers and file names *)

Module NamingFacts.

Import Cli.

Lemma rev_app_spec (s acc : string) :
  String.rev_app s acc = String.rev s +:+ acc.
Proof.
  unfold String.rev. revert acc.
  induction s as [|c s IH]; intros acc; [done|].
  cbn [String.rev_app]. rewrite IH, (IH (String c EmptyString)).
  by rewrite StrFacts.app_assoc.
Qed.

Lemma rev_cons (c : ascii) (s : string) :
  String.rev (String c s) = String.rev s +:+ String c EmptyString.
Proof. unfold String.rev at 1. cbn [String.rev_app]. apply rev_app_spec. Qed.

Lemma rev_app_distr (a b : string) :
  String.rev (a +:+ b) = String.rev b +:+ String.rev a.
Proof.
  induction a as [|c a IH].
  - by rewrite StrFacts.app_nil_l, StrFacts.app_nil_r.
  - rewrite StrFacts.app_cons, !rev_cons, IH.
    by rewrite StrFacts.app_assoc.
Qed.

Lemma rev_involutive (s : string) : String.rev (String.rev s) = s.
Proof.
  induction s as [|c s IH]; [done|].
  by rewrite rev_cons, rev_app_distr, IH.
Qed.

Lemma length_lstrip (s : string) :
  String.length (Str.lstrip s) ≤ String.length s.
Proof.
  induction s as [|c s IH]; [done|].
  cbn [Str.lstrip]. destruct (Str.is_space c); cbn [String.length]; lia.
Qed.

(** A text that [lstrip] leaves alone is empty or begins with a
    character that is not white space. *)
Lemma lstrip_fixed_app (s t : string) :
  Str.lstrip s = s → s ≠ EmptyString → Str.lstrip (s +:+ t) = s +:+ t.
Proof.
  destruct s as [|c s]; [done|]. intros Hs _.
  rewrite StrFacts.app_cons. cbn [Str.lstrip] in Hs |- *.
  destruct (Str.is_space c); [|done].
  pose proof (length_lstrip s) as Hlen. rewrite Hs in Hlen.
  cbn [String.length] in Hlen. lia.
Qed.

(** White space in front is dropped. *)
Lemma lstrip_blank_app (b s : string) :
  Str.lstrip b = EmptyString → Str.lstrip (b +:+ s) = Str.lstrip s.
Proof.
  induction b as [|c b IH]; [done|].
  rewrite StrFacts.app_cons. cbn [Str.lstrip].
  destruct (Str.is_space c); [exact IH|done].
Qed.

Lemma lstrip_blank_rev_app (b acc : string) :
  Str.lstrip b = EmptyString → Str.lstrip acc = EmptyString →
  Str.lstrip (String.rev_app b acc) = EmptyString.
Proof.
  revert acc. induction b as [|c b IH]; intros acc Hb Hacc; [done|].
  cbn [String.rev_app]. cbn [Str.lstrip] in Hb.
  destruct (Str.is_space c) eqn:Hc; [|done].
  apply IH; [done|]. cbn [Str.lstrip]. by rewrite Hc.
Qed.

(** [strip] removes the white space around a text that has none at its
    ends. *)
Lemma strip_surrounded (pre core post : string) :
  Str.lstrip pre = EmptyString →
  Str.lstrip post = EmptyString →
  Str.lstrip core = core →
  Str.lstrip (String.rev core) = String.rev core →
  Str.strip (pre +:+ core +:+ post) = core.
Proof.
  intros Hpre Hpost Hcore Hrev. unfold Str.strip.
  rewrite lstrip_blank_app by done.
  destruct (decide (core = EmptyString)) as [->|Hne].
  - rewrite StrFacts.app_nil_l, Hpost. done.
  - rewrite lstrip_fixed_app by done.
    rewrite rev_app_distr, lstrip_blank_app, Hrev.
    + apply rev_involutive.
    + by apply lstrip_blank_rev_app.
Qed.

(** X22: the normalisation of an identifier.  The white space around
    it is dropped; then one leading [arxiv:], written exactly so, is
    removed, and what follows is kept as it is. *)
Theorem normalize_arxiv_id_spec (pre core post : string) :
  Str.lstrip pre = EmptyString →
  Str.lstrip post = EmptyString →
  Str.lstrip core = core →
  Str.lstrip (String.rev core) = String.rev core →
  normalize_arxiv_id (pre +:+ core +:+ post)
  = (if Str.startswith "arxiv:" core then Str.drop 6 core else core)
  ∧ normalize_arxiv_id (pre +:+ "arxiv:" +:+ core +:+ post) = core.
Proof.
  intros Hpre Hpost Hcore Hrev. unfold normalize_arxiv_id. split.
  - by rewrite (strip_surrounded pre core post).
  - destruct (decide (core = EmptyString)) as [->|Hne].
    + rewrite StrFacts.app_nil_l.
      by rewrite (strip_surrounded pre "arxiv:" post).
    + replace (pre +:+ "arxiv:" +:+ core +:+ post)
        with (pre +:+ ("arxiv:" +:+ core) +:+ post)
        by by rewrite !StrFacts.app_assoc.
      rewrite (strip_surrounded pre ("arxiv:" +:+ core) post); [done..|].
      rewrite rev_app_distr. apply lstrip_fixed_app; [done|].
      intros Hempty. apply Hne.
      by rewrite <-(rev_involutive core), Hempty.
Qed.

Lemma normalize_arxiv_id_spec_witness :
  normalize_arxiv_id "  arxiv:cs.CV/2401.12345 " = "cs.CV/2401.12345"
  ∧ normalize_arxiv_id " arXiv:1706.03762" = "arXiv:1706.03762".
Proof.
  split.
  - apply (normalize_arxiv_id_spec "  " "cs.CV/2401.12345" " "); reflexivity.
  - apply (normalize_arxiv_id_spec " " "arXiv:1706.03762" EmptyString);
      reflexivity.
Defined.

(** The language, as it enters the file name. *)
Lemma lower_char_not_upper (c : ascii) :
  Str.is_upper_az (Str.lower_char c) = false.
Proof. by destruct c as [[] [] [] [] [] [] [] []]. Qed.

(** X23: the language, as it enters the name of the poster file, holds
    no space and no capital letter from A to Z, whatever language was
    given. *)
Theorem language_in_file_name (args : Args) :
  Forall (λ c, c ≠ " "%char ∧ Str.is_upper_az c = false)
    (Str.to_list (lang_normalized args)).
Proof.
  unfold lang_normalized. generalize (language args) as s.
  induction s as [|c s IHall]; [by constructor|].
  cbn [Str.lower Str.replace_char Str.to_list list_ascii_of_string].
  constructor; [|exact IHall].
  case_bool_decide as Hc; [done|].
  split; [done|]. apply lower_char_not_upper.
Qed.

End NamingFacts.

(** ** What [--verbose] changes *)

Module VerboseFacts.

Import Runtime Cli Quiet.

Lemma effects_app (t1 t2 : list event) :
  effects (t1 ++ t2) = effects t1 ++ effects t2.
Proof. apply filter_app. Qed.

Lemma stderr_of_app (t1 t2 : list event) :
  stderr_of (t1 ++ t2) = stderr_of t1 ++ stderr_of t2.
Proof. apply omap_app. Qed.

Section Simulation.
Context {W : Type}.

Lemma same_refl {A} (m : M W A) : same_but_output m m.
Proof. by intros w. Qed.

Lemma same_bind {A B} (m m' : M W A) (k k' : A → M W B) :
  same_but_output m m' →
  (∀ a, same_but_output (k a) (k' a)) →
  same_but_output (bind m k) (bind m' k').
Proof.
  intros Hm Hk w. unfold bind.
  destruct (Hm w) as (Hres & Hworld & Heff & Herr).
  destruct (m w) as [r1 w1 t1], (m' w) as [r1' w1' t1'].
  cbn [res world trace] in *. subst r1' w1'.
  destruct r1 as [a|e|]; cbn [res world trace]; [|done..].
  destruct (Hk a w1) as (Hres2 & Hworld2 & Heff2 & Herr2).
  rewrite !effects_app, !stderr_of_app. by rewrite Heff, Herr, Heff2, Herr2.
Qed.

Lemma same_try_except {A} (m m' : M W A) (h h' : exn → M W A) :
  same_but_output m m' →
  (∀ e, same_but_output (h e) (h' e)) →
  same_but_output (try_except m h) (try_except m' h').
Proof.
  intros Hm Hh w. unfold try_except.
  destruct (Hm w) as (Hres & Hworld & Heff & Herr).
  destruct (m w) as [r1 w1 t1], (m' w) as [r1' w1' t1'].
  cbn [res world trace] in *. subst r1' w1'.
  destruct r1 as [a|e|]; cbn [res world trace]; [done| |done].
  destruct (Hh e w1) as (Hres2 & Hworld2 & Heff2 & Herr2).
  rewrite !effects_app, !stderr_of_app. by rewrite Heff, Herr, Heff2, Herr2.
Qed.

(** Lines on the standard output and tracebacks, printed or not. *)
Lemma same_when_print (b b' : bool) (line line' : string) :
  same_but_output (W:=W) (when b (print line)) (when b' (print line')).
Proof. by destruct b, b'. Qed.

Lemma same_when_print2 (b b' : bool) (l1 l2 l1' l2' : string) :
  same_but_output (W:=W) (when b (bind (print l1) (λ _, print l2)))
    (when b' (bind (print l1') (λ _, print l2'))).
Proof. by destruct b, b'. Qed.

Lemma same_when_traceback (b b' : bool) :
  same_but_output (W:=W) (when b (emit EvTraceback))
    (when b' (emit EvTraceback)).
Proof. by destruct b, b'. Qed.

End Simulation.

Section WithEnv.
Context {W : Type} (env : Env W).
Context (download_arxiv_pdf : downloader W) (generate_poster : generator W).

Lemma process_paper_same ids o od out m r l sp wi ak b b' arxiv_id
    output_path :
  same_but_output
    (process_paper env download_arxiv_pdf generate_poster
       {| arxiv_ids := ids; orientation := o; output_dir := od;
          output := out; model := m; resolution := r; language := l;
          side_panel := sp; whatif := wi; api_key := ak; verbose := b |}
       arxiv_id output_path)
    (process_paper env download_arxiv_pdf generate_poster
       {| arxiv_ids := ids; orientation := o; output_dir := od;
          output := out; model := m; resolution := r; language := l;
          side_panel := sp; whatif := wi; api_key := ak; verbose := b' |}
       arxiv_id output_path).
Proof.
  unfold process_paper.
  cbn [arxiv_ids orientation output_dir output model resolution language
       side_panel whatif api_key verbose].
  apply same_bind; [apply same_when_print|intros _].
  apply same_bind; [apply same_refl|intros [pdf_path metadata]].
  apply same_bind; [apply same_when_print2|intros _].
  apply same_bind; [apply same_when_print|intros _].
  apply same_bind; [apply same_when_print|intros _].
  apply same_bind; [apply same_when_print2|intros _].
  apply same_bind; [apply same_refl|intros final].
  apply same_bind; [apply same_when_print|intros _].
  apply same_refl.
Qed.

Lemma iteration_same fuel ids o od out m r l sp wi ak b b' n idx arxiv_id
    st :
  same_but_output
    (iteration env download_arxiv_pdf generate_poster fuel
       {| arxiv_ids := ids; orientation := o; output_dir := od;
          output := out; model := m; resolution := r; language := l;
          side_panel := sp; whatif := wi; api_key := ak; verbose := b |}
       n idx arxiv_id st)
    (iteration env download_arxiv_pdf generate_poster fuel
       {| arxiv_ids := ids; orientation := o; output_dir := od;
          output := out; model := m; resolution := r; language := l;
          side_panel := sp; whatif := wi; api_key := ak; verbose := b' |}
       n idx arxiv_id st).
Proof.
  unfold iteration. destruct st as [success_count failed_ids].
  apply same_bind; [apply same_refl|intros _].
  apply same_try_except.
  - apply same_bind; [|intros ?; apply same_refl].
    unfold try_body.
    apply same_bind; [apply same_refl|intros [p|]]; [|apply same_refl].
    apply same_bind; [apply process_paper_same|intros _; apply same_refl].
  - intros e. destruct (is_ValueError e); [apply same_refl|].
    apply same_bind; [apply same_refl|intros _].
    apply same_bind; [apply same_when_traceback|intros _].
    apply same_refl.
Qed.

Lemma process_ids_same fuel ids o od out m r l sp wi ak b b' n ids' :
  ∀ idx st,
    same_but_output
      (process_ids env download_arxiv_pdf generate_poster fuel
         {| arxiv_ids := ids; orientation := o; output_dir := od;
            output := out; model := m; resolution := r; language := l;
            side_panel := sp; whatif := wi; api_key := ak; verbose := b |}
         n idx ids' st)
      (process_ids env download_arxiv_pdf generate_poster fuel
         {| arxiv_ids := ids; orientation := o; output_dir := od;
            output := out; model := m; resolution := r; language := l;
            side_panel := sp; whatif := wi; api_key := ak; verbose := b' |}
         n idx ids' st).
Proof.
  induction ids' as [|id ids' IH]; intros idx st; [apply same_refl|].
  cbn [process_ids].
  apply same_bind; [apply iteration_same|intros st'; apply IH].
Qed.

End WithEnv.

(** X24: [--verbose] adds lines on the standard output and tracebacks,
    and changes nothing else.  With and without it [main] returns the
    same exit code and leaves the same world, after the same calls, in
    the same order, and the same messages on the error stream. *)
Theorem verbose_only_adds_output {W} (env : Env W) fuel args w :
  res (main env fuel (set_verbose true args) w)
  = res (main env fuel (set_verbose false args) w)
  ∧ world (main env fuel (set_verbose true args) w)
    = world (main env fuel (set_verbose false args) w)
  ∧ effects (trace (main env fuel (set_verbose true args) w))
    = effects (trace (main env fuel (set_verbose false args) w))
  ∧ stderr_of (trace (main env fuel (set_verbose true args) w))
    = stderr_of (trace (main env fuel (set_verbose false args) w)).
Proof.
  revert w. change (same_but_output (main env fuel (set_verbose true args))
                      (main env fuel (set_verbose false args))).
  destruct args as [ids o od out m r l sp wi ak v].
  unfold main, main_with, set_verbose.
  cbn [arxiv_ids orientation output_dir output model resolution language
       side_panel whatif api_key verbose].
  apply same_bind; [apply same_refl|intros _].
  destruct ((1 <? length (normalize_arxiv_id <$> ids))
            && bool_decide (out ≠ None)); [apply same_refl|].
  apply same_bind; [apply same_refl|intros _].
  destruct (Str.truthy_opt wi && (1 <? length (normalize_arxiv_id <$> ids)));
    [apply same_refl|].
  apply same_bind; [apply process_ids_same|intros st; apply same_refl].
Qed.

End VerboseFacts.

(** ** The prompt and the request *)

Module PromptFacts.

Import Runtime PosterGenerator.

Lemma startswith_app_l (p a b : string) :
  Str.startswith p a = true → Str.startswith p (a +:+ b) = true.
Proof.
  revert a. induction p as [|c p IH]; intros [|d a] Hp; [done..|].
  rewrite StrFacts.app_cons. cbn [Str.startswith] in Hp |- *.
  apply andb_true_iff in Hp as [-> Hp]. by rewrite IH.
Qed.

Lemma contains_app_l (p a b : string) :
  Str.contains p a = true → Str.contains p (a +:+ b) = true.
Proof.
  induction a as [|d a IH]; intros Hp.
  - cbn in Hp. rewrite orb_false_r in Hp.
    destruct p; [|done]. by destruct b.
  - rewrite StrFacts.app_cons. cbn [Str.contains] in Hp |- *.
    apply orb_true_iff in Hp as [Hp|Hp].
    + apply (startswith_app_l _ (String d a) b) in Hp.
      rewrite StrFacts.app_cons in Hp. by rewrite Hp.
    + rewrite IH by done. by rewrite orb_true_r.
Qed.

Lemma contains_refl (p : string) : Str.contains p p = true.
Proof.
  rewrite <-(StrFacts.app_nil_r p) at 2. apply StrFacts.contains_prefix.
Qed.

(** What one of the joined texts contains, the whole contains. *)
Lemma contains_join (p sep : string) (l : list string) (x : string) :
  x ∈ l → Str.contains p x = true → Str.contains p (Str.join sep l) = true.
Proof.
  intros Hx Hp. induction l as [|y l IH]; [by apply elem_of_nil in Hx|].
  apply elem_of_cons in Hx as [->|Hx].
  - destruct l as [|z l]; [done|].
    change (Str.join sep (y :: z :: l))
      with (y +:+ sep +:+ Str.join sep (z :: l)).
    by apply contains_app_l.
  - destruct l as [|z l]; [by apply elem_of_nil in Hx|].
    change (Str.join sep (y :: z :: l))
      with (y +:+ sep +:+ Str.join sep (z :: l)).
    by apply StrFacts.contains_app_r, StrFacts.contains_app_r, IH.
Qed.

(** X25: what every prompt says, whatever the request.  It names the
    orientation in capitals with the aspect ratio that the image
    configuration asks for, and the language; it quotes the what-if
    idea when there is one, and names the resolution for the pro
    model. *)
Theorem prompt_carries_the_request (orientation resolution model language
    : string) (side_panel whatif_text existing_poster_path : option string) :
  let prompt :=
    poster_prompt orientation resolution model language side_panel
      whatif_text existing_poster_path in
  let ratio := aspect_ratio orientation side_panel in
  image_config_params model resolution ratio !! "aspectRatio" = Some ratio
  ∧ Str.contains
      ("- Orientation: " +:+ Str.upper orientation +:+ " (" +:+ ratio
       +:+ " aspect ratio)") prompt = true
  ∧ Str.contains (", labels) in " +:+ language) prompt = true
  ∧ (∀ idea, whatif_text = Some idea → Str.truthy idea = true →
       Str.contains
         ("- The user wants to explore: " +:+ Str.dq +:+ idea +:+ Str.dq)
         prompt = true)
  ∧ (model = "pro" →
       Str.contains ("- Resolution: " +:+ resolution) prompt = true).
Proof.
  intros prompt ratio. subst prompt ratio. split_and!.
  - unfold image_config_params. destruct (Str.eqb model "pro").
    + rewrite lookup_insert_ne by done. apply lookup_singleton_eq.
    + apply lookup_singleton_eq.
  - unfold poster_prompt, Str.lines.
    eapply contains_join; [|apply contains_refl].
    apply (list_elem_of_lookup_2 _ 16). reflexivity.
  - unfold poster_prompt, Str.lines.
    eapply contains_join; [apply (list_elem_of_lookup_2 _ 17); reflexivity|].
    do 3 apply StrFacts.contains_app_r. apply contains_refl.
  - intros idea -> Hidea. unfold poster_prompt, Str.lines.
    eapply contains_join; [apply (list_elem_of_lookup_2 _ 2); reflexivity|].
    unfold whatif_section. rewrite Hidea. unfold Str.lines.
    eapply contains_join; [|apply contains_refl].
    apply (list_elem_of_lookup_2 _ 2). reflexivity.
  - intros ->. unfold poster_prompt, Str.lines.
    eapply contains_join; [apply (list_elem_of_lookup_2 _ 17); reflexivity|].
    unfold resolution_text. change (Str.eqb "pro" "pro") with true. cbv iota.
    apply contains_app_l.
    rewrite <-(StrFacts.app_assoc "- Resolution: " resolution Str.nl).
    apply contains_app_l, contains_refl.
Qed.

End PromptFacts.

(** ** The cleanup and the output directory *)

Module CleanupFacts.

Import Runtime Cli RuntimeFacts Scenario.


(** X27: the output directory is made before anything else, outside
    the loop that catches errors: when that fails the error leaves
    [main] as it is, where every later failure becomes an exit code. *)
Theorem output_dir_failure_escapes {W} (env : Env W) fuel args e w w1 :
  path_mkdir env (Path.normalize (output_dir args)) w = (inl e, w1) →
  main env fuel args w
  = Run (Raised e) w1 [EvMkdir (Path.normalize (output_dir args))].
Proof.
  intros Hmk. unfold main, main_with.
  erewrite bind_raised; [done|]. by apply call_inl.
Qed.

Lemma output_dir_failure_escapes_witness :
  main (read_only_disk all_well) 10 (default_args ["1706.03762"]) []
  = Run (Raised (Exn (OtherError "PermissionError")
                   "Permission denied: outputs" None))
      [] [EvMkdir "outputs"].
Proof.
  apply (output_dir_failure_escapes (read_only_disk all_well) 10
           (default_args ["1706.03762"])).
  reflexivity.
Defined.

End CleanupFacts.

(** ** Reports of failures *)

Module ReportFacts.

Import Runtime Cli RuntimeFacts PosterGenerator.

Lemma lower_app (a b : string) :
  Str.lower (a +:+ b) = Str.lower a +:+ Str.lower b.
Proof.
  induction a as [|c a IH]; [done|].
  rewrite StrFacts.app_cons. cbn [Str.lower].
  by rewrite IH, StrFacts.app_cons.
Qed.

(** X28: the markers of a credential problem in the text of a failed
    generation call.  [API key] and [API_KEY] count as they are written;
    [expired] counts in any mix of upper and lower case. *)
Theorem credential_markers (before after marker : string) :
  (marker = "API key" ∨ marker = "API_KEY" ∨ Str.lower marker = "expired") →
  is_api_key_error (before +:+ marker +:+ after) = true.
Proof.
  unfold is_api_key_error. intros [->|[->|Hm]].
  - by rewrite StrFacts.contains_middle.
  - by rewrite StrFacts.contains_middle, orb_true_r.
  - rewrite !lower_app, Hm, StrFacts.contains_middle.
    by rewrite !orb_true_r.
Qed.

Lemma credential_markers_witness :
  is_api_key_error "403 Your key has EXPIRED." = true
  ∧ is_api_key_error "400 invalid api key" = false.
Proof.
  split; [|reflexivity].
  apply (credential_markers "403 Your key has " "." "EXPIRED").
  right. right. reflexivity.
Defined.

Section WithEnv.
Context {W : Type} (env : Env W).
Context (download_arxiv_pdf : downloader W) (generate_poster : generator W).

(** X29: how a failed attempt is reported.  Whatever raised inside the
    body of the loop, the identifier joins the failed ones and one line
    goes to the error stream: [Error processing] for a ValueError,
    [Unexpected error processing] for any other error, each with the
    identifier and the text of the error; a traceback follows only for
    the latter, and only with [--verbose].  The count of successes does
    not move and the loop goes on. *)
Theorem failed_attempt_is_reported fuel args n idx arxiv_id
    success_count failed_ids e w w1 t1 :
  try_body env download_arxiv_pdf generate_poster fuel args arxiv_id w
  = Run (Raised e) w1 t1 →
  iteration env download_arxiv_pdf generate_poster fuel args n idx arxiv_id
    (success_count, failed_ids) w
  = Run (Ok (success_count, failed_ids ++ [arxiv_id])) w1
      ((if 1 <? n
        then [EvStdout (Str.nl +:+ "[" +:+ Str.of_nat idx +:+ "/"
                        +:+ Str.of_nat n +:+ "] Processing "
                        +:+ arxiv_id +:+ "...")]
        else [])
       ++ t1
       ++ EvStderr (mark_error
                    +:+ (if is_ValueError e then " Error processing "
                         else " Unexpected error processing ")
                    +:+ arxiv_id +:+ ": " +:+ exn_str e)
       :: (if negb (is_ValueError e) && verbose args
           then [EvTraceback] else [])).
Proof.
  intros Hbody. unfold iteration.
  assert (Hturn :
    bind (try_body env download_arxiv_pdf generate_poster fuel args arxiv_id)
      (λ r, match r with
            | Completed => ret (S success_count, failed_ids)
            | Continued => ret (success_count, failed_ids ++ [arxiv_id])
            end) w
    = Run (Raised e) w1 t1).
  { by erewrite bind_raised. }
  destruct (1 <? n); unfold when.
  - erewrite bind_ok by reflexivity. cbv beta.
    erewrite try_except_raised by exact Hturn.
    destruct (is_ValueError e), (verbose args); reflexivity.
  - erewrite bind_ok by reflexivity. cbv beta.
    erewrite try_except_raised by exact Hturn.
    destruct (is_ValueError e), (verbose args); reflexivity.
Qed.

End WithEnv.

Import Scenario.

(** The second paper of a batch of three is unknown: a ValueError. *)
Lemma failed_attempt_is_reported_witness :
  iteration (scripted second_unknown)
    (λ arxiv_id,
       ArxivDownloader.download_arxiv_pdf (scripted second_unknown)
         arxiv_id None)
    (PosterGenerator.generate_poster (scripted second_unknown)) 10
    (default_args three_ids) 3 2 "2222.00002" (1, []) []
  = Run (Ok (1, ["2222.00002"])) []
      [EvStdout (Str.nl +:+ "[2/3] Processing 2222.00002...");
       EvMkdtemp; EvMakedirs "/tmp/tmpdir"; EvArxivResults "2222.00002";
       EvStderr (mark_error +:+ " Error processing 2222.00002: Paper with ID 2222.00002 not found on arXiv")].
Proof.
  apply (failed_attempt_is_reported (scripted second_unknown) _ _ 10
           (default_args three_ids) 3 2 "2222.00002" 1 []
           (Exn ValueError "Paper with ID 2222.00002 not found on arXiv"
              None)
           [] []
           [EvMkdtemp; EvMakedirs "/tmp/tmpdir"; EvArxivResults "2222.00002"]).
  vm_compute. reflexivity.
Defined.

End ReportFacts.
